(** * PDF OCR Processor: a shallow embedding of the detection heuristic,
      the OCR invoker, the path validators and the orchestrator.

    Source files embedded here:
    - [src/core/pdf_detector.py]  (class [PDFDetector])
    - [src/core/ocr_processor.py] (class [OCRProcessor])
    - [src/utils/validators.py]   (classes [FileValidator] and
      [SystemValidator])
    - [src/core/file_manager.py]  ([FileManager.validate_paths],
      [__init__], [setup_directories], [generate_output_filename])
    - [src/utils/config.py]       (class [Config])
    - [src/main.py]               ([validate_system], [process_single_pdf],
      [main])

    Modelling conventions.
    - Python [dict]s are [gmap string value]; [d[k]] raises [KeyError] on a
      missing key, [d.get(k, v)] is [default v (d !! k)].
    - Python [int] is [Z]; Python [float] is an exact rational [Q].  The
      float operations of the program are divisions of two integers and
      comparisons of the quotient with a constant ([50] and [0.1] in the
      analyzer, [100] in the validator); on page counts below [2^48] and
      file sizes below [2^53] the correctly rounded quotient compares with
      these constants exactly as the rational one does.
    - Extracted page text is a list of Unicode code points.
    - The libraries ([fitz], [PyPDF2], [ocrmypdf], [shutil], the file
      system) are oracles gathered in a record [env]; every theorem holds
      for every behaviour of these oracles.
    - Effects are a state-and-exception monad [M] over a [world]: the file
      system and the trace of library calls.  Console output and logging
      are not modelled.
    - [try_except body handler] is a [try] with its [except] clauses; an
      exception raised while the expression of a clause is evaluated
      leaves the statement, and is a [handler] that raises.
    - A Python [str] is a [string], the bytes of its UTF-8 encoding.  The
      output of a process, which [strip] and [split] read character by
      character, is a list of code points like page text; [encode]
      relates the two.
    - The processes started with [subprocess.run], the test for an
      executable and the plain [mkdir] are oracles gathered in a record
      [host]. *)

From stdpp Require Import gmap strings list fin_maps pretty.
From Stdlib Require Import Ascii QArith.

Open Scope string_scope.
Open Scope list_scope.
Open Scope Z_scope.

(* ===================================================================== *)
(** * Python values and exceptions                                        *)
(* ===================================================================== *)

Inductive value :=
| VNone
| VBool (b : bool)
| VInt (z : Z)
| VFloat (q : Q)
| VStr (s : string).

Inductive exn :=
| KeyError (k : string)
| TypeError
| ZeroDivisionError
| FileNotFoundError (path : string)
| AttributeError (msg : string)
| Exception (msg : string).         (* any other subclass of Exception,
                                       the engine's own among them *)

(** [str(e)] *)
Definition str_exn (e : exn) : string :=
  match e with
  | KeyError k => "'" +:+ k +:+ "'"
  | TypeError => "unsupported operand type(s)"
  | ZeroDivisionError => "division by zero"
  | FileNotFoundError p => "[Errno 2] No such file or directory: '" +:+ p +:+ "'"
  | AttributeError msg => msg
  | Exception msg => msg
  end.

(** Truth value of an object, as tested by [if x:]. *)
Definition truthy (v : value) : bool :=
  match v with
  | VNone => false
  | VBool b => b
  | VInt z => negb (z =? 0)
  | VFloat q => negb (Qeq_bool q 0)
  | VStr s => negb (String.eqb s "")
  end.

(** Numeric view of a value ([bool] is a subclass of [int]). *)
Definition as_number (v : value) : option Q :=
  match v with
  | VBool b => Some (inject_Z (Z.b2z b))
  | VInt z => Some (inject_Z z)
  | VFloat q => Some q
  | VNone | VStr _ => None
  end.

Definition Qlt_bool (x y : Q) : bool := negb (Qle_bool y x).

(** [a > b], [a >= b] and [a / b] on numbers; only numeric operands occur
    in the program, any other operand is a [TypeError]. *)
Definition py_gt (a b : value) : exn + bool :=
  match as_number a, as_number b with
  | Some x, Some y => inr (Qlt_bool y x)
  | _, _ => inl TypeError
  end.

Definition py_ge (a b : value) : exn + bool :=
  match as_number a, as_number b with
  | Some x, Some y => inr (Qle_bool y x)
  | _, _ => inl TypeError
  end.

Definition py_truediv (a b : value) : exn + value :=
  match as_number a, as_number b with
  | Some x, Some y =>
      if Qeq_bool y 0 then inl ZeroDivisionError else inr (VFloat (x / y))
  | _, _ => inl TypeError
  end.

(* ===================================================================== *)
(** * Text: [' '.join(text.split())]                                      *)
(* ===================================================================== *)

(** A Python [str] holding extracted text: its code points. *)
Abbreviation text := (list N).

(** [str.isspace] on one code point (CPython's [_PyUnicode_IsWhitespace]). *)
Definition isspace (c : N) : bool :=
  (((9 <=? c) && (c <=? 13)) || ((28 <=? c) && (c <=? 32))
   || (c =? 133) || (c =? 160) || (c =? 5760)
   || ((8192 <=? c) && (c <=? 8202))
   || (c =? 8232) || (c =? 8233) || (c =? 8239) || (c =? 8287)
   || (c =? 12288))%N.

Definition SPACE : N := 32%N.

(** [text.split()]: the maximal runs of non-whitespace, left to right.
    [word] is the run being read. *)
Fixpoint split_from (word s : text) : list text :=
  match s with
  | [] => match word with [] => [] | _ => [word] end
  | c :: s' =>
      if isspace c
      then match word with
           | [] => split_from [] s'
           | _ => word :: split_from [] s'
           end
      else split_from (word ++ [c]) s'
  end.

Definition split (s : text) : list text := split_from [] s.

(** [sep.join(words)] *)
Fixpoint join (sep : text) (words : list text) : text :=
  match words with
  | [] => []
  | [w] => w
  | w :: ws => w ++ sep ++ join sep ws
  end.

(** [clean_text = ' '.join(text.split())] *)
Definition clean_text (s : text) : text := join [SPACE] (split s).

(** [char_count = len(clean_text)] *)
Definition char_count (s : text) : Z := Z.of_nat (length (clean_text s)).

(* ===================================================================== *)
(** * The world: file system, libraries, trace of library calls          *)
(* ===================================================================== *)

(** What [Path.stat()], [Path.is_dir()] and [os.access] report of one
    entry. *)
Record file_stat := {
  st_size : Z;
  is_dir : bool;
  r_ok : bool;
  w_ok : bool
}.

(** The file system, keyed by [str(Path(p))]. *)
Abbreviation filesystem := (gmap string file_stat).

(** Keyword arguments of [ocrmypdf.ocr]. *)
Module ocrmypdf.
Record kwargs := {
  input_file : string;
  output_file : string;
  language : value;
  deskew : bool;
  clean : bool;
  optimize : Z;
  pdf_renderer : string;
  progress_bar : bool;
  force_ocr : bool;
  redo_ocr : bool;
  skip_text : bool
}.
End ocrmypdf.

(** [fitz.open(pdf_path)]: it raises, or gives a document whose length
    cannot be read ([len(doc)] raises, as on a document that is still
    encrypted), or a document with its pages.  A page is [None] when
    [load_page] or [get_text] raises on it; [close_raises] tells whether
    [doc.close()] raises. *)
Inductive fitz_outcome :=
| FitzOpenRaises
| FitzLenRaises
| FitzDoc (pages : list (option text)) (close_raises : bool).

(** [open(pdf_path, 'rb')] and [PyPDF2.PdfReader(file)]. *)
Inductive pypdf2_outcome :=
| ReaderRaises                         (* [open] or [PdfReader] raises *)
| PagesRaises                          (* [len(reader.pages)] raises *)
| IterRaises (n : nat)                 (* [len(reader.pages) = n], iterating raises *)
| ReaderPages (pages : list (option text)).
                                       (* [None]: [extract_text] raises on the page *)

(** A library call that writes to the file system: the file system it
    leaves, and the exception it raises if any. *)
Record outcome := {
  new_fs : filesystem;
  raised : option exn
}.

Record env := {
  fitz_open : string → filesystem → fitz_outcome;
  PdfReader : string → filesystem → pypdf2_outcome;
  ocrmypdf_ocr : ocrmypdf.kwargs → filesystem → outcome;
  (** the [ExitCode] that [ocrmypdf.ocr] returns, when it returns *)
  ocrmypdf_exit_code : ocrmypdf.kwargs → filesystem → Z;
  shutil_copy2 : string → string → filesystem → outcome;
  Path_mkdir : string → filesystem → outcome;
  Path_resolve : string → filesystem → string
}.

Inductive event :=
| EvFitzOpen (pdf_path : string)
| EvPdfReader (pdf_path : string)
| EvOcr (kwargs : ocrmypdf.kwargs)
| EvCopy2 (src dst : string)
| EvMkdir (dir : string).

Record world := {
  fs : filesystem;
  trace : list event
}.

(** ** The monad *)

Definition M (A : Type) : Type := world → (exn + A) * world.

#[global] Instance M_ret : MRet M := λ A a w, (inr a, w).

#[global] Instance M_bind : MBind M := λ A B f m w,
  match m w with
  | (inr a, w') => f a w'
  | (inl e, w') => (inl e, w')
  end.

Definition raise {A} (e : exn) : M A := λ w, (inl e, w).

(** [try: body / except Exception as e: handler e] *)
Definition try_except {A} (body : M A) (handler : exn → M A) : M A := λ w,
  match body w with
  | (inl e, w') => handler e w'
  | r => r
  end.

(** A pure computation that may raise. *)
Definition lift {A} (r : exn + A) : M A := λ w, (r, w).

Definition get_fs : M filesystem := λ w, (inr (fs w), w).

Definition emit (ev : event) : M unit := λ w,
  (inr (), {| fs := fs w; trace := trace w ++ [ev] |}).

(** Run a writing library call: the world takes the file system it
    leaves, whether it returns or raises. *)
Definition call (o : filesystem → outcome) : M unit := λ w,
  let r := o (fs w) in
  (match raised r with Some e => inl e | None => inr () end,
   {| fs := new_fs r; trace := trace w |}).

(** A writing library call that returns a value: [v] gives the value on
    the file system the call found. *)
Definition call_value {A} (o : filesystem → outcome) (v : filesystem → A)
  : M A := λ w,
  let r := o (fs w) in
  (match raised r with Some e => inl e | None => inr (v (fs w)) end,
   {| fs := new_fs r; trace := trace w |}).

(** [d[k]] *)
Definition getitem (d : gmap string value) (k : string) : M value :=
  match d !! k with
  | Some v => mret v
  | None => raise (KeyError k)
  end.

(** [a and b] on booleans, [b] evaluated only when [a] is true. *)
Definition py_and (a b : M bool) : M bool :=
  x ← a; if x : bool then b else mret false.

(* ===================================================================== *)
(** * [pathlib] and [os], POSIX flavour                                   *)
(* ===================================================================== *)

Module pathlib.

(** A parsed path: whether it starts at the root, and its components. *)
Record PurePath := {
  root : bool;
  parts : list string
}.

(** [s.split('/')], [cur] being the component read so far. *)
Fixpoint split_sep (cur s : string) : list string :=
  match s with
  | EmptyString => [cur]
  | String c s' =>
      if Ascii.eqb c "/"%char then cur :: split_sep "" s'
      else split_sep (cur +:+ String c "") s'
  end.

Definition is_rooted (s : string) : bool :=
  match s with
  | String c _ => Ascii.eqb c "/"%char
  | EmptyString => false
  end.

(** [Path(s)]: empty and ["."] components are dropped. *)
Definition Path (s : string) : PurePath :=
  {| root := is_rooted s;
     parts := List.filter
                (λ c, negb (String.eqb c "") && negb (String.eqb c "."))
                (split_sep "" s) |}.

Fixpoint join_sep (ps : list string) : string :=
  match ps with
  | [] => ""
  | [p] => p
  | p :: ps' => p +:+ "/" +:+ join_sep ps'
  end.

(** [str(path)] *)
Definition str (p : PurePath) : string :=
  match root p, parts p with
  | false, [] => "."
  | r, ps => (if r then "/" else "") +:+ join_sep ps
  end.

(** [path.name] *)
Definition name (p : PurePath) : string := List.last (parts p) "".

(** [path.parent] *)
Definition parent (p : PurePath) : PurePath :=
  {| root := root p; parts := removelast (parts p) |}.

(** [s.rfind('.')] counted from offset [i]; [None] for [-1]. *)
Fixpoint rfind_dot (s : string) (i : nat) : option nat :=
  match s with
  | EmptyString => None
  | String c s' =>
      match rfind_dot s' (S i) with
      | Some j => Some j
      | None => if Ascii.eqb c "."%char then Some i else None
      end
  end.

(** [path.suffix]: [name[i:]] when [0 < i < len(name) - 1] for
    [i = name.rfind('.')], and [''] otherwise. *)
Definition suffix (p : PurePath) : string :=
  let n := name p in
  match rfind_dot n 0 with
  | Some i =>
      if ((0 <? i) && (S i <? String.length n))%nat
      then String.substring i (String.length n - i) n
      else ""
  | None => ""
  end.

End pathlib.

(** [s.lower()], on the ASCII letters. *)
Definition lower_ascii (c : ascii) : ascii :=
  let n := nat_of_ascii c in
  if ((65 <=? n) && (n <=? 90))%nat then ascii_of_nat (n + 32) else c.

Fixpoint lower (s : string) : string :=
  match s with
  | EmptyString => EmptyString
  | String c s' => String (lower_ascii c) (lower s')
  end.

(** [f"{q:.1f}"] for [q >= 0]: one decimal, ties to even. *)
Definition format_1f (q : Q) : string :=
  let n := Qnum q * 10 in
  let d := Z.pos (Qden q) in
  let t := n / d in
  let r := n mod d in
  let t' := if (d <? 2 * r) || ((2 * r =? d) && Z.odd t) then t + 1 else t in
  pretty (t' / 10) +:+ "." +:+ pretty (t' mod 10).

Section FileSystem.
Context (E : env).

(** [path.exists()] *)
Definition Path_exists (p : pathlib.PurePath) : M bool :=
  f ← get_fs;
  mret (bool_decide (is_Some (f !! pathlib.str p))).

(** [path.stat().st_size] *)
Definition Path_st_size (p : pathlib.PurePath) : M Z :=
  f ← get_fs;
  match f !! pathlib.str p with
  | Some s => mret (st_size s)
  | None => raise (FileNotFoundError (pathlib.str p))
  end.

(** [path.is_file()] *)
Definition Path_is_file (p : pathlib.PurePath) : M bool :=
  f ← get_fs;
  mret (match f !! pathlib.str p with
        | Some s => negb (is_dir s)
        | None => false
        end).

(** [os.access(path, os.R_OK)] and [os.access(path, os.W_OK)] *)
Definition os_access_R_OK (p : pathlib.PurePath) : M bool :=
  f ← get_fs;
  mret (match f !! pathlib.str p with Some s => r_ok s | None => false end).

Definition os_access_W_OK (p : pathlib.PurePath) : M bool :=
  f ← get_fs;
  mret (match f !! pathlib.str p with Some s => w_ok s | None => false end).

(** [path.resolve()], as the string of the resolved path *)
Definition resolve (p : pathlib.PurePath) : M string :=
  f ← get_fs;
  mret (Path_resolve E (pathlib.str p) f).

(** [path.mkdir(parents=True, exist_ok=True)] *)
Definition mkdir_parents (p : pathlib.PurePath) : M unit :=
  _ ← emit (EvMkdir (pathlib.str p));
  call (Path_mkdir E (pathlib.str p)).

End FileSystem.

(* ===================================================================== *)
(** * [utils/validators.py]: class [FileValidator]                        *)
(* ===================================================================== *)

Module FileValidator.
Section FileValidator.
Context (E : env).

(** [FileValidator.validate_pdf_file] *)
Definition validate_pdf_file (file_path : string) : M (bool * option string) :=
  try_except
    (let path := pathlib.Path file_path in
     ex ← Path_exists path;
     if negb ex
     then mret (false, Some ("El archivo no existe: " +:+ file_path))
     else if negb (String.eqb (lower (pathlib.suffix path)) ".pdf")
     then mret (false, Some ("El archivo debe ser PDF, recibido: "
                             +:+ pathlib.suffix path))
     else
       sz ← Path_st_size path;
       let size_mb := (inject_Z sz / inject_Z (1024 * 1024))%Q in
       if Qlt_bool 100 size_mb
       then mret (false, Some ("Archivo muy grande: " +:+ format_1f size_mb
                               +:+ "MB (máximo 100MB)"))
       else
         sz' ← Path_st_size path;
         if sz' =? 0
         then mret (false, Some "El archivo PDF está vacío")
         else mret (true, None))
    (λ e, mret (false, Some ("Error accediendo al archivo: " +:+ str_exn e))).

(** [FileValidator.validate_output_path].  The inner [try] that creates
    the parent directory yields [Some r] when it returns [r]. *)
Definition validate_output_path (output_path : string)
  : M (bool * option string) :=
  try_except
    (let path := pathlib.Path output_path in
     let parent_dir := pathlib.parent path in
     ex ← Path_exists parent_dir;
     early ← (if negb ex
              then try_except
                     (_ ← mkdir_parents E parent_dir; mret None)
                     (λ e, mret (Some (false,
                              Some ("No se puede crear directorio: "
                                    +:+ pathlib.str parent_dir))))
              else mret None);
     match early with
     | Some r => mret r
     | None =>
         if negb (String.eqb (lower (pathlib.suffix path)) ".pdf")
         then mret (false,
                    Some "El archivo de salida debe tener extensión .pdf")
         else
           denied ← py_and (Path_exists path)
                           (w ← os_access_W_OK path; mret (negb w));
           if denied : bool
           then mret (false, Some ("Sin permisos de escritura en: "
                                   +:+ output_path))
           else mret (true, None)
     end)
    (λ e, mret (false, Some ("Error en ruta de salida: " +:+ str_exn e))).

End FileValidator.
End FileValidator.

(* ===================================================================== *)
(** * [core/file_manager.py]: [FileManager.validate_paths]                *)
(* ===================================================================== *)

Module FileManager.

(** [errors.append(msg)] *)
Definition append (errors : list string) (msg : string) : list string :=
  errors ++ [msg].

Section FileManager.
Context (E : env).

(** [FileManager.validate_paths]; [errors] is threaded through the
    steps.  [exists], [is_file], [os.access] and [resolve] do not raise
    in this model, so the outer [except] clause is never entered and is
    left out. *)
Definition validate_paths (input_path output_path : string)
  : M (bool * list string) :=
  let errors : list string := [] in
  let input_file := pathlib.Path input_path in
  ex ← Path_exists input_file;
  isf ← Path_is_file input_file;
  readable ← os_access_R_OK input_file;
  let errors :=
    if negb ex
    then append errors ("Archivo de entrada no existe: " +:+ input_path)
    else if negb isf
    then append errors ("Ruta de entrada no es un archivo: " +:+ input_path)
    else if negb (String.eqb (lower (pathlib.suffix input_file)) ".pdf")
    then append errors ("Archivo de entrada no es PDF: " +:+ input_path)
    else if negb readable
    then append errors ("Sin permisos de lectura: " +:+ input_path)
    else errors in
  let output_file := pathlib.Path output_path in
  let output_dir := pathlib.parent output_file in
  dir_ex ← Path_exists output_dir;
  errors ← (if negb dir_ex
            then try_except
                   (_ ← mkdir_parents E output_dir; mret errors)
                   (λ e, mret (append errors
                      ("No se puede crear directorio de salida: "
                       +:+ str_exn e)))
            else mret errors);
  denied ← py_and (Path_exists output_file)
                  (w ← os_access_W_OK output_file; mret (negb w));
  dir_w ← os_access_W_OK output_dir;
  let errors :=
    if denied : bool
    then append errors ("Sin permisos de escritura en archivo existente: "
                        +:+ output_path)
    else if negb dir_w
    then append errors ("Sin permisos de escritura en directorio: "
                        +:+ pathlib.str output_dir)
    else errors in
  resolved_in ← resolve E input_file;
  resolved_out ← resolve E output_file;
  let errors :=
    if String.eqb resolved_in resolved_out
    then append errors "Archivo de entrada y salida no pueden ser el mismo"
    else errors in
  let is_valid := (length errors =? 0)%nat in
  mret (is_valid, errors).

End FileManager.
End FileManager.

(* ===================================================================== *)
(** * [utils/config.py]: class [Config]                                   *)
(* ===================================================================== *)

Module Config.

Definition DEFAULT_LANGUAGE : string := "spa".
Definition OCR_DPI : Z := 300.
Definition MAX_FILE_SIZE_MB : Z := 100.

Definition OCRMYPDF_CONFIG : gmap string value :=
  <["language" := VStr DEFAULT_LANGUAGE]>
  (<["deskew" := VBool true]>
  (<["clean" := VBool true]>
  (<["optimize" := VInt 1]>
  (<["pdf_renderer" := VStr "hocr"]>
  (<["progress_bar" := VBool true]> ∅))))).

End Config.

(* ===================================================================== *)
(** * [core/pdf_detector.py]: class [PDFDetector]                         *)
(* ===================================================================== *)

Module PDFDetector.

Record t := {
  min_text_threshold : Z;
  min_text_ratio : Q
}.

(** [PDFDetector.__init__] *)
Definition __init__ : t :=
  {| min_text_threshold := 50; min_text_ratio := 1 # 10 |}.

(** The page loop of [_analyze_with_pymupdf]: the final
    [(total_chars, pages_with_text)], or [None] when a page raises. *)
Fixpoint scan_pymupdf (self : t) (pages : list (option text))
         (total_chars pages_with_text : Z) : option (Z * Z) :=
  match pages with
  | [] => Some (total_chars, pages_with_text)
  | None :: _ => None
  | Some page_text :: rest =>
      let n := char_count page_text in
      scan_pymupdf self rest (total_chars + n)
        (if min_text_threshold self <? n
         then pages_with_text + 1 else pages_with_text)
  end.

(** The page loop of [_analyze_with_pypdf2]: a page that raises is
    skipped ([continue]). *)
Fixpoint scan_pypdf2 (self : t) (pages : list (option text))
         (total_chars pages_with_text : Z) : Z * Z :=
  match pages with
  | [] => (total_chars, pages_with_text)
  | None :: rest => scan_pypdf2 self rest total_chars pages_with_text
  | Some page_text :: rest =>
      let n := char_count page_text in
      scan_pypdf2 self rest (total_chars + n)
        (if min_text_threshold self <? n
         then pages_with_text + 1 else pages_with_text)
  end.

(** The message of [analyze_pdf] when both backends give up. *)
Definition no_method : string :=
  "No se pudo analizar el PDF con ningún método".

(** [total_chars / total_pages if total_pages > 0 else 0] *)
Definition average (total_chars total_pages : Z) : value :=
  if 0 <? total_pages
  then VFloat (inject_Z total_chars / inject_Z total_pages)
  else VInt 0.

Section PDFDetector.
Context (E : env) (self : t).

(** [_analyze_with_pymupdf]: the flag returned and [result] as the call
    leaves it (the dictionary is updated in place, also when the call
    fails half way). *)
Definition _analyze_with_pymupdf (pdf_path : string)
           (result : gmap string value) : M (bool * gmap string value) :=
  _ ← emit (EvFitzOpen pdf_path);
  f ← get_fs;
  match fitz_open E pdf_path f with
  | FitzOpenRaises => mret (false, result)
  | FitzLenRaises =>
      mret (false, <["analysis_method" := VStr "PyMuPDF"]> result)
  | FitzDoc pages close_raises =>
      let result := <["analysis_method" := VStr "PyMuPDF"]> result in
      let total_pages := Z.of_nat (length pages) in
      let result := <["total_pages" := VInt total_pages]> result in
      match scan_pymupdf self pages 0 0 with
      | None => mret (false, result)
      | Some (total_chars, pages_with_text) =>
          if close_raises : bool then mret (false, result)
          else
            let result := <["total_characters" := VInt total_chars]> result in
            let result := <["pages_with_text" := VInt pages_with_text]> result in
            let result := <["average_chars_per_page" :=
                              average total_chars total_pages]> result in
            mret (true, result)
      end
  end.

(** [_analyze_with_pypdf2] *)
Definition _analyze_with_pypdf2 (pdf_path : string)
           (result : gmap string value) : M (bool * gmap string value) :=
  _ ← emit (EvPdfReader pdf_path);
  f ← get_fs;
  match PdfReader E pdf_path f with
  | ReaderRaises => mret (false, result)
  | PagesRaises =>
      mret (false, <["analysis_method" := VStr "PyPDF2"]> result)
  | IterRaises n =>
      mret (false, <["total_pages" := VInt (Z.of_nat n)]>
                   (<["analysis_method" := VStr "PyPDF2"]> result))
  | ReaderPages pages =>
      let result := <["analysis_method" := VStr "PyPDF2"]> result in
      let total_pages := Z.of_nat (length pages) in
      let result := <["total_pages" := VInt total_pages]> result in
      let '(total_chars, pages_with_text) := scan_pypdf2 self pages 0 0 in
      let result := <["total_characters" := VInt total_chars]> result in
      let result := <["pages_with_text" := VInt pages_with_text]> result in
      let result := <["average_chars_per_page" :=
                        average total_chars total_pages]> result in
      mret (true, result)
  end.

(** [_determine_ocr_need]: [result] as the call leaves it. *)
Definition _determine_ocr_need (result : gmap string value)
  : M (gmap string value) :=
  let threshold := VInt (min_text_threshold self) in
  has_sufficient_text ←
    py_and (total_characters ← getitem result "total_characters";
            lift (py_gt total_characters threshold))
   (py_and (average_chars_per_page ← getitem result "average_chars_per_page";
            lift (py_gt average_chars_per_page threshold))
           (pages_with_text ← getitem result "pages_with_text";
            total_pages ← getitem result "total_pages";
            ratio ← lift (py_truediv pages_with_text total_pages);
            lift (py_ge ratio (VFloat (min_text_ratio self)))));
  let result := <["has_text" := VBool has_sufficient_text]> result in
  let result := <["is_searchable" := VBool has_sufficient_text]> result in
  let result := <["needs_ocr" := VBool (negb has_sufficient_text)]> result in
  mret result.

(** The dictionary [analyze_pdf] starts from. *)
Definition initial_result (pdf_path : string) : gmap string value :=
  <["file_path" := VStr pdf_path]>
  (<["has_text" := VBool false]>
  (<["is_searchable" := VBool false]>
  (<["needs_ocr" := VBool true]>
  (<["total_pages" := VInt 0]>
  (<["pages_with_text" := VInt 0]>
  (<["total_characters" := VInt 0]>
  (<["average_chars_per_page" := VInt 0]>
  (<["analysis_method" := VStr ""]>
  (<["error" := VNone]> ∅))))))))).

(** The dictionary [analyze_pdf] returns from its [except] clause. *)
Definition except_result (pdf_path : string) (e : exn) : gmap string value :=
  <["file_path" := VStr pdf_path]>
  (<["has_text" := VBool false]>
  (<["is_searchable" := VBool false]>
  (<["needs_ocr" := VBool true]>
  (<["error" := VStr (str_exn e)]> ∅)))).

(** [analyze_pdf].  The body of the [try] first computes [inl result]
    where the source returns early and [inr result] where it goes on. *)
Definition analyze_pdf (pdf_path : string) : M (gmap string value) :=
  try_except
    (let result := initial_result pdf_path in
     '(success_pymupdf, result) ← _analyze_with_pymupdf pdf_path result;
     r ← (if negb success_pymupdf
          then
            '(success_pypdf2, result) ← _analyze_with_pypdf2 pdf_path result;
            if negb success_pypdf2
            then mret (inl (<["error" := VStr no_method]> result))
            else mret (inr result)
          else mret (inr result));
     match r with
     | inl result => mret result
     | inr result => _determine_ocr_need result
     end)
    (λ e, mret (except_result pdf_path e)).

(** [is_pdf_searchable]: [result.get('is_searchable', False)] *)
Definition is_pdf_searchable (pdf_path : string) : M value :=
  result ← analyze_pdf pdf_path;
  mret (default (VBool false) (result !! "is_searchable")).

End PDFDetector.
End PDFDetector.

(* ===================================================================== *)
(** * [core/ocr_processor.py]: class [OCRProcessor]                       *)
(* ===================================================================== *)

Module OCRProcessor.

Record t := {
  config : gmap string value;
  tesseract_cmd : value;
  language : value;
  dpi : value
}.

(** [OCRProcessor.__init__] *)
Definition __init__ (config : gmap string value) : t :=
  {| config := config;
     tesseract_cmd := default VNone (config !! "tesseract_cmd");
     language := default (VStr "spa") (config !! "language");
     dpi := default (VInt 300) (config !! "dpi") |}.

(** The message of [process_pdf] when the final check fails. *)
Definition output_missing : string :=
  "El archivo de salida no se generó correctamente".

Section OCRProcessor.
Context (E : env) (self : t).

(** [ocr_config] of [_apply_ocr], with the two paths of the call. *)
Definition ocr_config (input_path output_path : string) : ocrmypdf.kwargs :=
  {| ocrmypdf.input_file := input_path;
     ocrmypdf.output_file := output_path;
     ocrmypdf.language := language self;
     ocrmypdf.deskew := false;
     ocrmypdf.clean := false;
     ocrmypdf.optimize := 1;
     ocrmypdf.pdf_renderer := "hocr";
     ocrmypdf.progress_bar := false;
     ocrmypdf.force_ocr := true;
     ocrmypdf.redo_ocr := false;
     ocrmypdf.skip_text := false |}.

(** [str(e)] of the [AttributeError] that the expression
    [ocrmypdf.exceptions.ExitCodeNotOk] raises: the module
    [ocrmypdf.exceptions] defines [ExitCodeException] and its subclasses,
    and nothing of that name. *)
Definition no_ExitCodeNotOk : string :=
  "module 'ocrmypdf.exceptions' has no attribute 'ExitCodeNotOk'".

(** [_apply_ocr].  [progress_callback] is defined but handed to nobody,
    so [result] is left as it was.  The call of [ocrmypdf.ocr] is a
    statement: the [ExitCode] it returns is dropped.  When the call
    raises, the first [except] clause is matched first: its expression
    [ocrmypdf.exceptions.ExitCodeNotOk] is evaluated and raises
    [AttributeError].  That ends the search for a handler, the clause
    [except Exception] is not tried, and the [AttributeError] leaves
    [_apply_ocr]: neither [return False] is reached. *)
Definition _apply_ocr (input_path output_path : string)
           (result : gmap string value) : M (bool * gmap string value) :=
  try_except
    (let kwargs := ocr_config input_path output_path in
     _ ← emit (EvOcr kwargs);
     _ ← call_value (ocrmypdf_ocr E kwargs) (ocrmypdf_exit_code E kwargs);
     mret (true, result))
    (λ e, raise (AttributeError no_ExitCodeNotOk)).

(** [_copy_existing] *)
Definition _copy_existing (input_path output_path : string)
           (result : gmap string value) : M (bool * gmap string value) :=
  try_except
    (_ ← emit (EvCopy2 input_path output_path);
     _ ← call (shutil_copy2 E input_path output_path);
     mret (true, <["pages_processed" := VStr "N/A (copia directa)"]> result))
    (λ e, mret (false, result)).

(** The dictionary [process_pdf] starts from. *)
Definition initial_result (input_path output_path : string)
  : gmap string value :=
  <["success" := VBool false]>
  (<["input_file" := VStr input_path]>
  (<["output_file" := VStr output_path]>
  (<["processing_method" := VStr ""]>
  (<["pages_processed" := VInt 0]>
  (<["processing_time" := VInt 0]>
  (<["file_size_before" := VInt 0]>
  (<["file_size_after" := VInt 0]>
  (<["error" := VNone]> ∅)))))))).

(** The dictionary [process_pdf] returns from its [except] clause. *)
Definition except_result (input_path output_path : string) (e : exn)
  : gmap string value :=
  <["success" := VBool false]>
  (<["input_file" := VStr input_path]>
  (<["output_file" := VStr output_path]>
  (<["error" := VStr (str_exn e)]> ∅))).

(** The block "Determinar método de procesamiento" of [process_pdf]:
    the flag [success] and [result] as the block leaves them. *)
Definition determine_method (input_path output_path : string)
           (force_ocr : bool) (result : gmap string value)
  : M (bool * gmap string value) :=
  if force_ocr
  then
    let result := <["processing_method" := VStr "OCR_FORCED"]> result in
    _apply_ocr input_path output_path result
  else
    let detector := PDFDetector.__init__ in
    analysis ← PDFDetector.analyze_pdf E detector input_path;
    if truthy (default (VBool true) (analysis !! "needs_ocr"))
    then
      let result := <["processing_method" := VStr "OCR_APPLIED"]> result in
      _apply_ocr input_path output_path result
    else
      let result := <["processing_method" := VStr "COPY_EXISTING"]> result in
      _copy_existing input_path output_path result.

(** The block "Verificar resultado final" of [process_pdf]. *)
Definition verify_result (output_path : string) (success : bool)
           (result : gmap string value) : M (gmap string value) :=
  ok ← py_and (mret success) (Path_exists (pathlib.Path output_path));
  if ok : bool
  then
    let result := <["success" := VBool true]> result in
    size_after ← Path_st_size (pathlib.Path output_path);
    mret (<["file_size_after" := VInt size_after]> result)
  else
    mret (<["error" := VStr output_missing]> result).

(** [process_pdf] *)
Definition process_pdf (input_path output_path : string) (force_ocr : bool)
  : M (gmap string value) :=
  try_except
    (let result := initial_result input_path output_path in
     let input_path_obj := pathlib.Path input_path in
     size ← Path_st_size input_path_obj;
     let result := <["file_size_before" := VInt size]> result in
     '(success, result) ←
       determine_method input_path output_path force_ocr result;
     verify_result output_path success result)
    (λ e, mret (except_result input_path output_path e)).

End OCRProcessor.
End OCRProcessor.

(* ===================================================================== *)
(** * [main.py]: [process_single_pdf]                                     *)
(* ===================================================================== *)

Section main.
Context (E : env).

(** [process_single_pdf].  [OCRMYPDF_CONFIG] is the value of the class
    attribute [Config.OCRMYPDF_CONFIG] when the function is called
    ([main] stores the [--idioma] argument in it beforehand).  The
    subscriptions whose values are only printed are kept, for the
    [KeyError] they can raise. *)
Definition process_single_pdf (OCRMYPDF_CONFIG : gmap string value)
           (input_path output_path : string) (force_ocr : bool) : M bool :=
  try_except
    ('(valid_input, input_error) ← FileValidator.validate_pdf_file input_path;
     if negb valid_input then mret false
     else
       '(valid_output, output_error) ←
         FileValidator.validate_output_path E output_path;
       if negb valid_output then mret false
       else
         let detector := PDFDetector.__init__ in
         analysis ← PDFDetector.analyze_pdf E detector input_path;
         if truthy (default VNone (analysis !! "error")) then mret false
         else
           _ ← getitem analysis "total_pages";
           _ ← getitem analysis "pages_with_text";
           _ ← getitem analysis "total_characters";
           _ ← getitem analysis "needs_ocr";
           let ocr_processor := OCRProcessor.__init__ OCRMYPDF_CONFIG in
           result ← OCRProcessor.process_pdf E ocr_processor
                      input_path output_path force_ocr;
           success ← getitem result "success";
           if truthy success
           then
             size_before ← getitem result "file_size_before";
             _ ← lift (py_truediv size_before (VInt (1024 * 1024)));
             size_after ← getitem result "file_size_after";
             _ ← lift (py_truediv size_after (VInt (1024 * 1024)));
             _ ← getitem result "processing_method";
             mret true
           else mret false)
    (λ e, mret false).

End main.

(* ===================================================================== *)
(** * Observations: what a trace and an oracle say                        *)
(* ===================================================================== *)

(** The [ocrmypdf.ocr] calls of a trace, oldest first. *)
Fixpoint ocr_calls (tr : list event) : list ocrmypdf.kwargs :=
  match tr with
  | [] => []
  | EvOcr kwargs :: tr' => kwargs :: ocr_calls tr'
  | _ :: tr' => ocr_calls tr'
  end.

(** The [shutil.copy2] calls of a trace. *)
Fixpoint copy_calls (tr : list event) : list (string * string) :=
  match tr with
  | [] => []
  | EvCopy2 src dst :: tr' => (src, dst) :: copy_calls tr'
  | _ :: tr' => copy_calls tr'
  end.

(** The paths on which an extraction backend was opened. *)
Fixpoint analyzer_calls (tr : list event) : list string :=
  match tr with
  | [] => []
  | EvFitzOpen p :: tr' => p :: analyzer_calls tr'
  | EvPdfReader p :: tr' => p :: analyzer_calls tr'
  | _ :: tr' => analyzer_calls tr'
  end.

(** Does the primary backend get through the whole document? *)
Definition pymupdf_succeeds (o : fitz_outcome) : bool :=
  match o with
  | FitzOpenRaises | FitzLenRaises => false
  | FitzDoc pages close_raises =>
      negb close_raises && forallb (λ page, bool_decide (is_Some page)) pages
  end.

(** Does the fallback backend get through the whole document? *)
Definition pypdf2_succeeds (o : pypdf2_outcome) : bool :=
  match o with
  | ReaderPages _ => true
  | _ => false
  end.

(** Extraction succeeds when one of the two backends does. *)
Definition extraction_succeeds (E : env) (pdf_path : string) (f : filesystem)
  : bool :=
  pymupdf_succeeds (fitz_open E pdf_path f)
  || pypdf2_succeeds (PdfReader E pdf_path f).

(** The number of pages of the document, as the succeeding backend sees it. *)
Definition page_count (E : env) (pdf_path : string) (f : filesystem) : nat :=
  if pymupdf_succeeds (fitz_open E pdf_path f)
  then match fitz_open E pdf_path f with
       | FitzDoc pages _ => length pages
       | FitzOpenRaises | FitzLenRaises => 0
       end
  else match PdfReader E pdf_path f with
       | ReaderPages pages => length pages
       | _ => 0
       end.

(** The code points of an ASCII string. *)
Definition text_of_string (s : string) : text :=
  List.map N_of_ascii (String.list_ascii_of_string s).

(** What a run returned: [None] when it raised. *)
Definition returned_value {A} (r : (exn + A) * world) : option A :=
  match r.1 with
  | inr a => Some a
  | inl _ => None
  end.

(** The entry [k] of the dictionary a run returned. *)
Definition field (k : string) (r : (exn + gmap string value) * world)
  : option value :=
  d ← returned_value r; d !! k.

(* ===================================================================== *)
(** * Descriptions of intermediate results, used by the proofs            *)
(* ===================================================================== *)

(** A word of [split]: not empty, no whitespace in it. *)
Definition no_space (w : text) : Prop := Forall (λ c, isspace c = false) w.

Definition is_word (w : text) : Prop := w ≠ [] ∧ no_space w.

(** The world with more calls recorded. *)
Definition log (w : world) (evs : list event) : world :=
  {| fs := fs w; trace := trace w ++ evs |}.

(** [result] after a backend went through the document. *)
Definition extracted (method : string) (total_pages total_chars
           pages_with_text : Z) (result : gmap string value)
  : gmap string value :=
  <["average_chars_per_page" := PDFDetector.average total_chars total_pages]>
  (<["pages_with_text" := VInt pages_with_text]>
  (<["total_characters" := VInt total_chars]>
  (<["total_pages" := VInt total_pages]>
  (<["analysis_method" := VStr method]> result)))).

(** What a backend that gives up leaves of [result]. *)
Inductive half_done (r : gmap string value) : gmap string value → Prop :=
| hd_untouched : half_done r r
| hd_method m : half_done r (<["analysis_method" := VStr m]> r)
| hd_pages m n :
    half_done r (<["total_pages" := VInt (Z.of_nat n)]>
                 (<["analysis_method" := VStr m]> r)).

(** The number [average] stores. *)
Definition average_q (total_chars total_pages : Z) : Q :=
  if 0 <? total_pages
  then inject_Z total_chars / inject_Z total_pages
  else 0%Q.

(** [has_sufficient_text] of [_determine_ocr_need] when no operand raises. *)
Definition has_sufficient_text (self : PDFDetector.t) (total_chars : Z)
           (average : Q) (pages_with_text total_pages : Z) : bool :=
  Qlt_bool (inject_Z (PDFDetector.min_text_threshold self))
           (inject_Z total_chars)
  && Qlt_bool (inject_Z (PDFDetector.min_text_threshold self)) average
  && Qle_bool (PDFDetector.min_text_ratio self)
              (inject_Z pages_with_text / inject_Z total_pages).

(** [result] after [_determine_ocr_need] stored its verdict. *)
Definition decided (h : bool) (result : gmap string value)
  : gmap string value :=
  <["needs_ocr" := VBool (negb h)]>
  (<["is_searchable" := VBool h]>
  (<["has_text" := VBool h]> result)).

(** The entries of an analysis result the claims speak of. *)
Definition fields (d : gmap string value) (total_chars total_pages
           pages_with_text : Z) (average : value) (has_text : bool)
           (error : value) : Prop :=
  d !! "total_characters" = Some (VInt total_chars) ∧
  d !! "total_pages" = Some (VInt total_pages) ∧
  d !! "pages_with_text" = Some (VInt pages_with_text) ∧
  d !! "average_chars_per_page" = Some average ∧
  d !! "has_text" = Some (VBool has_text) ∧
  d !! "needs_ocr" = Some (VBool (negb has_text)) ∧
  d !! "error" = Some error.

(** The characters of a list of page texts, and how many of the pages
    count as pages with text. *)
Definition total_chars_of (texts : list text) : Z :=
  foldr (λ page_text acc, char_count page_text + acc) 0 texts.

Definition pages_with_text_of (threshold : Z) (texts : list text) : Z :=
  foldr (λ page_text acc,
           if threshold <? char_count page_text then 1 + acc else acc)
        0 texts.

(** Did the library call return (rather than raise)? *)
Definition returned (o : outcome) : bool :=
  match raised o with
  | None => true
  | Some _ => false
  end.

(** The world after [ocrmypdf.ocr] ran, and after [shutil.copy2] ran. *)
Definition after_ocr (E : env) (kwargs : ocrmypdf.kwargs) (w : world)
  : world :=
  {| fs := new_fs (ocrmypdf_ocr E kwargs (fs w));
     trace := trace w ++ [EvOcr kwargs] |}.

Definition after_copy (E : env) (src dst : string) (w : world) : world :=
  {| fs := new_fs (shutil_copy2 E src dst (fs w));
     trace := trace w ++ [EvCopy2 src dst] |}.

(** What [_apply_ocr] hands back after a call of the engine with outcome
    [o]: [True] when the call returned, the [AttributeError] of its first
    [except] clause when the call raised. *)
Definition applied (o : outcome) (result : gmap string value)
  : exn + bool * gmap string value :=
  match raised o with
  | None => inr (true, result)
  | Some _ => inl (AttributeError OCRProcessor.no_ExitCodeNotOk)
  end.

(** [result] of [process_pdf] when the method is being chosen. *)
Definition sized (input_path output_path : string) (size : Z)
  : gmap string value :=
  <["file_size_before" := VInt size]>
    (OCRProcessor.initial_result input_path output_path).

(** [result] as [verify_result] leaves it on the file system [f]. *)
Definition checked (output_path : string) (success : bool)
           (result : gmap string value) (f : filesystem)
  : gmap string value :=
  match (if success
         then f !! pathlib.str (pathlib.Path output_path)
         else None) with
  | Some st => <["file_size_after" := VInt (st_size st)]>
               (<["success" := VBool true]> result)
  | None => <["error" := VStr OCRProcessor.output_missing]> result
  end.


(* ===================================================================== *)
(** * Concrete worlds                                                     *)
(* ===================================================================== *)

Definition regular_file (size : Z) : file_stat :=
  {| st_size := size; is_dir := false; r_ok := true; w_ok := true |}.

Definition directory : file_stat :=
  {| st_size := 4096; is_dir := true; r_ok := true; w_ok := true |}.

(** A working directory that holds one PDF of 2048 bytes. *)
Definition fs_demo : filesystem :=
  <["." := directory]> (<["doc.pdf" := regular_file 2048]> ∅).

Definition w_demo : world := {| fs := fs_demo; trace := [] |}.

(** An engine that writes its output file, one that returns without
    writing anything, and one that exits with an error. *)
Definition engine_writes (kwargs : ocrmypdf.kwargs) (f : filesystem)
  : outcome :=
  {| new_fs := <[pathlib.str (pathlib.Path (ocrmypdf.output_file kwargs))
                 := regular_file 4096]> f;
     raised := None |}.

Definition engine_silent (kwargs : ocrmypdf.kwargs) (f : filesystem)
  : outcome :=
  {| new_fs := f; raised := None |}.

(** The engine raises, an [ocrmypdf.exceptions.ExitCodeException] say. *)
Definition engine_fails (msg : string) (kwargs : ocrmypdf.kwargs)
           (f : filesystem) : outcome :=
  {| new_fs := f; raised := Some (Exception msg) |}.

Definition copy2_works (src dst : string) (f : filesystem) : outcome :=
  match f !! pathlib.str (pathlib.Path src) with
  | Some st => {| new_fs := <[pathlib.str (pathlib.Path dst) := st]> f;
                  raised := None |}
  | None => {| new_fs := f; raised := Some (FileNotFoundError src) |}
  end.

Definition mkdir_works (dir : string) (f : filesystem) : outcome :=
  {| new_fs := <[dir := directory]> f; raised := None |}.

(** No symbolic links, every path relative to the one working directory. *)
Definition resolve_plain (p : string) (f : filesystem) : string := p.

(** [ExitCode.ok] and [ExitCode.invalid_output_pdf] of [ocrmypdf]. *)
Definition ExitCode_ok : Z := 0.
Definition ExitCode_invalid_output_pdf : Z := 4.

Definition demo_env_exit (fitz : fitz_outcome) (reader : pypdf2_outcome)
           (engine : ocrmypdf.kwargs → filesystem → outcome)
           (exit_code : Z) : env :=
  {| fitz_open := λ _ _, fitz;
     PdfReader := λ _ _, reader;
     ocrmypdf_ocr := engine;
     ocrmypdf_exit_code := λ _ _, exit_code;
     shutil_copy2 := copy2_works;
     Path_mkdir := mkdir_works;
     Path_resolve := resolve_plain |}.

Definition demo_env (fitz : fitz_outcome) (reader : pypdf2_outcome)
           (engine : ocrmypdf.kwargs → filesystem → outcome) : env :=
  demo_env_exit fitz reader engine ExitCode_ok.

(** Three pages of 0, 5 and 200 characters; two pages without text; no
    page at all. *)
Definition three_pages : list (option text) :=
  [Some []; Some (text_of_string "hello"); Some (repeat 97%N 200)].

Definition scanned_pages : list (option text) := [Some []; Some []].

Definition E_text : env :=
  demo_env (FitzDoc three_pages false) ReaderRaises engine_writes.

Definition E_scan : env :=
  demo_env (FitzDoc scanned_pages false) ReaderRaises engine_writes.

Definition E_empty : env :=
  demo_env (FitzDoc [] false) ReaderRaises engine_writes.

Definition E_broken : env :=
  demo_env FitzOpenRaises ReaderRaises engine_writes.

Definition E_silent : env :=
  demo_env (FitzDoc scanned_pages false) ReaderRaises engine_silent.

Definition engine_message : string := "tesseract: exit code 1".

Definition E_failing : env :=
  demo_env (FitzDoc scanned_pages false) ReaderRaises
           (engine_fails engine_message).

(** The engine writes its output, finds it invalid and returns
    [ExitCode.invalid_output_pdf] without raising. *)
Definition E_invalid_output : env :=
  demo_env_exit (FitzDoc scanned_pages false) ReaderRaises engine_writes
                ExitCode_invalid_output_pdf.

(** The invoker as [process_single_pdf] builds it. *)
Definition demo_processor : OCRProcessor.t :=
  OCRProcessor.__init__ Config.OCRMYPDF_CONFIG.

(** The runs the examples below look at. *)
Definition text_analysis :=
  PDFDetector.analyze_pdf E_text PDFDetector.__init__ "doc.pdf" w_demo.

Definition broken_run :=
  process_single_pdf E_broken Config.OCRMYPDF_CONFIG
    "doc.pdf" "out.pdf" false w_demo.

Definition same_path_run :=
  process_single_pdf E_scan Config.OCRMYPDF_CONFIG
    "doc.pdf" "doc.pdf" false w_demo.

Definition same_path_check :=
  FileManager.validate_paths E_scan "doc.pdf" "doc.pdf" w_demo.

Definition scan_run :=
  OCRProcessor.process_pdf E_scan demo_processor
    "doc.pdf" "out.pdf" false w_demo.


Definition silent_run :=
  OCRProcessor.process_pdf E_silent demo_processor
    "doc.pdf" "out.pdf" true w_demo.

Definition failing_run :=
  OCRProcessor.process_pdf E_failing demo_processor
    "doc.pdf" "out.pdf" true w_demo.

Definition invalid_output_run :=
  OCRProcessor.process_pdf E_invalid_output demo_processor
    "doc.pdf" "out.pdf" true w_demo.

(** The libraries of [E], the engine returning [exit_code]. *)
Definition with_exit_code (E : env) (exit_code : Z) : env :=
  {| fitz_open := fitz_open E;
     PdfReader := PdfReader E;
     ocrmypdf_ocr := ocrmypdf_ocr E;
     ocrmypdf_exit_code := λ _ _, exit_code;
     shutil_copy2 := shutil_copy2 E;
     Path_mkdir := Path_mkdir E;
     Path_resolve := Path_resolve E |}.

(* ===================================================================== *)
(** * The host: strings, processes, directories                           *)
(* ===================================================================== *)

(** ** Strings of the host: [strip], [split(sep)], [in] *)

(** [s.lstrip()], [s.rstrip()] and [s.strip()] on code points. *)
Fixpoint lstrip (s : text) : text :=
  match s with
  | [] => []
  | c :: s' => if isspace c then lstrip s' else s
  end.

Definition rstrip (s : text) : text := rev (lstrip (rev s)).

Definition strip (s : text) : text := rstrip (lstrip s).

Definition NEWLINE : N := 10%N.

(** [s.split(sep)] for a separator of one character: every piece between
    two separators, the empty ones too.  [cur] is the piece being read. *)
Fixpoint split_char (sep : N) (cur s : text) : list text :=
  match s with
  | [] => [cur]
  | c :: s' =>
      if (c =? sep)%N then cur :: split_char sep [] s'
      else split_char sep (cur ++ [c]) s'
  end.

(** [s.strip().split('\n')[1:]]: the lines after the header. *)
Definition lines_after_header (stdout : text) : list text :=
  tail (split_char NEWLINE [] (strip stdout)).

(** The UTF-8 bytes of a code point and of a text: how a [str] held as
    code points compares with one held as a [string]. *)
Definition utf8_byte (n : N) : ascii := ascii_of_N (n mod 256).

Definition encode_char (c : N) : list ascii :=
  (if c <? 128 then [utf8_byte c]
   else if c <? 2048
   then [utf8_byte (192 + c / 64); utf8_byte (128 + c mod 64)]
   else if c <? 65536
   then [utf8_byte (224 + c / 4096); utf8_byte (128 + (c / 64) mod 64);
         utf8_byte (128 + c mod 64)]
   else [utf8_byte (240 + c / 262144); utf8_byte (128 + (c / 4096) mod 64);
         utf8_byte (128 + (c / 64) mod 64); utf8_byte (128 + c mod 64)])%N.

Definition encode (s : text) : string :=
  String.string_of_list_ascii (s ≫= encode_char).

(** [needle in hay] on strings. *)
Fixpoint contains (needle hay : string) : bool :=
  String.prefix needle hay ||
  match hay with
  | EmptyString => false
  | String _ hay' => contains needle hay'
  end.

(** The exception of [words[1]] on a list that is too short. *)
Definition IndexError : exn := Exception "list index out of range".

(** ** The host: processes, permissions, directories *)

(** [subprocess.run(argv, capture_output=True, text=True, timeout=10)]:
    the process ends with a return code and its decoded output, the
    timeout expires, or the call raises ([FileNotFoundError] when the
    program is not on the path). *)
Inductive run_outcome :=
| Completed (returncode : Z) (stdout : text)
| TimeoutExpired
| RunRaises (e : exn).

Record host := {
  subprocess_run : list string → filesystem → run_outcome;
  os_path_exists : string → filesystem → bool;
  os_access_X_OK : string → filesystem → exn + bool;
  (** [path.mkdir(exist_ok=True)] *)
  Path_mkdir_exist_ok : string → filesystem → outcome;
  (** [Path(__file__).parent.parent.parent] *)
  ROOT_DIR : pathlib.PurePath
}.

(** [path / name] for a relative [name]. *)
Definition joinpath (p : pathlib.PurePath) (name : string)
  : pathlib.PurePath :=
  if pathlib.is_rooted name then pathlib.Path name
  else {| pathlib.root := pathlib.root p;
          pathlib.parts := pathlib.parts p
                           ++ pathlib.parts (pathlib.Path name) |}.

(* ===================================================================== *)
(** * [utils/validators.py]: class [SystemValidator]                      *)
(* ===================================================================== *)

Module SystemValidator.
Section SystemValidator.
Context (H : host).

(** [SystemValidator.validate_tesseract_installation] *)
Definition validate_tesseract_installation (tesseract_path : string)
  : M (bool * option string) :=
  try_except
    (f ← get_fs;
     if negb (os_path_exists H tesseract_path f)
     then mret (false, Some ("Tesseract no encontrado en: "
                             +:+ tesseract_path))
     else
       x_ok ← lift (os_access_X_OK H tesseract_path f);
       if negb x_ok
       then mret (false, Some ("Tesseract no es ejecutable: "
                               +:+ tesseract_path))
       else mret (true, None))
    (λ e, mret (false, Some ("Error verificando Tesseract: "
                             +:+ str_exn e))).

(** [SystemValidator.validate_language_support].  The call is made
    without [check=True], so the clause for [CalledProcessError] is never
    entered; the return code is not looked at. *)
Definition validate_language_support (language : string)
  : M (bool * option string) :=
  f ← get_fs;
  match subprocess_run H ["tesseract"; "--list-langs"] f with
  | Completed _ stdout =>
      let available_langs := lines_after_header stdout in
      if negb (bool_decide (language ∈ encode <$> available_langs))
      then mret (false,
                 Some ("Idioma '" +:+ language
                       +:+ "' no disponible. Disponibles: "
                       +:+ encode (join (text_of_string ", ")
                                        available_langs)))
      else mret (true, None)
  | TimeoutExpired =>
      mret (false, Some "Timeout verificando idiomas de Tesseract")
  | RunRaises e =>
      mret (false, Some ("Error verificando idioma: " +:+ str_exn e))
  end.

End SystemValidator.
End SystemValidator.

(* ===================================================================== *)
(** * [core/ocr_processor.py]: the checks of the installation             *)
(* ===================================================================== *)

Module OCRInstallation.

(** The dictionary [validate_ocr_installation] returns. *)
Record validation := {
  ocrmypdf_available : bool;
  tesseract_available : bool;
  language_available : bool;
  all_valid : bool;
  errors : list string
}.

Section OCRInstallation.
Context (H : host) (self : OCRProcessor.t).

(** The block "Verificar Tesseract": the flag and [errors] as the block
    leaves them.  The version is read for the log as
    [result.stdout.split()[1]]; only [TimeoutExpired] and
    [FileNotFoundError] are caught. *)
Definition check_tesseract (errors : list string)
  : M (bool * list string) :=
  f ← get_fs;
  match subprocess_run H ["tesseract"; "--version"] f with
  | Completed returncode stdout =>
      if returncode =? 0
      then match split stdout !! 1%nat with
           | Some _ => mret (true, errors)
           | None => raise IndexError
           end
      else mret (false, FileManager.append errors
                          "Tesseract no responde correctamente")
  | TimeoutExpired | RunRaises (FileNotFoundError _) =>
      mret (false, FileManager.append errors
                     "Tesseract no encontrado en PATH")
  | RunRaises e => raise e
  end.

(** The block "Verificar idioma español": [self.language in
    result.stdout], a [TypeError] when [self.language] is not a string;
    every exception is caught. *)
Definition check_language (errors : list string)
  : M (bool * list string) :=
  f ← get_fs;
  match subprocess_run H ["tesseract"; "--list-langs"] f with
  | Completed _ stdout =>
      match OCRProcessor.language self with
      | VStr language =>
          if contains language (encode stdout)
          then mret (true, errors)
          else mret (false, FileManager.append errors
                              ("Idioma " +:+ language +:+ " no disponible"))
      | _ => mret (false, FileManager.append errors
                            "No se pudo verificar idiomas disponibles")
      end
  | TimeoutExpired | RunRaises _ =>
      mret (false, FileManager.append errors
                     "No se pudo verificar idiomas disponibles")
  end.

(** [OCRProcessor.validate_ocr_installation].  The module imports
    [ocrmypdf] when it is loaded, so the [import] of the first block
    cannot fail. *)
Definition validate_ocr_installation : M validation :=
  let errors : list string := [] in
  let ocrmypdf_available := true in
  '(tesseract_available, errors) ← check_tesseract errors;
  '(language_available, errors) ← check_language errors;
  mret {| ocrmypdf_available := ocrmypdf_available;
          tesseract_available := tesseract_available;
          language_available := language_available;
          all_valid := ocrmypdf_available && tesseract_available
                       && language_available;
          errors := errors |}.

(** [OCRProcessor.get_supported_languages] *)
Definition get_supported_languages : M (list text) :=
  f ← get_fs;
  match subprocess_run H ["tesseract"; "--list-langs"] f with
  | Completed returncode stdout =>
      if returncode =? 0 then mret (lines_after_header stdout) else mret []
  | TimeoutExpired | RunRaises _ => mret []
  end.

End OCRInstallation.
End OCRInstallation.

(* ===================================================================== *)
(** * [utils/config.py]: the directories and the class methods            *)
(* ===================================================================== *)

Module ConfigPaths.

Definition TESSERACT_CMD : string :=
  "C:\Program Files\Tesseract-OCR\tesseract.exe".

Section ConfigPaths.
Context (H : host).

Definition INPUT_DIR : pathlib.PurePath := joinpath (ROOT_DIR H) "input".
Definition OUTPUT_DIR : pathlib.PurePath := joinpath (ROOT_DIR H) "output".
Definition TESTS_DIR : pathlib.PurePath := joinpath (ROOT_DIR H) "tests".

(** [directory.mkdir(exist_ok=True)] *)
Definition mkdir_exist_ok (directory : pathlib.PurePath) : M unit :=
  _ ← emit (EvMkdir (pathlib.str directory));
  call (Path_mkdir_exist_ok H (pathlib.str directory)).

(** [Config.create_directories]: the loop stops at the first directory
    that cannot be created. *)
Definition create_directories : M unit :=
  let directories := [INPUT_DIR; OUTPUT_DIR; TESTS_DIR] in
  foldr (λ directory rest, _ ← mkdir_exist_ok directory; rest)
        (mret ()) directories.

End ConfigPaths.
End ConfigPaths.

(* ===================================================================== *)
(** * [main.py]: [validate_system] and [main]                             *)
(* ===================================================================== *)

(** The arguments [argparse] hands to [main]. *)
Record args := {
  input_file : string;
  output_file : string;
  idioma : string;
  forzar_ocr : bool
}.

Section program.
Context (E : env) (H : host).

(** [validate_system] *)
Definition validate_system : M bool :=
  '(tesseract_valid, tesseract_error) ←
    SystemValidator.validate_tesseract_installation H
      ConfigPaths.TESSERACT_CMD;
  if negb tesseract_valid then mret false
  else
    '(lang_valid, lang_error) ←
      SystemValidator.validate_language_support H "spa";
    if negb lang_valid then mret false
    else
      try_except
        (_ ← ConfigPaths.create_directories H; mret true)
        (λ e, mret false).

(** [main], from the [try] on: the exit status of the process.
    [sys.exit(1)] raises [SystemExit], which [except Exception] does not
    catch; the status is 0 when [main] returns.  The assignment to
    [Config.OCRMYPDF_CONFIG['language']] updates the dictionary that
    [process_single_pdf] reads.  Printing and logging are left out. *)
Definition main (a : args) : M Z :=
  try_except
    (ok ← validate_system;
     if negb ok then mret 1
     else
       let OCRMYPDF_CONFIG :=
         <["language" := VStr (idioma a)]> Config.OCRMYPDF_CONFIG in
       success ← process_single_pdf E OCRMYPDF_CONFIG
                   (input_file a) (output_file a) (forzar_ocr a);
       if success : bool then mret 0 else mret 1)
    (λ e, mret 1).

End program.

(* ===================================================================== *)
(** * [core/file_manager.py]: the names of the output files               *)
(* ===================================================================== *)

(** [path.stem]: the name without its suffix. *)
Definition Path_stem (p : pathlib.PurePath) : string :=
  let n := pathlib.name p in
  match pathlib.rfind_dot n 0 with
  | Some i =>
      if ((0 <? i) && (S i <? String.length n))%nat
      then String.substring 0 i n
      else n
  | None => n
  end.

(** [s.endswith(suffix)] *)
Definition endswith (s suffix : string) : bool :=
  (String.length suffix <=? String.length s)%nat &&
  String.eqb (String.substring (String.length s - String.length suffix)
                (String.length suffix) s) suffix.

Module FileManagerNames.

Record t := {
  input_dir : pathlib.PurePath;
  output_dir : pathlib.PurePath
}.

Section FileManagerNames.
Context (E : env).
(** [datetime.now().strftime("%Y%m%d_%H%M%S")] at the time of the call *)
Context (timestamp : string).

(** [FileManager.setup_directories]: an exception is logged and raised
    again. *)
Definition setup_directories (self : t) : M unit :=
  _ ← mkdir_parents E (input_dir self);
  mkdir_parents E (output_dir self).

(** [FileManager.__init__] *)
Definition __init__ (input_dir output_dir : string) : M t :=
  let self := {| input_dir := pathlib.Path input_dir;
                 output_dir := pathlib.Path output_dir |} in
  _ ← setup_directories self;
  mret self.

(** [FileManager.generate_output_filename].  Nothing in the [try] raises
    in this model, so its [except] clause is left out. *)
Definition generate_output_filename (self : t) (input_path suffix : string)
  : M string :=
  let input_file := pathlib.Path input_path in
  let base_name := Path_stem input_file in
  let base_name :=
    if negb (endswith base_name suffix) then base_name +:+ suffix
    else base_name in
  let output_filename := base_name +:+ ".pdf" in
  let output_path := joinpath (output_dir self) output_filename in
  ex ← Path_exists output_path;
  if ex : bool
  then
    let base_name_with_timestamp := base_name +:+ "_" +:+ timestamp in
    let output_filename := base_name_with_timestamp +:+ ".pdf" in
    let output_path := joinpath (output_dir self) output_filename in
    mret (pathlib.str output_path)
  else mret (pathlib.str output_path).

End FileManagerNames.
End FileManagerNames.

(** A component of a path: not empty, not ["."], no separator in it. *)
Fixpoint no_slash (s : string) : bool :=
  match s with
  | EmptyString => true
  | String c s' => negb (Ascii.eqb c "/"%char) && no_slash s'
  end.

Definition component (c : string) : bool :=
  negb (String.eqb c "") && negb (String.eqb c ".") && no_slash c.

(** The name [generate_output_filename] tries first, without its
    extension: the stem of the input, with the suffix unless it is there
    already. *)
Definition base_name_of (input_path suffix : string) : string :=
  let base_name := Path_stem (pathlib.Path input_path) in
  if negb (endswith base_name suffix) then base_name +:+ suffix
  else base_name.

Definition candidate (self : FileManagerNames.t)
           (input_path suffix : string) : string :=
  pathlib.str (joinpath (FileManagerNames.output_dir self)
                 (base_name_of input_path suffix +:+ ".pdf")).

(* ===================================================================== *)
(** * Further observations and descriptions                               *)
(* ===================================================================== *)

Definition not_space (c : N) : bool := negb (isspace c).

(** Is every whitespace character of [t] a single [' '] that follows a
    character of a word?  [after_word] tells whether the character before
    [t] belongs to a word; the text must not end on whitespace. *)
Fixpoint single_spaced (after_word : bool) (t : text) : bool :=
  match t with
  | [] => after_word
  | c :: t' =>
      if isspace c
      then after_word && (c =? SPACE)%N && single_spaced false t'
      else single_spaced true t'
  end.

(** A text in the form [clean_text] produces: empty, or words separated
    by single spaces. *)
Definition normalised (t : text) : bool :=
  match t with
  | [] => true
  | _ => single_spaced false t
  end.

(** The ten keys of the dictionary [analyze_pdf] starts from. *)
Definition analysis_keys : gset string :=
  list_to_set ["file_path"; "has_text"; "is_searchable"; "needs_ocr";
               "total_pages"; "pages_with_text"; "total_characters";
               "average_chars_per_page"; "analysis_method"; "error"].

(** The texts of the pages the fallback backend could read. *)
Definition readable (pages : list (option text)) : list text :=
  omap id pages.

(** The dictionaries [analyze_pdf] returns and the calls it records:
    through the primary backend, through the fallback, or through none. *)
Inductive analysis_of (E : env) (p : string) (f : filesystem)
  : gmap string value → list event → Prop :=
| by_pymupdf pages tc pwt :
    fitz_open E p f = FitzDoc pages false →
    PDFDetector.scan_pymupdf PDFDetector.__init__ pages 0 0 = Some (tc, pwt) →
    analysis_of E p f
      (decided (has_sufficient_text PDFDetector.__init__ tc
                  (average_q tc (Z.of_nat (length pages))) pwt
                  (Z.of_nat (length pages)))
         (extracted "PyMuPDF" (Z.of_nat (length pages)) tc pwt
            (PDFDetector.initial_result p)))
      [EvFitzOpen p]
| by_pypdf2 pages tc pwt r :
    pymupdf_succeeds (fitz_open E p f) = false →
    PdfReader E p f = ReaderPages pages →
    PDFDetector.scan_pypdf2 PDFDetector.__init__ pages 0 0 = (tc, pwt) →
    half_done (PDFDetector.initial_result p) r →
    analysis_of E p f
      (decided (has_sufficient_text PDFDetector.__init__ tc
                  (average_q tc (Z.of_nat (length pages))) pwt
                  (Z.of_nat (length pages)))
         (extracted "PyPDF2" (Z.of_nat (length pages)) tc pwt r))
      [EvFitzOpen p; EvPdfReader p]
| by_no_method r r' :
    extraction_succeeds E p f = false →
    half_done (PDFDetector.initial_result p) r →
    half_done r r' →
    analysis_of E p f (<["error" := VStr PDFDetector.no_method]> r')
      [EvFitzOpen p; EvPdfReader p].

(** [result] as the method block of [process_pdf] leaves it: the method
    is named, and a copy that went through replaces the page count. *)
Definition chosen (method : string) (copied : bool)
           (result : gmap string value) : gmap string value :=
  let result := <["processing_method" := VStr method]> result in
  if copied
  then <["pages_processed" := VStr "N/A (copia directa)"]> result
  else result.

(** The world after [mkdir(parents=True, exist_ok=True)] ran on [dir]. *)
Definition after_mkdir (E : env) (dir : string) (w : world) : world :=
  {| fs := new_fs (Path_mkdir E dir (fs w));
     trace := trace w ++ [EvMkdir dir] |}.

(** The paths on which the primary backend was opened: one entry for
    each analysis of a document. *)
Fixpoint fitz_opens (tr : list event) : list string :=
  match tr with
  | [] => []
  | EvFitzOpen p :: tr' => p :: fitz_opens tr'
  | _ :: tr' => fitz_opens tr'
  end.

(* ===================================================================== *)
(** * Further concrete worlds                                             *)
(* ===================================================================== *)

(** A document the primary backend cannot open; the fallback reads its
    first page (200 characters) and fails on the second. *)
Definition E_fallback : env :=
  demo_env FitzOpenRaises (ReaderPages [Some (repeat 97%N 200); None])
           engine_writes.

(** A host on which [tesseract] answers with the version and the
    languages given, and every directory can be made. *)
Definition lines (ls : list string) : text :=
  join [NEWLINE] (text_of_string <$> ls) ++ [NEWLINE].

Definition demo_host (version : text) (languages : list string) : host :=
  {| subprocess_run := λ argv _,
       if bool_decide (argv = ["tesseract"; "--version"])
       then Completed 0 version
       else Completed 0
              (lines ("List of available languages (2):" :: languages));
     os_path_exists := λ _ _, true;
     os_access_X_OK := λ _ _, inr true;
     Path_mkdir_exist_ok := mkdir_works;
     ROOT_DIR := pathlib.Path "." |}.

Definition H_demo : host :=
  demo_host (lines ["tesseract 5.3.0"]) ["eng"; "spa"].

(** Only an older Spanish model is installed. *)
Definition H_old : host :=
  demo_host (lines ["tesseract 5.3.0"]) ["eng"; "spa_old"].

(* ===================================================================== *)
(** * Tactics                                                             *)
(* ===================================================================== *)

Ltac unfold_monad :=
  unfold py_and, getitem, lift, raise, get_fs, emit, call, call_value,
         try_except, mbind, M_bind, mret, M_ret in *.

Ltac case_if :=
  match goal with
  | |- context [if ?b then _ else _] => destruct b eqn:?; cbn
  end.

(* ===================================================================== *)
(** * Whitespace normalisation                                            *)
(* ===================================================================== *)

Lemma split_from_words s : ∀ word,
  no_space word → Forall is_word (split_from word s).
Proof.
  induction s as [|c s IH]; intros word Hw; simpl.
  - destruct word; constructor; [|constructor]. split; [done|exact Hw].
  - destruct (isspace c) eqn:Hc.
    + destruct word.
      * apply IH. constructor.
      * constructor; [split; [done|exact Hw]|]. apply IH. constructor.
    + apply IH. apply Forall_app. split; [exact Hw|].
      repeat constructor. exact Hc.
Qed.

(** Reading a run of non-whitespace only extends the word being read. *)
Lemma split_from_run w : ∀ word rest,
  no_space w → split_from word (w ++ rest) = split_from (word ++ w) rest.
Proof.
  induction w as [|c w IH]; intros word rest Hw; simpl.
  - by rewrite app_nil_r.
  - inversion Hw as [|? ? Hc Hw']; subst. rewrite Hc.
    rewrite IH by exact Hw'. by rewrite <- app_assoc.
Qed.

(** Splitting what [join] made of words gives the words back. *)
Lemma split_join ws : Forall is_word ws → split (join [SPACE] ws) = ws.
Proof.
  unfold split.
  induction ws as [|w ws IH]; intros Hws; [done|].
  inversion Hws as [|? ? [Hne Hw] Hws']; subst.
  destruct ws as [|w' ws].
  - simpl. rewrite <- (app_nil_r w) at 1.
    rewrite split_from_run by exact Hw. simpl. by destruct w.
  - change (join [SPACE] (w :: w' :: ws))
      with (w ++ SPACE :: join [SPACE] (w' :: ws)).
    rewrite split_from_run by exact Hw. simpl.
    destruct w; [done|]. simpl. f_equal. apply IH. exact Hws'.
Qed.

(** C9. The whitespace normalisation applied before counting characters,
    [' '.join(text.split())], is idempotent: normalising a text that is
    already normalised gives the same text, for every text. *)
Theorem clean_text_idempotent s : clean_text (clean_text s) = clean_text s.
Proof.
  unfold clean_text. f_equal. apply split_join.
  apply split_from_words. constructor.
Qed.

Lemma char_count_nonneg s : 0 ≤ char_count s.
Proof. unfold char_count. lia. Qed.

(* ===================================================================== *)
(** * Numbers                                                             *)
(* ===================================================================== *)

Lemma Qlt_bool_iff x y : Qlt_bool x y = true ↔ (x < y)%Q.
Proof.
  unfold Qlt_bool. rewrite negb_true_iff, <- not_true_iff_false, Qle_bool_iff.
  split; [apply Qnot_le_lt | apply Qlt_not_le].
Qed.

Lemma inject_Z_eq_0 z : Qeq_bool (inject_Z z) 0 = (z =? 0).
Proof. unfold Qeq_bool, inject_Z. simpl. by rewrite Z.mul_1_r. Qed.

Lemma as_number_average tc tp :
  as_number (PDFDetector.average tc tp) = Some (average_q tc tp).
Proof. unfold PDFDetector.average, average_q. by destruct (0 <? tp). Qed.

(** With the thresholds of [__init__], [has_sufficient_text] is the
    conjunction of the three conditions. *)
Lemma has_sufficient_text_iff tc avg pwt tp :
  has_sufficient_text PDFDetector.__init__ tc avg pwt tp = true ↔
  50 < tc ∧ (50 < avg)%Q ∧ (1 # 10 <= inject_Z pwt / inject_Z tp)%Q.
Proof.
  unfold has_sufficient_text.
  rewrite !andb_true_iff, !Qlt_bool_iff, Qle_bool_iff.
  simpl. rewrite <- Zlt_Qlt. tauto.
Qed.

(* ===================================================================== *)
(** * The page loops                                                      *)
(* ===================================================================== *)

Lemma scan_pymupdf_bounds self pages : ∀ tc pwt tc' pwt',
  PDFDetector.scan_pymupdf self pages tc pwt = Some (tc', pwt') →
  tc ≤ tc' ∧ pwt ≤ pwt' ≤ pwt + Z.of_nat (length pages).
Proof.
  induction pages as [|[page|] pages IH]; intros tc pwt tc' pwt' H; simpl in H.
  - inversion H; subst. simpl. lia.
  - apply IH in H. pose proof (char_count_nonneg page).
    destruct (_ <? _); simpl length; lia.
  - discriminate.
Qed.

Lemma scan_pypdf2_bounds self pages : ∀ tc pwt tc' pwt',
  PDFDetector.scan_pypdf2 self pages tc pwt = (tc', pwt') →
  tc ≤ tc' ∧ pwt ≤ pwt' ≤ pwt + Z.of_nat (length pages).
Proof.
  induction pages as [|[page|] pages IH]; intros tc pwt tc' pwt' H; simpl in H.
  - inversion H; subst. simpl. lia.
  - apply IH in H. pose proof (char_count_nonneg page).
    destruct (_ <? _); simpl length; lia.
  - apply IH in H. simpl length. lia.
Qed.

(** The primary loop gives up exactly when some page raises. *)
Lemma scan_pymupdf_None self pages : ∀ tc pwt,
  PDFDetector.scan_pymupdf self pages tc pwt = None ↔
  forallb (λ page, bool_decide (is_Some page)) pages = false.
Proof.
  induction pages as [|[page|] pages IH]; intros tc pwt; simpl.
  - split; discriminate.
  - by rewrite IH.
  - done.
Qed.

(* ===================================================================== *)
(** * The analyzer                                                        *)
(* ===================================================================== *)

Lemma log_log w a b : log (log w a) b = log w (a ++ b).
Proof. unfold log. simpl. by rewrite <- app_assoc. Qed.

Lemma half_done_lookup r r' k :
  half_done r r' → k ≠ "analysis_method" → k ≠ "total_pages" →
  r' !! k = r !! k.
Proof. intros [] H1 H2; [done| |]; by rewrite ?lookup_insert_ne. Qed.

Lemma half_done_pages r r' n :
  half_done r r' → r !! "total_pages" = Some (VInt (Z.of_nat n)) →
  ∃ n', r' !! "total_pages" = Some (VInt (Z.of_nat n')).
Proof.
  intros [] H.
  - eauto.
  - exists n. by rewrite lookup_insert_ne.
  - eexists. by rewrite lookup_insert_eq.
Qed.

Section extracted_lookups.
  Context (m : string) (tp tc pwt : Z) (r : gmap string value).

Lemma extracted_tc :
  extracted m tp tc pwt r !! "total_characters" = Some (VInt tc).
Proof. unfold extracted. by simplify_map_eq. Qed.

Lemma extracted_tp :
  extracted m tp tc pwt r !! "total_pages" = Some (VInt tp).
Proof. unfold extracted. by simplify_map_eq. Qed.

Lemma extracted_pwt :
  extracted m tp tc pwt r !! "pages_with_text" = Some (VInt pwt).
Proof. unfold extracted. by simplify_map_eq. Qed.

Lemma extracted_avg :
  extracted m tp tc pwt r !! "average_chars_per_page"
  = Some (PDFDetector.average tc tp).
Proof. unfold extracted. by simplify_map_eq. Qed.

Lemma extracted_error : extracted m tp tc pwt r !! "error" = r !! "error".
Proof. unfold extracted. by simplify_map_eq. Qed.

End extracted_lookups.

Lemma decided_other h r k :
  k ≠ "needs_ocr" → k ≠ "is_searchable" → k ≠ "has_text" →
  decided h r !! k = r !! k.
Proof. intros. unfold decided. by rewrite !lookup_insert_ne. Qed.

Lemma fields_decided m tp tc pwt r h err :
  r !! "error" = Some err →
  fields (decided h (extracted m tp tc pwt r)) tc tp pwt
         (PDFDetector.average tc tp) h err.
Proof.
  intros Herr. unfold fields.
  repeat split; rewrite ?decided_other by done;
    rewrite ?extracted_tc, ?extracted_tp, ?extracted_pwt, ?extracted_avg,
      ?extracted_error; try done; unfold decided; by simplify_map_eq.
Qed.

(** The primary backend, when it goes through the document. *)
Lemma pymupdf_run_ok E self p r w pages tc pwt :
  fitz_open E p (fs w) = FitzDoc pages false →
  PDFDetector.scan_pymupdf self pages 0 0 = Some (tc, pwt) →
  PDFDetector._analyze_with_pymupdf E self p r w
  = (inr (true, extracted "PyMuPDF" (Z.of_nat (length pages)) tc pwt r),
     log w [EvFitzOpen p]).
Proof.
  intros Ho Hs. unfold PDFDetector._analyze_with_pymupdf. unfold_monad. cbn.
  by rewrite Ho, Hs.
Qed.

(** The primary backend, when it gives up. *)
Lemma pymupdf_run_fail E self p r w :
  pymupdf_succeeds (fitz_open E p (fs w)) = false →
  ∃ r', PDFDetector._analyze_with_pymupdf E self p r w
        = (inr (false, r'), log w [EvFitzOpen p]) ∧ half_done r r'.
Proof.
  intros Ho. unfold PDFDetector._analyze_with_pymupdf. unfold_monad. cbn.
  destruct (fitz_open E p (fs w)) as [| |pages c]; simpl in Ho.
  - eexists; split; [reflexivity|constructor].
  - eexists; split; [reflexivity|constructor].
  - destruct (PDFDetector.scan_pymupdf self pages 0 0) as [[tc pwt]|] eqn:Hs.
    + destruct c; [eexists; split; [reflexivity|constructor]|].
      simpl in Ho.
      apply scan_pymupdf_None with (self:=self) (tc:=0) (pwt:=0) in Ho.
      congruence.
    + eexists; split; [reflexivity|constructor].
Qed.

(** The fallback backend, when it goes through the document. *)
Lemma pypdf2_run_ok E self p r w pages :
  PdfReader E p (fs w) = ReaderPages pages →
  PDFDetector._analyze_with_pypdf2 E self p r w
  = (inr (true, extracted "PyPDF2" (Z.of_nat (length pages))
                  (PDFDetector.scan_pypdf2 self pages 0 0).1
                  (PDFDetector.scan_pypdf2 self pages 0 0).2 r),
     log w [EvPdfReader p]).
Proof.
  intros Ho. unfold PDFDetector._analyze_with_pypdf2. unfold_monad. cbn.
  rewrite Ho. by destruct (PDFDetector.scan_pypdf2 self pages 0 0).
Qed.

(** The fallback backend, when it gives up. *)
Lemma pypdf2_run_fail E self p r w :
  pypdf2_succeeds (PdfReader E p (fs w)) = false →
  ∃ r', PDFDetector._analyze_with_pypdf2 E self p r w
        = (inr (false, r'), log w [EvPdfReader p]) ∧ half_done r r'.
Proof.
  intros Ho. unfold PDFDetector._analyze_with_pypdf2. unfold_monad. cbn.
  destruct (PdfReader E p (fs w)) as [| |n|pages]; simpl in Ho;
    try discriminate; eexists; (split; [reflexivity|constructor]).
Qed.

(** [_determine_ocr_need] returns, with the verdict [has_sufficient_text],
    provided a document without pages does not pass the first test. *)
Lemma determine_ocr_need_run self result w tc avgv avg pwt tp :
  result !! "total_characters" = Some (VInt tc) →
  result !! "average_chars_per_page" = Some avgv →
  as_number avgv = Some avg →
  result !! "pages_with_text" = Some (VInt pwt) →
  result !! "total_pages" = Some (VInt tp) →
  (tp = 0 → tc ≤ PDFDetector.min_text_threshold self) →
  PDFDetector._determine_ocr_need self result w
  = (inr (decided (has_sufficient_text self tc avg pwt tp) result), w).
Proof.
  intros Htc Havgv Havg Hpwt Htp Hzero.
  unfold PDFDetector._determine_ocr_need, has_sufficient_text, decided.
  unfold_monad.
  rewrite Htc, Havgv, Hpwt, Htp. unfold py_gt, py_ge, py_truediv.
  rewrite Havg. cbn.
  destruct (Qlt_bool _ (inject_Z tc)) eqn:H1; [|reflexivity].
  destruct (Qlt_bool _ avg) eqn:H2; [|reflexivity].
  rewrite inject_Z_eq_0.
  destruct (tp =? 0) eqn:H3; [|reflexivity].
  exfalso. apply Z.eqb_eq in H3. specialize (Hzero H3).
  apply Qlt_bool_iff in H1. rewrite <- Zlt_Qlt in H1. lia.
Qed.

(** Without the first test, a document without pages makes the division
    raise. *)
Lemma determine_ocr_need_divides self result w tc avgv avg pwt :
  result !! "total_characters" = Some (VInt tc) →
  result !! "average_chars_per_page" = Some avgv →
  as_number avgv = Some avg →
  result !! "pages_with_text" = Some (VInt pwt) →
  result !! "total_pages" = Some (VInt 0) →
  PDFDetector.min_text_threshold self < tc →
  (inject_Z (PDFDetector.min_text_threshold self) < avg)%Q →
  PDFDetector._determine_ocr_need self result w = (inl ZeroDivisionError, w).
Proof.
  intros Htc Havgv Havg Hpwt Htp H1 H2.
  unfold PDFDetector._determine_ocr_need. unfold_monad.
  rewrite Htc, Havgv, Hpwt, Htp. unfold py_gt, py_ge, py_truediv.
  rewrite Havg. cbn.
  rewrite (proj2 (Qlt_bool_iff _ _)) by (by rewrite <- Zlt_Qlt).
  by rewrite (proj2 (Qlt_bool_iff _ _) H2).
Qed.

Lemma determine_after_extraction self m tp tc pwt r w :
  (tp = 0 → tc ≤ PDFDetector.min_text_threshold self) →
  PDFDetector._determine_ocr_need self (extracted m tp tc pwt r) w
  = (inr (decided (has_sufficient_text self tc (average_q tc tp) pwt tp)
                  (extracted m tp tc pwt r)), w).
Proof.
  intros Hz.
  apply determine_ocr_need_run with (avgv := PDFDetector.average tc tp);
    auto using extracted_tc, extracted_tp, extracted_pwt, extracted_avg,
               as_number_average.
Qed.

(** [analyze_pdf] when a backend goes through the document: the result,
    the calls recorded, and what the page loop guarantees. *)
Lemma analyze_pdf_extracted E p w :
  extraction_succeeds E p (fs w) = true →
  ∃ d evs tc pwt,
    let tp := Z.of_nat (page_count E p (fs w)) in
    PDFDetector.analyze_pdf E PDFDetector.__init__ p w = (inr d, log w evs) ∧
    (evs = [EvFitzOpen p] ∨ evs = [EvFitzOpen p; EvPdfReader p]) ∧
    fields d tc tp pwt (PDFDetector.average tc tp)
           (has_sufficient_text PDFDetector.__init__ tc (average_q tc tp)
                                pwt tp) VNone ∧
    0 ≤ tc ∧ 0 ≤ pwt ≤ tp ∧ (tp = 0 → tc = 0).
Proof.
  unfold extraction_succeeds, page_count. intros Hs.
  destruct (pymupdf_succeeds (fitz_open E p (fs w))) eqn:H1.
  - destruct (fitz_open E p (fs w)) as [| |pages c] eqn:Ho;
      [discriminate|discriminate|].
    simpl in H1. apply andb_true_iff in H1 as [Hc Hpages].
    destruct c; [discriminate|].
    destruct (PDFDetector.scan_pymupdf PDFDetector.__init__ pages 0 0)
      as [[tc pwt]|] eqn:Hscan.
    2:{ apply scan_pymupdf_None in Hscan. congruence. }
    pose proof (scan_pymupdf_bounds _ _ _ _ _ _ Hscan) as Hb.
    assert (Hz : Z.of_nat (length pages) = 0 → tc = 0).
    { intros Hl. destruct pages; [|simpl in Hl; lia].
      simpl in Hscan. congruence. }
    exists (decided (has_sufficient_text PDFDetector.__init__ tc
                      (average_q tc (Z.of_nat (length pages))) pwt
                      (Z.of_nat (length pages)))
              (extracted "PyMuPDF" (Z.of_nat (length pages)) tc pwt
                 (PDFDetector.initial_result p))),
      [EvFitzOpen p], tc, pwt.
    split; [|split; [by left|split; [by apply fields_decided|lia]]].
    unfold PDFDetector.analyze_pdf, try_except, mbind, M_bind at 1 2.
    rewrite (pymupdf_run_ok _ _ _ _ _ _ _ _ Ho Hscan). cbn.
    rewrite determine_after_extraction; [done|].
    intros Hl. rewrite (Hz Hl). done.
  - simpl in Hs.
    destruct (PdfReader E p (fs w)) as [| | |pages] eqn:Ho; try discriminate.
    destruct (pymupdf_run_fail E PDFDetector.__init__ p
                (PDFDetector.initial_result p) w H1) as (r' & Hrun & Hhd).
    destruct (PDFDetector.scan_pypdf2 PDFDetector.__init__ pages 0 0)
      as [tc pwt] eqn:Hscan.
    pose proof (scan_pypdf2_bounds _ _ _ _ _ _ Hscan) as Hb.
    assert (Hz : Z.of_nat (length pages) = 0 → tc = 0).
    { intros Hl. destruct pages; [|simpl in Hl; lia].
      simpl in Hscan. congruence. }
    exists (decided (has_sufficient_text PDFDetector.__init__ tc
                      (average_q tc (Z.of_nat (length pages))) pwt
                      (Z.of_nat (length pages)))
              (extracted "PyPDF2" (Z.of_nat (length pages)) tc pwt r')),
      [EvFitzOpen p; EvPdfReader p], tc, pwt.
    split; [|split; [by right|split; [|lia]]].
    + unfold PDFDetector.analyze_pdf, try_except, mbind, M_bind at 1 2.
      rewrite Hrun. cbn. unfold M_bind at 1.
      rewrite (pypdf2_run_ok _ _ _ _ (log w [EvFitzOpen p]) _ Ho), Hscan. cbn.
      rewrite determine_after_extraction, log_log; [done|].
      intros Hl. rewrite (Hz Hl). done.
    + apply fields_decided.
      by rewrite (half_done_lookup _ _ _ Hhd).
Qed.

(** [analyze_pdf] when both backends give up. *)
Lemma analyze_pdf_failed E p w :
  extraction_succeeds E p (fs w) = false →
  ∃ d n,
    PDFDetector.analyze_pdf E PDFDetector.__init__ p w
    = (inr d, log w [EvFitzOpen p; EvPdfReader p]) ∧
    fields d 0 (Z.of_nat n) 0 (VInt 0) false (VStr PDFDetector.no_method).
Proof.
  unfold extraction_succeeds. intros Hs.
  apply orb_false_iff in Hs as [H1 H2].
  destruct (pymupdf_run_fail E PDFDetector.__init__ p
              (PDFDetector.initial_result p) w H1) as (r' & Hrun & Hhd).
  destruct (pypdf2_run_fail E PDFDetector.__init__ p r'
              (log w [EvFitzOpen p]) H2) as (r'' & Hrun' & Hhd').
  destruct (half_done_pages _ _ 0 Hhd eq_refl) as [n' Hn'].
  destruct (half_done_pages _ _ n' Hhd' Hn') as [n Hn].
  exists (<["error" := VStr PDFDetector.no_method]> r''), n. split.
  - unfold PDFDetector.analyze_pdf, try_except, mbind, M_bind at 1 2.
    rewrite Hrun. cbn. unfold M_bind at 1. by rewrite Hrun', log_log.
  - unfold fields.
    repeat split; rewrite ?lookup_insert_eq, ?lookup_insert_ne by done;
      try done;
      rewrite ?(half_done_lookup _ _ _ Hhd') by done;
      by rewrite ?(half_done_lookup _ _ _ Hhd).
Qed.

(** [analyze_pdf] always returns a dictionary with the entries of
    [fields], and records only calls of the backends. *)
Lemma analyze_pdf_total E p w :
  ∃ d evs tc tp pwt avg h err,
    PDFDetector.analyze_pdf E PDFDetector.__init__ p w = (inr d, log w evs) ∧
    (evs = [EvFitzOpen p] ∨ evs = [EvFitzOpen p; EvPdfReader p]) ∧
    fields d tc tp pwt avg h err ∧ pwt ≤ tp.
Proof.
  destruct (extraction_succeeds E p (fs w)) eqn:Hs.
  - destruct (analyze_pdf_extracted E p w Hs)
      as (d & evs & tc & pwt & Hrun & Hevs & Hf & _ & Hle & _).
    eexists d, evs, tc, _, pwt, _, _, _.
    split; [exact Hrun|]. split; [exact Hevs|]. split; [exact Hf|]. lia.
  - destruct (analyze_pdf_failed E p w Hs) as (d & n & Hrun & Hf).
    eexists d, _, _, _, _, _, _, _.
    split; [exact Hrun|]. split; [by right|]. split; [exact Hf|]. lia.
Qed.

(** C1. For every document whose extraction succeeds, the analyzer sets
    [needs_ocr] to false if and only if all three conditions hold:
    [total_characters > 50], [average_chars_per_page > 50] and
    [pages_with_text / total_pages >= 0.1]; in particular
    [total_characters <= 50] forces [needs_ocr = true], and the three
    conditions together force [needs_ocr = false].  (A quotient by zero
    pages counts as 0: the third condition then fails, as the first.) *)
Theorem needs_ocr_iff_thresholds E pdf_path w :
  extraction_succeeds E pdf_path (fs w) = true →
  ∃ d w' total_characters total_pages pages_with_text
    average_value average_chars_per_page needs_ocr,
    PDFDetector.analyze_pdf E PDFDetector.__init__ pdf_path w = (inr d, w') ∧
    d !! "total_characters" = Some (VInt total_characters) ∧
    d !! "total_pages" = Some (VInt total_pages) ∧
    d !! "pages_with_text" = Some (VInt pages_with_text) ∧
    d !! "average_chars_per_page" = Some average_value ∧
    as_number average_value = Some average_chars_per_page ∧
    d !! "needs_ocr" = Some (VBool needs_ocr) ∧
    (needs_ocr = false ↔
       50 < total_characters ∧ (50 < average_chars_per_page)%Q ∧
       (1 # 10 <= inject_Z pages_with_text / inject_Z total_pages)%Q) ∧
    (total_characters ≤ 50 → needs_ocr = true).
Proof.
  intros Hs.
  destruct (analyze_pdf_extracted E pdf_path w Hs)
    as (d & evs & tc & pwt & Hrun & _ & Hf & _).
  destruct Hf as (Htc & Htp & Hpwt & Havg & _ & Hn & _).
  set (tp := Z.of_nat (page_count E pdf_path (fs w))) in *.
  exists d, (log w evs), tc, tp, pwt, (PDFDetector.average tc tp),
    (average_q tc tp),
    (negb (has_sufficient_text PDFDetector.__init__ tc (average_q tc tp)
                               pwt tp)).
  do 7 (split; [assumption || apply as_number_average|]).
  split.
  - rewrite negb_false_iff. apply has_sufficient_text_iff.
  - intros Hle. apply negb_true_iff, not_true_iff_false.
    rewrite has_sufficient_text_iff. lia.
Qed.

Lemma needs_ocr_iff_thresholds_witness :
  extraction_succeeds E_text "doc.pdf" (fs w_demo) = true ∧
  ∃ d w' total_characters total_pages pages_with_text
    average_value average_chars_per_page needs_ocr,
    PDFDetector.analyze_pdf E_text PDFDetector.__init__ "doc.pdf" w_demo
    = (inr d, w') ∧
    d !! "total_characters" = Some (VInt total_characters) ∧
    d !! "total_pages" = Some (VInt total_pages) ∧
    d !! "pages_with_text" = Some (VInt pages_with_text) ∧
    d !! "average_chars_per_page" = Some average_value ∧
    as_number average_value = Some average_chars_per_page ∧
    d !! "needs_ocr" = Some (VBool needs_ocr) ∧
    (needs_ocr = false ↔
       50 < total_characters ∧ (50 < average_chars_per_page)%Q ∧
       (1 # 10 <= inject_Z pages_with_text / inject_Z total_pages)%Q) ∧
    (total_characters ≤ 50 → needs_ocr = true).
Proof.
  split; [reflexivity|].
  apply (needs_ocr_iff_thresholds E_text "doc.pdf" w_demo). reflexivity.
Defined.

(** The scenario of the specification: pages of 0, 5 and 200 characters
    give 205 characters, one page with text, and a searchable document. *)
Example three_pages_have_text :
  field "total_characters" text_analysis = Some (VInt 205) ∧
  field "total_pages" text_analysis = Some (VInt 3) ∧
  field "pages_with_text" text_analysis = Some (VInt 1) ∧
  field "average_chars_per_page" text_analysis = Some (VFloat (205 # 3)) ∧
  field "has_text" text_analysis = Some (VBool true) ∧
  field "needs_ocr" text_analysis = Some (VBool false).
Proof. vm_compute. repeat split. Qed.

(** C2. Every analysis result returned by [analyze_pdf] satisfies
    [pages_with_text <= total_pages] and [needs_ocr == not has_text]:
    whichever backend succeeds, and when both fail.  [analyze_pdf] always
    returns such a dictionary: the [except] clause of [analyze_pdf], whose
    dictionary has no page counts, is never entered. *)
Theorem analysis_invariant E pdf_path w :
  ∃ d w' pages_with_text total_pages has_text,
    PDFDetector.analyze_pdf E PDFDetector.__init__ pdf_path w = (inr d, w') ∧
    d !! "pages_with_text" = Some (VInt pages_with_text) ∧
    d !! "total_pages" = Some (VInt total_pages) ∧
    pages_with_text ≤ total_pages ∧
    d !! "has_text" = Some (VBool has_text) ∧
    d !! "needs_ocr" = Some (VBool (negb has_text)).
Proof.
  destruct (analyze_pdf_total E pdf_path w)
    as (d & evs & tc & tp & pwt & avg & h & err & Hrun & _ & Hf & Hle).
  destruct Hf as (_ & Htp & Hpwt & _ & Hh & Hn & _).
  by exists d, (log w evs), pwt, tp, h.
Qed.

(** C10. For a document that extracts successfully with no page,
    [_determine_ocr_need] raises no division by zero and the result has
    [needs_ocr = true]: no page forces [total_characters = 0], and with
    [total_characters = 0] the first test fails, so the conjunction stops
    before [pages_with_text / total_pages] (last part: whatever the other
    entries of [result] are, [_determine_ocr_need] returns). *)
Theorem zero_pages_needs_ocr E pdf_path w :
  extraction_succeeds E pdf_path (fs w) = true →
  page_count E pdf_path (fs w) = 0%nat →
  ∃ d w',
    PDFDetector.analyze_pdf E PDFDetector.__init__ pdf_path w = (inr d, w') ∧
    d !! "total_pages" = Some (VInt 0) ∧
    d !! "total_characters" = Some (VInt 0) ∧
    d !! "needs_ocr" = Some (VBool true) ∧
    d !! "error" = Some VNone ∧
    ∀ result w0,
      result !! "total_characters" = Some (VInt 0) →
      ∃ result',
        PDFDetector._determine_ocr_need PDFDetector.__init__ result w0
        = (inr result', w0) ∧
        result' !! "needs_ocr" = Some (VBool true).
Proof.
  intros Hs Hz.
  destruct (analyze_pdf_extracted E pdf_path w Hs)
    as (d & evs & tc & pwt & Hrun & _ & Hf & _ & _ & Hzero).
  rewrite Hz in Hf, Hzero. simpl in Hf, Hzero. rewrite (Hzero eq_refl) in Hf.
  destruct Hf as (Htc & Htp & _ & _ & _ & Hn & Herr).
  exists d, (log w evs). repeat (split; [done|]).
  intros result w0 Hr. eexists. split.
  - unfold PDFDetector._determine_ocr_need. unfold_monad. rewrite Hr. cbn.
    reflexivity.
  - by simplify_map_eq.
Qed.

Lemma zero_pages_needs_ocr_witness :
  extraction_succeeds E_empty "doc.pdf" (fs w_demo) = true ∧
  page_count E_empty "doc.pdf" (fs w_demo) = 0%nat ∧
  ∃ d w',
    PDFDetector.analyze_pdf E_empty PDFDetector.__init__ "doc.pdf" w_demo
    = (inr d, w') ∧
    d !! "total_pages" = Some (VInt 0) ∧
    d !! "total_characters" = Some (VInt 0) ∧
    d !! "needs_ocr" = Some (VBool true) ∧
    d !! "error" = Some VNone ∧
    ∀ result w0,
      result !! "total_characters" = Some (VInt 0) →
      ∃ result',
        PDFDetector._determine_ocr_need PDFDetector.__init__ result w0
        = (inr result', w0) ∧
        result' !! "needs_ocr" = Some (VBool true).
Proof.
  split; [reflexivity|]. split; [reflexivity|].
  apply (zero_pages_needs_ocr E_empty "doc.pdf" w_demo); reflexivity.
Defined.

(** The first test is what keeps the division away: a dictionary with no
    page but more than 50 characters makes [_determine_ocr_need] raise. *)
Example division_by_zero_without_first_test :
  PDFDetector._determine_ocr_need PDFDetector.__init__
    (<["total_characters" := VInt 51]>
     (<["average_chars_per_page" := VInt 51]>
      (PDFDetector.initial_result "doc.pdf"))) w_demo
  = (inl ZeroDivisionError, w_demo).
Proof. vm_compute. reflexivity. Qed.

(* ===================================================================== *)
(** * The invoker                                                         *)
(* ===================================================================== *)

Lemma ocr_calls_app a b : ocr_calls (a ++ b) = ocr_calls a ++ ocr_calls b.
Proof. induction a as [|[] a IH]; simpl; by rewrite ?IH. Qed.

Lemma copy_calls_app a b : copy_calls (a ++ b) = copy_calls a ++ copy_calls b.
Proof. induction a as [|[] a IH]; simpl; by rewrite ?IH. Qed.

Lemma verify_result_run o s r w :
  OCRProcessor.verify_result o s r w = (inr (checked o s r (fs w)), w).
Proof.
  unfold OCRProcessor.verify_result, checked, Path_exists, Path_st_size.
  unfold_monad. destruct s; cbn; [|done].
  destruct (fs w !! pathlib.str (pathlib.Path o)) as [st|] eqn:Hst.
  - rewrite bool_decide_true by eauto. by rewrite Hst.
  - rewrite bool_decide_false; [done|]. by intros [? ?].
Qed.

Lemma checked_other o s r f k :
  k ≠ "file_size_after" → k ≠ "success" → k ≠ "error" →
  checked o s r f !! k = r !! k.
Proof.
  intros. unfold checked.
  destruct (if s then _ else _); by rewrite !lookup_insert_ne.
Qed.

(** [success] becomes true only with the flag set and the output there. *)
Lemma checked_success o s r f :
  r !! "success" = Some (VBool false) →
  checked o s r f !! "success"
  = Some (VBool (s && bool_decide
                        (is_Some (f !! pathlib.str (pathlib.Path o))))).
Proof.
  intros Hr. unfold checked. destruct s; simpl.
  - destruct (f !! _) as [st|].
    + rewrite bool_decide_true by eauto. by simplify_map_eq.
    + rewrite bool_decide_false by (by intros [? ?]). by simplify_map_eq.
  - by simplify_map_eq.
Qed.

Lemma checked_error o s r f :
  s && bool_decide (is_Some (f !! pathlib.str (pathlib.Path o))) = false →
  checked o s r f !! "error" = Some (VStr OCRProcessor.output_missing).
Proof.
  intros Hs. unfold checked. destruct s; simpl in *.
  - destruct (f !! _) as [st|].
    + by rewrite bool_decide_true in Hs by eauto.
    + by simplify_map_eq.
  - by simplify_map_eq.
Qed.

(** [_apply_ocr] calls the engine once, with [ocr_config]; it returns
    [True] when that call returned and raises when that call raised. *)
Lemma apply_ocr_run E self i o r w :
  let kwargs := OCRProcessor.ocr_config self i o in
  OCRProcessor._apply_ocr E self i o r w
  = (applied (ocrmypdf_ocr E kwargs (fs w)) r, after_ocr E kwargs w).
Proof.
  unfold OCRProcessor._apply_ocr, after_ocr, applied. unfold_monad. cbn.
  by destruct (raised _).
Qed.

(** The final check, read on [success] and [error]. *)
Lemma checked_verdict o s r f :
  r !! "success" = Some (VBool false) →
  (checked o s r f !! "success" = Some (VBool true) →
   is_Some (f !! pathlib.str (pathlib.Path o))) ∧
  (f !! pathlib.str (pathlib.Path o) = None →
   checked o s r f !! "success" = Some (VBool false) ∧
   checked o s r f !! "error" = Some (VStr OCRProcessor.output_missing)).
Proof.
  intros Hr. rewrite (checked_success _ _ _ _ Hr). split.
  - intros [= Hs]. apply andb_true_iff in Hs as [_ Hs].
    by apply bool_decide_eq_true in Hs.
  - intros Hnone. rewrite Hnone.
    rewrite bool_decide_false by (by intros [? ?]).
    rewrite andb_false_r. split; [done|].
    apply checked_error. rewrite Hnone.
    rewrite bool_decide_false by (by intros [? ?]). apply andb_false_r.
Qed.

Lemma copy_existing_run E i o r w :
  OCRProcessor._copy_existing E i o r w
  = (inr (if returned (shutil_copy2 E i o (fs w))
          then (true, <["pages_processed" := VStr "N/A (copia directa)"]> r)
          else (false, r)),
     after_copy E i o w).
Proof.
  unfold OCRProcessor._copy_existing, after_copy, returned. unfold_monad. cbn.
  by destruct (raised _).
Qed.

(** The method chosen without [force_ocr] follows the analyzer's verdict. *)
Lemma determine_method_auto E self i o r w :
  ∃ d evs tc tp pwt avg h err,
    PDFDetector.analyze_pdf E PDFDetector.__init__ i w = (inr d, log w evs) ∧
    (evs = [EvFitzOpen i] ∨ evs = [EvFitzOpen i; EvPdfReader i]) ∧
    fields d tc tp pwt avg h err ∧
    OCRProcessor.determine_method E self i o false r w
    = if h
      then OCRProcessor._copy_existing E i o
             (<["processing_method" := VStr "COPY_EXISTING"]> r) (log w evs)
      else OCRProcessor._apply_ocr E self i o
             (<["processing_method" := VStr "OCR_APPLIED"]> r) (log w evs).
Proof.
  destruct (analyze_pdf_total E i w)
    as (d & evs & tc & tp & pwt & avg & h & err & Hrun & Hevs & Hf & _).
  exists d, evs, tc, tp, pwt, avg, h, err.
  split; [exact Hrun|]. split; [exact Hevs|]. split; [exact Hf|].
  unfold OCRProcessor.determine_method, mbind, M_bind. rewrite Hrun.
  destruct Hf as (_ & _ & _ & _ & _ & Hn & _). rewrite Hn. simpl.
  by destruct h.
Qed.

(** Whatever method is chosen, the engine is called at most once.  Not
    at all (only without [force_ocr]): the block then returns, with
    [success] still false in [result].  Or once, with [ocr_config]: the
    block then ends as [_apply_ocr] does. *)
Lemma determine_method_run E self i o force r w :
  r !! "success" = Some (VBool false) →
  ∃ block w',
    OCRProcessor.determine_method E self i o force r w = (block, w') ∧
    ((∃ s r', block = inr (s, r') ∧
        r' !! "success" = Some (VBool false) ∧
        ocr_calls (trace w') = ocr_calls (trace w) ∧ force = false) ∨
     (∃ r', block = applied (ocrmypdf_ocr E (OCRProcessor.ocr_config self i o)
                               (fs w)) r' ∧
        r' !! "success" = Some (VBool false) ∧
        ocr_calls (trace w')
        = ocr_calls (trace w) ++ [OCRProcessor.ocr_config self i o])).
Proof.
  intros Hr. destruct force.
  - unfold OCRProcessor.determine_method. rewrite apply_ocr_run.
    eexists _, _. split; [reflexivity|]. right.
    eexists. split; [reflexivity|]. split; [by simplify_map_eq|].
    cbn. by rewrite ocr_calls_app.
  - destruct (determine_method_auto E self i o r w)
      as (d & evs & tc & tp & pwt & avg & h & err & _ & Hevs & _ & ->).
    assert (Hq : ocr_calls (trace w ++ evs) = ocr_calls (trace w)).
    { rewrite ocr_calls_app. destruct Hevs as [-> | ->]; apply app_nil_r. }
    destruct h.
    + rewrite copy_existing_run.
      destruct (returned _); eexists _, _; (split; [reflexivity|]); left;
        eexists _, _; (split; [reflexivity|]);
        (split; [by simplify_map_eq|]); (split; [|done]);
        cbn; by rewrite ocr_calls_app, app_nil_r.
    + rewrite apply_ocr_run.
      eexists _, _. split; [reflexivity|]. right.
      eexists. split; [reflexivity|]. split; [by simplify_map_eq|].
      cbn. by rewrite ocr_calls_app, Hq.
Qed.

Lemma sized_success i o size : sized i o size !! "success" = Some (VBool false).
Proof. reflexivity. Qed.

(** [process_pdf] on an input that is not there. *)
Lemma process_pdf_missing E self i o force w :
  fs w !! pathlib.str (pathlib.Path i) = None →
  OCRProcessor.process_pdf E self i o force w
  = (inr (OCRProcessor.except_result i o
            (FileNotFoundError (pathlib.str (pathlib.Path i)))), w).
Proof.
  intros H. unfold OCRProcessor.process_pdf, Path_st_size. unfold_monad.
  cbn. by rewrite H.
Qed.

(** [process_pdf] on an input that is there: the method block, then the
    final check. *)
Lemma process_pdf_present E self i o force w st :
  fs w !! pathlib.str (pathlib.Path i) = Some st →
  OCRProcessor.process_pdf E self i o force w
  = match OCRProcessor.determine_method E self i o force
            (sized i o (st_size st)) w with
    | (inr (success, result), w1) =>
        (inr (checked o success result (fs w1)), w1)
    | (inl e, w1) => (inr (OCRProcessor.except_result i o e), w1)
    end.
Proof.
  intros H. unfold OCRProcessor.process_pdf, Path_st_size.
  unfold try_except, get_fs, mbind, M_bind at 1 2 3. cbn. rewrite H. cbn.
  unfold M_bind. fold (sized i o (st_size st)).
  destruct (OCRProcessor.determine_method _ _ _ _ _ _ _) as [[e|[s r]] w1];
    [done|].
  by rewrite verify_result_run.
Qed.


(** C5, as the code has it.  The [deskew] and [clean] flags handed to the
    OCR engine are constants of the invocation, both false, whatever the
    configuration supplied to the invoker at construction; of that
    configuration only the language reaches the engine (['spa'] when it
    names none), so two configurations with the same language give the
    same call.  The call is made once, whether it then returns or
    raises. *)
Theorem deskew_clean_fixed E config i o result w :
  (∃ w' kwargs,
     OCRProcessor._apply_ocr E (OCRProcessor.__init__ config) i o result w
     = (applied (ocrmypdf_ocr E kwargs (fs w)) result, w') ∧
     trace w' = trace w ++ [EvOcr kwargs] ∧
     ocrmypdf.deskew kwargs = false ∧
     ocrmypdf.clean kwargs = false ∧
     ocrmypdf.language kwargs = default (VStr "spa") (config !! "language")) ∧
  ∀ config',
    config' !! "language" = config !! "language" →
    OCRProcessor.ocr_config (OCRProcessor.__init__ config') i o
    = OCRProcessor.ocr_config (OCRProcessor.__init__ config) i o.
Proof.
  split.
  - eexists _, _. split; [apply apply_ocr_run|]. done.
  - intros config' Hl. unfold OCRProcessor.ocr_config. simpl. by rewrite Hl.
Qed.

(** C5 fails as stated: the configuration [process_single_pdf] supplies,
    [Config.OCRMYPDF_CONFIG], enables both flags, and the engine is called
    with both disabled. *)
Lemma deskew_clean_ignore_config :
  OCRProcessor.config demo_processor !! "deskew" = Some (VBool true) ∧
  OCRProcessor.config demo_processor !! "clean" = Some (VBool true) ∧
  ocr_calls (trace scan_run.2)
  = [OCRProcessor.ocr_config demo_processor "doc.pdf" "out.pdf"] ∧
  ocrmypdf.deskew (OCRProcessor.ocr_config demo_processor "doc.pdf" "out.pdf")
  = false ∧
  ocrmypdf.clean (OCRProcessor.ocr_config demo_processor "doc.pdf" "out.pdf")
  = false.
Proof. vm_compute. repeat split. Qed.



(** The forced run on the text document: the engine returns and the
    method is recorded. *)
Example forced_ocr_on_text_document :
  raised (ocrmypdf_ocr E_text
            (OCRProcessor.ocr_config demo_processor "doc.pdf" "out.pdf")
            fs_demo) = None ∧
  field "processing_method"
    (OCRProcessor.process_pdf E_text demo_processor "doc.pdf" "out.pdf" true
       w_demo) = Some (VStr "OCR_FORCED").
Proof. vm_compute. repeat split. Qed.


(** C7. [process_pdf] declares [success = true] only if, after the chosen
    action, the output file exists at [output_path]; when the output file
    is absent at the end the result has [success = false] and an error
    message, also when the engine reported no error: on an input that is
    there, the message is then that the output was not generated. *)
Theorem success_only_if_output_exists E self i o force w :
  ∃ d w',
    OCRProcessor.process_pdf E self i o force w = (inr d, w') ∧
    (d !! "success" = Some (VBool true) →
     is_Some (fs w' !! pathlib.str (pathlib.Path o))) ∧
    (fs w' !! pathlib.str (pathlib.Path o) = None →
     d !! "success" = Some (VBool false) ∧
     ∃ msg, d !! "error" = Some (VStr msg) ∧
       (is_Some (fs w !! pathlib.str (pathlib.Path i)) →
        raised (ocrmypdf_ocr E (OCRProcessor.ocr_config self i o) (fs w))
        = None →
        msg = OCRProcessor.output_missing)).
Proof.
  destruct (fs w !! pathlib.str (pathlib.Path i)) as [st|] eqn:Hst.
  - rewrite (process_pdf_present _ _ _ _ _ _ _ Hst).
    destruct (determine_method_run E self i o force _ w
                (sized_success i o (st_size st)))
      as (block & w' & -> &
          [(s & r' & -> & Hr' & _)|(r' & -> & Hr' & _)]).
    + eexists _, _. split; [reflexivity|].
      destruct (checked_verdict o s r' (fs w') Hr') as [Hyes Hno].
      split; [exact Hyes|]. intros Hnone.
      destruct (Hno Hnone) as [Hs Herr]. split; [exact Hs|]. eauto.
    + unfold applied.
      destruct (raised _) as [e|] eqn:He; eexists _, _;
        (split; [reflexivity|]).
      * split; [done|]. intros _. split; [done|].
        eexists. split; [reflexivity|]. intros _ [=].
      * destruct (checked_verdict o true r' (fs w') Hr') as [Hyes Hno].
        split; [exact Hyes|]. intros Hnone.
        destruct (Hno Hnone) as [Hs Herr]. split; [exact Hs|]. eauto.
  - rewrite (process_pdf_missing _ _ _ _ _ _ Hst).
    eexists _, _. split; [reflexivity|]. split; [done|].
    intros _. split; [done|]. eexists. split; [reflexivity|].
    by intros [? ?].
Qed.

(** An engine that returns without an error and without an output file:
    the result is a failure with the message of the final check. *)
Example silent_engine_is_a_failure :
  raised (ocrmypdf_ocr E_silent
            (OCRProcessor.ocr_config demo_processor "doc.pdf" "out.pdf")
            fs_demo) = None ∧
  fs silent_run.2 !! "out.pdf" = None ∧
  field "success" silent_run = Some (VBool false) ∧
  field "error" silent_run = Some (VStr OCRProcessor.output_missing).
Proof. vm_compute. repeat split. Qed.

(** C8, in the code.  When the call of the OCR engine raises, whatever
    the exception, the first [except] clause of [_apply_ocr] raises
    [AttributeError]; [process_pdf] catches it and returns the
    dictionary of its own [except] clause: [success = false], and an
    [error] that is the text of the [AttributeError], not the engine's
    message.  The engine is not invoked a second time.  (The engine is
    not invoked at all on the copy path and on an input that is not
    there.) *)
Theorem engine_failure_is_an_attribute_error E self i o force w e :
  raised (ocrmypdf_ocr E (OCRProcessor.ocr_config self i o) (fs w)) = Some e →
  ∃ d w',
    OCRProcessor.process_pdf E self i o force w = (inr d, w') ∧
    (ocr_calls (trace w') = ocr_calls (trace w) ∧
     (force = false ∨ fs w !! pathlib.str (pathlib.Path i) = None) ∨
     ocr_calls (trace w')
     = ocr_calls (trace w) ++ [OCRProcessor.ocr_config self i o] ∧
     d = OCRProcessor.except_result i o
           (AttributeError OCRProcessor.no_ExitCodeNotOk) ∧
     d !! "success" = Some (VBool false) ∧
     d !! "error" = Some (VStr OCRProcessor.no_ExitCodeNotOk)).
Proof.
  intros He.
  destruct (fs w !! pathlib.str (pathlib.Path i)) as [st|] eqn:Hst.
  - rewrite (process_pdf_present _ _ _ _ _ _ _ Hst).
    destruct (determine_method_run E self i o force _ w
                (sized_success i o (st_size st)))
      as (block & w' & -> &
          [(s & r' & -> & _ & Hquiet & Hforce)|(r' & -> & _ & Hone)]).
    + eexists _, _. split; [reflexivity|]. left. eauto.
    + unfold applied. rewrite He.
      eexists _, _. split; [reflexivity|]. right. done.
  - rewrite (process_pdf_missing _ _ _ _ _ _ Hst).
    eexists _, _. split; [reflexivity|]. left. eauto.
Qed.

Lemma engine_failure_is_an_attribute_error_witness :
  raised (ocrmypdf_ocr E_failing
            (OCRProcessor.ocr_config demo_processor "doc.pdf" "out.pdf")
            (fs w_demo)) = Some (Exception engine_message) ∧
  ∃ d w',
    OCRProcessor.process_pdf E_failing demo_processor "doc.pdf" "out.pdf" true
      w_demo = (inr d, w') ∧
    (ocr_calls (trace w') = ocr_calls (trace w_demo) ∧
     (true = false ∨ fs w_demo !! pathlib.str (pathlib.Path "doc.pdf") = None) ∨
     ocr_calls (trace w')
     = ocr_calls (trace w_demo)
       ++ [OCRProcessor.ocr_config demo_processor "doc.pdf" "out.pdf"] ∧
     d = OCRProcessor.except_result "doc.pdf" "out.pdf"
           (AttributeError OCRProcessor.no_ExitCodeNotOk) ∧
     d !! "success" = Some (VBool false) ∧
     d !! "error" = Some (VStr OCRProcessor.no_ExitCodeNotOk)).
Proof.
  split; [reflexivity|].
  apply (engine_failure_is_an_attribute_error E_failing demo_processor
           "doc.pdf" "out.pdf" true w_demo (Exception engine_message)).
  reflexivity.
Defined.

(** C8 at the failing input: the engine raises with the message
    "tesseract: exit code 1"; the [error] of the result is the text of
    the [AttributeError], the result has no [processing_method], and the
    engine was called once. *)
Lemma engine_message_lost :
  raised (ocrmypdf_ocr E_failing
            (OCRProcessor.ocr_config demo_processor "doc.pdf" "out.pdf")
            fs_demo) = Some (Exception "tesseract: exit code 1") ∧
  field "success" failing_run = Some (VBool false) ∧
  field "error" failing_run
  = Some (VStr
      "module 'ocrmypdf.exceptions' has no attribute 'ExitCodeNotOk'") ∧
  field "error" failing_run ≠ Some (VStr "tesseract: exit code 1") ∧
  field "processing_method" failing_run = None ∧
  length (ocr_calls (trace failing_run.2)) = 1%nat ∧
  fs failing_run.2 !! "out.pdf" = None.
Proof. vm_compute. repeat split. discriminate. Qed.

(** The [ExitCode] the engine returns reaches nothing: the run is the
    same whatever the code. *)
Lemma exit_code_is_dropped E exit_code self i o force w :
  OCRProcessor.process_pdf (with_exit_code E exit_code) self i o force w
  = OCRProcessor.process_pdf E self i o force w.
Proof.
  assert (Hocr : ∀ r w1,
    OCRProcessor._apply_ocr (with_exit_code E exit_code) self i o r w1
    = OCRProcessor._apply_ocr E self i o r w1).
  { intros r w1. unfold OCRProcessor._apply_ocr. unfold_monad. cbn.
    by destruct (raised _). }
  assert (Hblock : ∀ r w1,
    OCRProcessor.determine_method (with_exit_code E exit_code) self i o
      force r w1
    = OCRProcessor.determine_method E self i o force r w1).
  { intros r w1. unfold OCRProcessor.determine_method.
    destruct force; [apply Hocr|]. unfold mbind, M_bind.
    change (PDFDetector.analyze_pdf (with_exit_code E exit_code))
      with (PDFDetector.analyze_pdf E).
    destruct (PDFDetector.analyze_pdf _ _ _ _) as [[e|analysis] w2];
      [done|].
    destruct (truthy _); [apply Hocr|reflexivity]. }
  unfold OCRProcessor.process_pdf, try_except, mbind, M_bind.
  destruct (Path_st_size _ w) as [[e|size] w1]; [done|].
  by rewrite Hblock.
Qed.

(** C8 at the other failing input: the engine returns
    [ExitCode.invalid_output_pdf] without raising, and the result reports
    a success without an error. *)
Lemma nonzero_exit_is_a_success :
  raised (ocrmypdf_ocr E_invalid_output
            (OCRProcessor.ocr_config demo_processor "doc.pdf" "out.pdf")
            fs_demo) = None ∧
  ocrmypdf_exit_code E_invalid_output
    (OCRProcessor.ocr_config demo_processor "doc.pdf" "out.pdf") fs_demo = 4 ∧
  field "success" invalid_output_run = Some (VBool true) ∧
  field "error" invalid_output_run = Some VNone ∧
  length (ocr_calls (trace invalid_output_run.2)) = 1%nat.
Proof. vm_compute. repeat split. Qed.

(* ===================================================================== *)
(** * The validators and the orchestrator                                 *)
(* ===================================================================== *)

(** [validate_pdf_file] returns a verdict and leaves the world alone. *)
Lemma validate_pdf_file_run i w :
  ∃ r, FileValidator.validate_pdf_file i w = (inr r, w).
Proof.
  unfold FileValidator.validate_pdf_file, Path_exists, Path_st_size.
  unfold_monad. cbn.
  destruct (fs w !! pathlib.str (pathlib.Path i)) as [st|] eqn:Hst.
  - rewrite bool_decide_true by eauto. cbn.
    repeat (first [rewrite Hst | case_if]; cbn); eauto.
  - rewrite bool_decide_false by (by intros [? ?]). cbn. eauto.
Qed.

(** [validate_output_path] returns a verdict; the only call it may record
    is the creation of the parent directory. *)
Lemma validate_output_path_run E o w :
  ∃ r w', FileValidator.validate_output_path E o w = (inr r, w') ∧
    (trace w' = trace w ∨ ∃ dir, trace w' = trace w ++ [EvMkdir dir]).
Proof.
  unfold FileValidator.validate_output_path, Path_exists, os_access_W_OK,
    mkdir_parents.
  unfold_monad. cbn.
  set (parent_dir := pathlib.str (pathlib.parent (pathlib.Path o))).
  set (path := pathlib.str (pathlib.Path o)).
  destruct (negb (bool_decide (is_Some (fs w !! parent_dir)))); cbn.
  - destruct (raised (Path_mkdir E parent_dir (fs w))); cbn; [eauto 6|].
    repeat case_if; eauto 6.
  - repeat case_if; eauto 6.
Qed.

(** When no backend gets through the document, [process_single_pdf]
    returns false before it reaches the invoker. *)
Lemma process_single_pdf_analysis_error E cfg i o force w :
  (∀ f, extraction_succeeds E i f = false) →
  ∃ w', process_single_pdf E cfg i o force w = (inr false, w') ∧
    ocr_calls (trace w') = ocr_calls (trace w) ∧
    copy_calls (trace w') = copy_calls (trace w).
Proof.
  intros Hfail. unfold process_single_pdf, try_except, mbind, M_bind at 1.
  destruct (validate_pdf_file_run i w) as [[valid_input input_error] ->].
  destruct valid_input; cbn; [|eauto].
  unfold M_bind at 1.
  destruct (validate_output_path_run E o w)
    as ([valid_output output_error] & w1 & -> & Htr).
  assert (Hq : ocr_calls (trace w1) = ocr_calls (trace w) ∧
               copy_calls (trace w1) = copy_calls (trace w)).
  { destruct Htr as [->|[dir ->]]; [done|].
    by rewrite ocr_calls_app, copy_calls_app, !app_nil_r. }
  destruct valid_output; cbn; [|eauto].
  unfold M_bind at 1.
  destruct (analyze_pdf_failed E i w1 (Hfail _)) as (d & n & -> & Hf).
  destruct Hf as (_ & _ & _ & _ & _ & _ & ->). cbn.
  eexists; split; [reflexivity|]. cbn.
  rewrite ocr_calls_app, copy_calls_app, !app_nil_r. exact Hq.
Qed.

(** C3, as the code has it.  When both extraction backends fail, the
    analyzer returns (it raises nothing) a result with [error] set and
    [needs_ocr = true].  The orchestrator [process_single_pdf] then stops:
    it returns false and invokes neither the OCR engine nor the copy.  Only
    the invoker's own analysis goes on: [process_pdf] without [force_ocr],
    on an input that is there, takes the failed analysis as "OCR needed"
    and invokes the engine, once, and copies nothing; the method recorded
    when the call of the engine returns is [OCR_APPLIED]. *)
Theorem analysis_error_aborts_orchestrator E OCRMYPDF_CONFIG i o force w :
  (∀ f, extraction_succeeds E i f = false) →
  (∃ d w',
     PDFDetector.analyze_pdf E PDFDetector.__init__ i w = (inr d, w') ∧
     d !! "error" = Some (VStr PDFDetector.no_method) ∧
     d !! "needs_ocr" = Some (VBool true)) ∧
  (∃ w',
     process_single_pdf E OCRMYPDF_CONFIG i o force w = (inr false, w') ∧
     ocr_calls (trace w') = ocr_calls (trace w) ∧
     copy_calls (trace w') = copy_calls (trace w)) ∧
  (∀ self st,
     fs w !! pathlib.str (pathlib.Path i) = Some st →
     ∃ d w',
       OCRProcessor.process_pdf E self i o false w = (inr d, w') ∧
       ocr_calls (trace w')
       = ocr_calls (trace w) ++ [OCRProcessor.ocr_config self i o] ∧
       copy_calls (trace w') = copy_calls (trace w) ∧
       (raised (ocrmypdf_ocr E (OCRProcessor.ocr_config self i o) (fs w))
        = None →
        d !! "processing_method" = Some (VStr "OCR_APPLIED"))).
Proof.
  intros Hfail. split; [|split].
  - destruct (analyze_pdf_failed E i w (Hfail _)) as (d & n & Hrun & Hf).
    destruct Hf as (_ & _ & _ & _ & _ & Hn & Herr). eauto.
  - by apply process_single_pdf_analysis_error.
  - intros self st Hst. rewrite (process_pdf_present _ _ _ _ _ _ _ Hst).
    unfold OCRProcessor.determine_method, mbind, M_bind.
    destruct (analyze_pdf_failed E i w (Hfail _)) as (d & n & -> & Hf).
    destruct Hf as (_ & _ & _ & _ & _ & -> & _).
    cbn -[OCRProcessor._apply_ocr].
    rewrite apply_ocr_run. unfold applied. cbn [fs log].
    destruct (raised _) as [e|] eqn:He; eexists _, _;
      (split; [reflexivity|]); cbn;
      rewrite !ocr_calls_app, !copy_calls_app, !app_nil_r;
      (split; [done|]); (split; [done|]); [done|].
    intros _. rewrite checked_other by done. by simplify_map_eq.
Qed.

Lemma analysis_error_aborts_orchestrator_witness :
  (∀ f, extraction_succeeds E_broken "doc.pdf" f = false) ∧
  (∃ d w',
     PDFDetector.analyze_pdf E_broken PDFDetector.__init__ "doc.pdf" w_demo
     = (inr d, w') ∧
     d !! "error" = Some (VStr PDFDetector.no_method) ∧
     d !! "needs_ocr" = Some (VBool true)) ∧
  (∃ w',
     process_single_pdf E_broken Config.OCRMYPDF_CONFIG "doc.pdf" "out.pdf"
       false w_demo = (inr false, w') ∧
     ocr_calls (trace w') = ocr_calls (trace w_demo) ∧
     copy_calls (trace w') = copy_calls (trace w_demo)) ∧
  (∀ self st,
     fs w_demo !! pathlib.str (pathlib.Path "doc.pdf") = Some st →
     ∃ d w',
       OCRProcessor.process_pdf E_broken self "doc.pdf" "out.pdf" false w_demo
       = (inr d, w') ∧
       ocr_calls (trace w')
       = ocr_calls (trace w_demo)
         ++ [OCRProcessor.ocr_config self "doc.pdf" "out.pdf"] ∧
       copy_calls (trace w') = copy_calls (trace w_demo) ∧
       (raised (ocrmypdf_ocr E_broken
                  (OCRProcessor.ocr_config self "doc.pdf" "out.pdf")
                  (fs w_demo)) = None →
        d !! "processing_method" = Some (VStr "OCR_APPLIED"))).
Proof.
  split; [intros f; reflexivity|].
  apply (analysis_error_aborts_orchestrator E_broken Config.OCRMYPDF_CONFIG
           "doc.pdf" "out.pdf" false w_demo).
  intros f. reflexivity.
Defined.

(** C3 fails as stated: both backends fail on a PDF that passes both
    validations, and the orchestrator returns false without having invoked
    the OCR engine (or the copy). *)
Lemma orchestrator_stops_on_analysis_error :
  extraction_succeeds E_broken "doc.pdf" fs_demo = false ∧
  (FileValidator.validate_pdf_file "doc.pdf" w_demo).1 = inr (true, None) ∧
  (FileValidator.validate_output_path E_broken "out.pdf" w_demo).1
  = inr (true, None) ∧
  broken_run.1 = inr false ∧
  ocr_calls (trace broken_run.2) = [] ∧
  copy_calls (trace broken_run.2) = [].
Proof. vm_compute. repeat split. Qed.

(** C4 at the failing input: input and output are the same path, both
    validations of the orchestrator pass, processing starts and the engine
    is invoked with the input file as its output file. *)
Lemma same_path_accepted :
  (FileValidator.validate_pdf_file "doc.pdf" w_demo).1 = inr (true, None) ∧
  (FileValidator.validate_output_path E_scan "doc.pdf" w_demo).1
  = inr (true, None) ∧
  same_path_run.1 = inr true ∧
  analyzer_calls (trace same_path_run.2) = ["doc.pdf"; "doc.pdf"] ∧
  ocr_calls (trace same_path_run.2)
  = [OCRProcessor.ocr_config demo_processor "doc.pdf" "doc.pdf"].
Proof. vm_compute. repeat split. Qed.

Lemma append_length errors msg :
  (length (FileManager.append errors msg) =? 0)%nat = false.
Proof.
  unfold FileManager.append. rewrite length_app. simpl.
  apply Nat.eqb_neq. lia.
Qed.

(** The sibling validator [FileManager.validate_paths], which the
    orchestrator does not call, does reject a pair of paths that resolve
    to the same file. *)
Theorem validate_paths_rejects_same_file E i o w :
  (∀ f, Path_resolve E (pathlib.str (pathlib.Path i)) f
        = Path_resolve E (pathlib.str (pathlib.Path o)) f) →
  ∃ errors w',
    FileManager.validate_paths E i o w = (inr (false, errors), w') ∧
    "Archivo de entrada y salida no pueden ser el mismo" ∈ errors.
Proof.
  intros Hsame.
  unfold FileManager.validate_paths, Path_exists, Path_is_file,
    os_access_R_OK, os_access_W_OK, mkdir_parents, resolve.
  unfold_monad. cbn -[FileManager.append].
  destruct (negb (bool_decide (is_Some (fs w !! _)))) eqn:Hdir;
    cbn -[FileManager.append].
  - destruct (raised _); cbn -[FileManager.append];
      (destruct (bool_decide (is_Some (_ !! pathlib.str (pathlib.Path o))));
       cbn -[FileManager.append];
       rewrite ?Hsame, ?String.eqb_refl, ?append_length;
       eexists _, _; (split; [reflexivity|]);
       unfold FileManager.append at 1; apply elem_of_app; right;
       apply list_elem_of_singleton; reflexivity).
  - destruct (bool_decide (is_Some (_ !! pathlib.str (pathlib.Path o))));
      cbn -[FileManager.append];
      rewrite ?Hsame, ?String.eqb_refl, ?append_length;
      eexists _, _; (split; [reflexivity|]);
      unfold FileManager.append at 1; apply elem_of_app; right;
      apply list_elem_of_singleton; reflexivity.
Qed.

Lemma validate_paths_rejects_same_file_witness :
  (∀ f, Path_resolve E_scan (pathlib.str (pathlib.Path "doc.pdf")) f
        = Path_resolve E_scan (pathlib.str (pathlib.Path "doc.pdf")) f) ∧
  ∃ errors w',
    FileManager.validate_paths E_scan "doc.pdf" "doc.pdf" w_demo
    = (inr (false, errors), w') ∧
    "Archivo de entrada y salida no pueden ser el mismo" ∈ errors.
Proof.
  split; [intros f; reflexivity|].
  apply (validate_paths_rejects_same_file E_scan "doc.pdf" "doc.pdf" w_demo).
  intros f. reflexivity.
Defined.

(** On the failing input of C4 the sibling validator gives exactly the
    one error that the orchestrator's validation never raises. *)
Example same_path_rejected_by_sibling :
  same_path_check.1
  = inr (false, ["Archivo de entrada y salida no pueden ser el mismo"]).
Proof. vm_compute. reflexivity. Qed.

(* ===================================================================== *)
(** * Further properties of the analyzer, invoker and orchestrator        *)
(* ===================================================================== *)

Lemma analyzer_calls_app a b :
  analyzer_calls (a ++ b) = analyzer_calls a ++ analyzer_calls b.
Proof. induction a as [|[] a IH]; simpl; by rewrite ?IH. Qed.

(** The analyzer only reads: it always returns a dictionary, leaves the
    file system as it was and calls neither the engine nor the copy. *)
Theorem analyze_pdf_only_reads E pdf_path w :
  ∃ d w',
    PDFDetector.analyze_pdf E PDFDetector.__init__ pdf_path w = (inr d, w') ∧
    fs w' = fs w ∧
    ocr_calls (trace w') = ocr_calls (trace w) ∧
    copy_calls (trace w') = copy_calls (trace w).
Proof.
  destruct (analyze_pdf_total E pdf_path w)
    as (d & evs & tc & tp & pwt & avg & h & err & Hrun & Hevs & _).
  exists d, (log w evs). split; [exact Hrun|]. split; [done|]. cbn.
  rewrite ocr_calls_app, copy_calls_app.
  destruct Hevs as [-> | ->]; by rewrite !app_nil_r.
Qed.

(** Without [force_ocr], a document the analyzer finds searchable is
    copied: the method is [COPY_EXISTING], [shutil.copy2] is called once
    and the engine is not. *)
Theorem searchable_document_is_copied E self i o w st d w1 :
  fs w !! pathlib.str (pathlib.Path i) = Some st →
  PDFDetector.analyze_pdf E PDFDetector.__init__ i w = (inr d, w1) →
  d !! "needs_ocr" = Some (VBool false) →
  ∃ d' w',
    OCRProcessor.process_pdf E self i o false w = (inr d', w') ∧
    d' !! "processing_method" = Some (VStr "COPY_EXISTING") ∧
    ocr_calls (trace w') = ocr_calls (trace w) ∧
    copy_calls (trace w') = copy_calls (trace w) ++ [(i, o)].
Proof.
  intros Hst Hrun Hneeds. rewrite (process_pdf_present _ _ _ _ _ _ _ Hst).
  destruct (determine_method_auto E self i o (sized i o (st_size st)) w)
    as (d0 & evs & tc & tp & pwt & avg & h & err & Hrun0 & Hevs & Hf & ->).
  rewrite Hrun in Hrun0. injection Hrun0 as -> ->.
  destruct Hf as (_ & _ & _ & _ & _ & Hn & _).
  rewrite Hneeds in Hn. injection Hn as Hh.
  destruct h; [|discriminate].
  rewrite copy_existing_run.
  assert (Hq : ocr_calls (trace w ++ evs) = ocr_calls (trace w) ∧
               copy_calls (trace w ++ evs) = copy_calls (trace w)).
  { rewrite ocr_calls_app, copy_calls_app.
    destruct Hevs as [-> | ->]; by rewrite !app_nil_r. }
  destruct Hq as [Hq1 Hq2].
  destruct (returned _); eexists _, _; (split; [reflexivity|]);
    (split; [rewrite checked_other by done; by simplify_map_eq|]);
    cbn; by rewrite ocr_calls_app, copy_calls_app, Hq1, Hq2, app_nil_r.
Qed.

Lemma searchable_document_is_copied_witness :
  fs w_demo !! pathlib.str (pathlib.Path "doc.pdf")
  = Some (regular_file 2048) ∧
  field "needs_ocr" text_analysis = Some (VBool false) ∧
  ∃ d' w',
    OCRProcessor.process_pdf E_text demo_processor "doc.pdf" "out.pdf" false
      w_demo = (inr d', w') ∧
    d' !! "processing_method" = Some (VStr "COPY_EXISTING") ∧
    ocr_calls (trace w') = ocr_calls (trace w_demo) ∧
    copy_calls (trace w') = copy_calls (trace w_demo) ++ [("doc.pdf", "out.pdf")].
Proof.
  split; [reflexivity|]. split; [vm_compute; reflexivity|].
  destruct (analyze_pdf_total E_text "doc.pdf" w_demo)
    as (d & evs & tc & tp & pwt & avg & h & err & Hrun & _).
  set (w1 := log w_demo evs) in *.
  apply (searchable_document_is_copied E_text demo_processor "doc.pdf"
           "out.pdf" w_demo (regular_file 2048) d w1);
    [reflexivity|exact Hrun|].
  assert (Hf : field "needs_ocr" text_analysis = Some (VBool false))
    by (vm_compute; reflexivity).
  unfold field, returned_value, text_analysis in Hf. rewrite Hrun in Hf.
  exact Hf.
Defined.

(** A validation that fails ends the run at once: [process_single_pdf]
    returns false and neither the analyzer nor the invoker is reached. *)
Theorem validation_failure_stops_the_run E OCRMYPDF_CONFIG i o force w :
  (∃ msg, (FileValidator.validate_pdf_file i w).1 = inr (false, msg)) ∨
  (∃ msg, (FileValidator.validate_output_path E o w).1 = inr (false, msg)) →
  ∃ w',
    process_single_pdf E OCRMYPDF_CONFIG i o force w = (inr false, w') ∧
    analyzer_calls (trace w') = analyzer_calls (trace w) ∧
    ocr_calls (trace w') = ocr_calls (trace w) ∧
    copy_calls (trace w') = copy_calls (trace w).
Proof.
  intros Hfail. unfold process_single_pdf, try_except, mbind, M_bind at 1.
  destruct (validate_pdf_file_run i w) as [[valid_input input_error] Hin].
  rewrite Hin in *.
  destruct valid_input; cbn; [|eauto].
  destruct Hfail as [[msg Hmsg]|[msg Hmsg]]; [discriminate|].
  unfold M_bind at 1.
  destruct (validate_output_path_run E o w)
    as ([valid_output output_error] & w1 & Hout & Htr).
  rewrite Hout in *. simpl in Hmsg. injection Hmsg as -> ->. cbn.
  eexists. split; [reflexivity|].
  destruct Htr as [->|[dir ->]]; [done|].
  by rewrite analyzer_calls_app, ocr_calls_app, copy_calls_app, !app_nil_r.
Qed.

Lemma validation_failure_stops_the_run_witness :
  ((∃ msg, (FileValidator.validate_pdf_file "report.txt" w_demo).1
           = inr (false, msg)) ∨
   (∃ msg, (FileValidator.validate_output_path E_text "out.pdf" w_demo).1
           = inr (false, msg))) ∧
  ∃ w',
    process_single_pdf E_text Config.OCRMYPDF_CONFIG "report.txt" "out.pdf"
      false w_demo = (inr false, w') ∧
    analyzer_calls (trace w') = analyzer_calls (trace w_demo) ∧
    ocr_calls (trace w') = ocr_calls (trace w_demo) ∧
    copy_calls (trace w') = copy_calls (trace w_demo).
Proof.
  assert (H : (∃ msg, (FileValidator.validate_pdf_file "report.txt" w_demo).1
                      = inr (false, msg)) ∨
              (∃ msg, (FileValidator.validate_output_path E_text "out.pdf"
                         w_demo).1 = inr (false, msg))).
  { left. eexists. vm_compute. reflexivity. }
  split; [exact H|].
  exact (validation_failure_stops_the_run E_text Config.OCRMYPDF_CONFIG
           "report.txt" "out.pdf" false w_demo H).
Defined.

(** What the validator answers on the inputs named by the specification:
    a missing file, a file that is not a PDF, an empty PDF. *)
Example validation_rejections :
  (FileValidator.validate_pdf_file "missing.pdf" w_demo).1
  = inr (false, Some "El archivo no existe: missing.pdf") ∧
  (FileValidator.validate_pdf_file "report.txt"
     {| fs := <["report.txt" := regular_file 10]> fs_demo; trace := [] |}).1
  = inr (false, Some "El archivo debe ser PDF, recibido: .txt") ∧
  (FileValidator.validate_pdf_file "empty.pdf"
     {| fs := <["empty.pdf" := regular_file 0]> fs_demo; trace := [] |}).1
  = inr (false, Some "El archivo PDF está vacío") ∧
  (FileValidator.validate_pdf_file "big.pdf"
     {| fs := <["big.pdf" := regular_file 157286400]> fs_demo;
        trace := [] |}).1
  = inr (false, Some "Archivo muy grande: 150.0MB (máximo 100MB)").
Proof. vm_compute. repeat split. Qed.


(** The primary loop over pages that all give their text: it adds up the
    characters and counts the pages above the threshold. *)
Lemma scan_pymupdf_counts self texts : ∀ tc pwt,
  PDFDetector.scan_pymupdf self (Some <$> texts) tc pwt
  = Some (tc + total_chars_of texts,
          pwt + pages_with_text_of (PDFDetector.min_text_threshold self) texts).
Proof.
  induction texts as [|page_text texts IH]; intros tc pwt; simpl.
  - by rewrite !Z.add_0_r.
  - rewrite IH. f_equal. f_equal; [lia|].
    destruct (_ <? _); lia.
Qed.

(** What the analyzer computes when the primary backend reads every
    page: the page count, the sum over the pages of the characters left
    by the whitespace normalisation, the number of pages with more than
    50 such characters, and their quotient (0 without pages). *)
Theorem analysis_counts E pdf_path w texts :
  fitz_open E pdf_path (fs w) = FitzDoc (Some <$> texts) false →
  ∃ d w',
    PDFDetector.analyze_pdf E PDFDetector.__init__ pdf_path w = (inr d, w') ∧
    d !! "total_pages" = Some (VInt (Z.of_nat (length texts))) ∧
    d !! "total_characters" = Some (VInt (total_chars_of texts)) ∧
    d !! "pages_with_text" = Some (VInt (pages_with_text_of 50 texts)) ∧
    d !! "average_chars_per_page"
    = Some (PDFDetector.average (total_chars_of texts)
              (Z.of_nat (length texts))).
Proof.
  intros Ho.
  pose proof (scan_pymupdf_counts PDFDetector.__init__ texts 0 0) as Hscan.
  simpl in Hscan.
  pose proof (scan_pymupdf_bounds _ _ _ _ _ _ Hscan) as Hb.
  eexists _, _. split.
  - unfold PDFDetector.analyze_pdf, try_except, mbind, M_bind at 1 2.
    rewrite (pymupdf_run_ok _ _ _ _ _ _ _ _ Ho Hscan). cbn.
    rewrite determine_after_extraction; [done|].
    rewrite length_fmap. intros Hl.
    destruct texts; [done|simpl in Hl; lia].
  - rewrite length_fmap, !decided_other by done.
    by rewrite extracted_tc, extracted_tp, extracted_pwt, extracted_avg.
Qed.

Lemma analysis_counts_witness :
  fitz_open E_text "doc.pdf" (fs w_demo)
  = FitzDoc (Some <$> [[]; text_of_string "hello"; repeat 97%N 200]) false ∧
  ∃ d w',
    PDFDetector.analyze_pdf E_text PDFDetector.__init__ "doc.pdf" w_demo
    = (inr d, w') ∧
    d !! "total_pages"
    = Some (VInt (Z.of_nat (length [[]; text_of_string "hello";
                                    repeat 97%N 200]))) ∧
    d !! "total_characters"
    = Some (VInt (total_chars_of [[]; text_of_string "hello";
                                  repeat 97%N 200])) ∧
    d !! "pages_with_text"
    = Some (VInt (pages_with_text_of 50 [[]; text_of_string "hello";
                                         repeat 97%N 200])) ∧
    d !! "average_chars_per_page"
    = Some (PDFDetector.average
              (total_chars_of [[]; text_of_string "hello"; repeat 97%N 200])
              (Z.of_nat (length [[]; text_of_string "hello";
                                 repeat 97%N 200]))).
Proof.
  split; [reflexivity|].
  apply (analysis_counts E_text "doc.pdf" w_demo
           [[]; text_of_string "hello"; repeat 97%N 200]).
  reflexivity.
Defined.

(* ===================================================================== *)
(** * More on the whitespace normalisation                                *)
(* ===================================================================== *)

Lemma join_cons sep w ws :
  join sep (w :: ws)
  = w ++ match ws with [] => [] | _ => sep ++ join sep ws end.
Proof. destruct ws; simpl; by rewrite ?app_nil_r. Qed.

Lemma join_length_cons w ws :
  (length (join [SPACE] (w :: ws))
   ≤ length w + 1 + length (join [SPACE] ws))%nat.
Proof.
  rewrite join_cons. destruct ws; rewrite length_app; simpl length; lia.
Qed.

Lemma split_from_length s : ∀ word,
  (length (join [SPACE] (split_from word s)) ≤ length word + length s)%nat.
Proof.
  induction s as [|c s IH]; intros word; simpl.
  - destruct word; simpl; lia.
  - destruct (isspace c).
    + destruct word as [|a word].
      * specialize (IH []). simpl in IH. lia.
      * etrans; [apply join_length_cons|]. specialize (IH []). simpl in *. lia.
    + specialize (IH (word ++ [c])). rewrite length_app in IH. simpl in IH. lia.
Qed.

Theorem normalisation_never_lengthens s : char_count s ≤ Z.of_nat (length s).
Proof.
  unfold char_count, clean_text, split.
  pose proof (split_from_length s []). simpl in *. lia.
Qed.

Lemma filter_join_cons w ws :
  List.filter not_space (join [SPACE] (w :: ws))
  = List.filter not_space w ++ List.filter not_space (join [SPACE] ws).
Proof.
  rewrite join_cons. destruct ws as [|w' ws].
  - by rewrite !app_nil_r.
  - by rewrite !List.filter_app.
Qed.

Lemma split_from_keeps s : ∀ word,
  List.filter not_space (join [SPACE] (split_from word s))
  = List.filter not_space word ++ List.filter not_space s.
Proof.
  induction s as [|c s IH]; intros word; simpl.
  - destruct word; [done|]. by rewrite app_nil_r.
  - unfold not_space at 3. destruct (isspace c) eqn:Hc; simpl.
    + destruct word as [|a word].
      * by rewrite IH.
      * by rewrite filter_join_cons, IH.
    + rewrite IH, List.filter_app. simpl. unfold not_space at 2. rewrite Hc.
      simpl. by rewrite <- app_assoc.
Qed.

Theorem normalisation_keeps_other_characters s :
  List.filter not_space (clean_text s) = List.filter not_space s.
Proof. unfold clean_text, split. by rewrite split_from_keeps. Qed.

Lemma split_from_blank s : ∀ word,
  Forall (λ c, isspace c = true) s →
  split_from word s = match word with [] => [] | _ => [word] end.
Proof.
  induction s as [|c s IH]; intros word Hs; simpl; [done|].
  inversion Hs as [|? ? Hc Hs']; subst. rewrite Hc.
  rewrite IH by done. by destruct word.
Qed.

(** The character count of a page is zero exactly when the page holds
    nothing but whitespace. *)
Theorem char_count_zero_iff_blank s :
  char_count s = 0 ↔ Forall (λ c, isspace c = true) s.
Proof.
  unfold char_count. split.
  - intros H. assert (Hc : clean_text s = []).
    { destruct (clean_text s); [done|simpl in H; lia]. }
    pose proof (split_from_keeps s []) as Hk.
    fold (split s) in Hk. fold (clean_text s) in Hk.
    rewrite Hc in Hk. simpl in Hk.
    apply Forall_forall. intros c Hin.
    destruct (isspace c) eqn:Hs; [done|].
    assert (Hf : c ∈ List.filter not_space s).
    { apply list_elem_of_In, List.filter_In. split.
      - by apply list_elem_of_In.
      - unfold not_space. by rewrite Hs. }
    rewrite <- Hk in Hf. by apply elem_of_nil in Hf.
  - intros H. unfold clean_text, split. by rewrite split_from_blank.
Qed.

Lemma single_spaced_word w : ∀ b t,
  no_space w → w ≠ [] → single_spaced b (w ++ t) = single_spaced true t.
Proof.
  induction w as [|c w IH]; intros b t Hw Hne; [done|].
  inversion Hw as [|? ? Hc Hw']; subst. simpl. rewrite Hc.
  destruct w as [|c' w]; [done|]. by apply IH.
Qed.

Lemma join_single_spaced ws :
  Forall is_word ws → ws ≠ [] →
  single_spaced false (join [SPACE] ws) = true.
Proof.
  induction ws as [|w ws IH]; intros Hws Hne; [done|].
  inversion Hws as [|? ? [Hw1 Hw2] Hws']; subst.
  rewrite join_cons. destruct ws as [|w' ws].
  - rewrite single_spaced_word by done. done.
  - rewrite single_spaced_word by done.
    change (single_spaced false (join [SPACE] (w' :: ws)) = true).
    by apply IH.
Qed.

Lemma single_spaced_split t : ∀ word,
  single_spaced (match word with [] => false | _ => true end) t = true →
  join [SPACE] (split_from word t) = word ++ t.
Proof.
  induction t as [|c t IH]; intros word Ht; simpl in *.
  - destruct word; [discriminate|]. by rewrite app_nil_r.
  - destruct (isspace c) eqn:Hc.
    + apply andb_true_iff in Ht as [Ht Ht'].
      apply andb_true_iff in Ht as [Ht Hsp].
      apply N.eqb_eq in Hsp. subst c.
      destruct word as [|a word]; [discriminate|].
      pose proof (IH [] Ht') as Hj. simpl in Hj.
      rewrite join_cons, Hj.
      destruct (split_from [] t); [|done].
      simpl in Hj. subst t. discriminate.
    + rewrite (IH (word ++ [c])); [by rewrite <- app_assoc|].
      by destruct word.
Qed.

(** The texts the normalisation leaves unchanged are exactly those
    made of words separated by single spaces, with no whitespace at
    either end; every normalised text is of that form. *)
Theorem normalised_texts_are_the_fixed_points t :
  clean_text t = t ↔ normalised t = true.
Proof.
  split.
  - intros <-. unfold clean_text.
    pose proof (split_from_words t [] ltac:(constructor)) as Hws.
    fold (split t) in Hws. destruct (split t) as [|w ws] eqn:Hs; [done|].
    assert (Hj : single_spaced false (join [SPACE] (w :: ws)) = true)
      by (by apply join_single_spaced).
    unfold normalised. by destruct (join [SPACE] (w :: ws)).
  - unfold normalised, clean_text, split. destruct t as [|c t]; [done|].
    intros H. by apply (single_spaced_split _ []).
Qed.

(* ===================================================================== *)
(** * More on the analyzer                                                *)
(* ===================================================================== *)

Lemma analyze_pdf_shape E p w :
  ∃ d evs,
    PDFDetector.analyze_pdf E PDFDetector.__init__ p w = (inr d, log w evs) ∧
    analysis_of E p (fs w) d evs.
Proof.
  destruct (pymupdf_succeeds (fitz_open E p (fs w))) eqn:H1.
  - destruct (fitz_open E p (fs w)) as [| |pages c] eqn:Ho;
      [discriminate|discriminate|].
    simpl in H1. apply andb_true_iff in H1 as [Hc Hpages].
    destruct c; [discriminate|].
    destruct (PDFDetector.scan_pymupdf PDFDetector.__init__ pages 0 0)
      as [[tc pwt]|] eqn:Hscan.
    2:{ apply scan_pymupdf_None in Hscan. congruence. }
    eexists _, _. split; [|by eapply by_pymupdf].
    unfold PDFDetector.analyze_pdf, try_except, mbind, M_bind at 1 2.
    rewrite (pymupdf_run_ok _ _ _ _ _ _ _ _ Ho Hscan). cbn.
    rewrite determine_after_extraction; [done|].
    intros Hl. destruct pages; [|simpl in Hl; lia].
    simpl in Hscan. by inversion Hscan.
  - destruct (pymupdf_run_fail E PDFDetector.__init__ p
                (PDFDetector.initial_result p) w H1) as (r' & Hrun & Hhd).
    destruct (pypdf2_succeeds (PdfReader E p (fs w))) eqn:H2.
    + destruct (PdfReader E p (fs w)) as [| | |pages] eqn:Ho;
        try discriminate.
      destruct (PDFDetector.scan_pypdf2 PDFDetector.__init__ pages 0 0)
        as [tc pwt] eqn:Hscan.
      eexists _, _. split; [|by eapply by_pypdf2].
      unfold PDFDetector.analyze_pdf, try_except, mbind, M_bind at 1 2.
      rewrite Hrun. cbn. unfold M_bind at 1.
      rewrite (pypdf2_run_ok _ _ _ _ (log w [EvFitzOpen p]) _ Ho), Hscan. cbn.
      rewrite determine_after_extraction, log_log; [done|].
      intros Hl. destruct pages; [|simpl in Hl; lia].
      simpl in Hscan. by inversion Hscan.
    + destruct (pypdf2_run_fail E PDFDetector.__init__ p r'
                  (log w [EvFitzOpen p]) H2) as (r'' & Hrun' & Hhd').
      eexists _, _. split.
      * unfold PDFDetector.analyze_pdf, try_except, mbind, M_bind at 1 2.
        rewrite Hrun. cbn. unfold M_bind at 1. by rewrite Hrun', log_log.
      * eapply by_no_method; [|exact Hhd|exact Hhd'].
        unfold extraction_succeeds. by rewrite H1, H2.
Qed.

(** Storing under one of the ten keys keeps the set of keys. *)
Lemma dom_insert_key (k : string) (v : value) (m : gmap string value) :
  dom m = analysis_keys →
  In k ["file_path"; "has_text"; "is_searchable"; "needs_ocr";
        "total_pages"; "pages_with_text"; "total_characters";
        "average_chars_per_page"; "analysis_method"; "error"] →
  dom (<[k := v]> m) = analysis_keys.
Proof.
  intros Hm Hk. rewrite dom_insert_L, Hm.
  apply subseteq_union_1_L, singleton_subseteq_l.
  unfold analysis_keys. apply elem_of_list_to_set.
  by apply list_elem_of_In.
Qed.

Ltac insert_key := apply dom_insert_key; [|simpl; tauto].

Lemma dom_initial_result p :
  dom (PDFDetector.initial_result p) = analysis_keys.
Proof.
  unfold PDFDetector.initial_result, analysis_keys.
  rewrite !dom_insert_L, dom_empty_L. simpl.
  rewrite (right_id_L ∅ (∪)). by rewrite !(assoc_L (∪)).
Qed.

Lemma dom_half_done r r' :
  dom r = analysis_keys → half_done r r' → dom r' = analysis_keys.
Proof. intros Hr []; repeat insert_key; done. Qed.

Lemma dom_extracted m tp tc pwt r :
  dom r = analysis_keys → dom (extracted m tp tc pwt r) = analysis_keys.
Proof. intros Hr. unfold extracted. repeat insert_key. done. Qed.

Lemma dom_decided h r :
  dom r = analysis_keys → dom (decided h r) = analysis_keys.
Proof. intros Hr. unfold decided. repeat insert_key. done. Qed.

Lemma dom_analysis_of E p f d evs :
  analysis_of E p f d evs → dom d = analysis_keys.
Proof.
  intros [].
  - apply dom_decided, dom_extracted, dom_initial_result.
  - apply dom_decided, dom_extracted.
    eapply dom_half_done; [apply dom_initial_result|done].
  - insert_key.
    eapply dom_half_done; [|done].
    eapply dom_half_done; [apply dom_initial_result|done].
Qed.

(** [analyze_pdf] returns, for every document and whatever the
    backends do, a dictionary with exactly the ten keys it starts from:
    the five-key dictionary of its [except] clause is never returned, so
    no subscript of a caller raises [KeyError]. *)
Theorem analysis_result_is_complete E pdf_path w :
  ∃ d w',
    PDFDetector.analyze_pdf E PDFDetector.__init__ pdf_path w = (inr d, w') ∧
    dom d = analysis_keys.
Proof.
  destruct (analyze_pdf_shape E pdf_path w) as (d & evs & Hrun & Hd).
  exists d, (log w evs). split; [done|]. by eapply dom_analysis_of.
Qed.

Lemma analysis_of_searchable E p f d evs :
  analysis_of E p f d evs →
  ∃ h, d !! "is_searchable" = Some (VBool h) ∧
       d !! "has_text" = Some (VBool h) ∧
       d !! "needs_ocr" = Some (VBool (negb h)) ∧
       (extraction_succeeds E p f = false → h = false).
Proof.
  intros [pages tc pwt Ho Hs|pages tc pwt r H1 Ho Hs Hhd|r r' Hf Hhd Hhd'].
  - eexists. unfold decided. simplify_map_eq. repeat split; try done.
    unfold extraction_succeeds. rewrite Ho. simpl.
    destruct (forallb _ pages) eqn:Hp; [done|].
    apply (scan_pymupdf_None PDFDetector.__init__ _ 0 0) in Hp. congruence.
  - eexists. unfold decided. simplify_map_eq. repeat split; try done.
    unfold extraction_succeeds. rewrite Ho. simpl. by rewrite orb_true_r.
  - exists false.
    rewrite !lookup_insert_ne by done.
    rewrite !(half_done_lookup _ _ _ Hhd') by done.
    rewrite !(half_done_lookup _ _ _ Hhd) by done. done.
Qed.

(** [is_pdf_searchable] always returns a boolean, the negation of the
    [needs_ocr] entry of the analysis of the same document in the same
    world; it is [False] when neither backend gets through the
    document. *)
Theorem is_pdf_searchable_negates_needs_ocr E pdf_path w :
  ∃ b d w',
    PDFDetector.is_pdf_searchable E PDFDetector.__init__ pdf_path w
    = (inr (VBool b), w') ∧
    PDFDetector.analyze_pdf E PDFDetector.__init__ pdf_path w = (inr d, w') ∧
    d !! "needs_ocr" = Some (VBool (negb b)) ∧
    (extraction_succeeds E pdf_path (fs w) = false → b = false).
Proof.
  destruct (analyze_pdf_shape E pdf_path w) as (d & evs & Hrun & Hd).
  destruct (analysis_of_searchable _ _ _ _ _ Hd) as (h & Hs & _ & Hn & Hf).
  exists h, d, (log w evs). repeat split; try done.
  unfold PDFDetector.is_pdf_searchable, mbind, M_bind. rewrite Hrun. cbn.
  by rewrite Hs.
Qed.

(** The three tests of [_determine_ocr_need] on counts the page loop can
    produce, without the floats. *)
Lemma sufficient_in_integers tc tp pwt :
  0 ≤ tp → (tp = 0 → tc = 0) →
  has_sufficient_text PDFDetector.__init__ tc (average_q tc tp) pwt tp = true
  ↔ 0 < tp ∧ 50 * tp < tc ∧ tp ≤ 10 * pwt.
Proof.
  intros Htp Hz. rewrite has_sufficient_text_iff. unfold average_q.
  destruct tp as [|n|n]; [|clear Hz|lia].
  - rewrite (Hz eq_refl). lia.
  - replace (0 <? Z.pos n) with true by (symmetry; by apply Z.ltb_lt).
    unfold Qlt, Qle, Qdiv, Qmult, Qinv, inject_Z. simpl.
    rewrite !Z.mul_1_r, !Pos.mul_1_l. lia.
Qed.

Lemma scan_pymupdf_empty self tc pwt :
  PDFDetector.scan_pymupdf self [] 0 0 = Some (tc, pwt) → tc = 0.
Proof. simpl. congruence. Qed.

Lemma analysis_of_verdict E p f d evs :
  analysis_of E p f d evs →
  ∃ tc tp pwt h,
    d !! "total_characters" = Some (VInt tc) ∧
    d !! "total_pages" = Some (VInt tp) ∧
    d !! "pages_with_text" = Some (VInt pwt) ∧
    d !! "needs_ocr" = Some (VBool (negb h)) ∧
    (h = true ↔ 0 < tp ∧ 50 * tp < tc ∧ tp ≤ 10 * pwt).
Proof.
  intros [pages tc pwt Ho Hs|pages tc pwt r H1 Ho Hs Hhd|r r' Hf Hhd Hhd'].
  - eexists tc, _, pwt, _.
    rewrite !decided_other, extracted_tc, extracted_tp, extracted_pwt by done.
    split_and!; try done; try (unfold decided; by simplify_map_eq).
    apply sufficient_in_integers; [lia|].
    intros Hl. destruct pages; [|simpl in Hl; lia].
    simpl in Hs. congruence.
  - eexists tc, _, pwt, _.
    rewrite !decided_other, extracted_tc, extracted_tp, extracted_pwt by done.
    split_and!; try done; try (unfold decided; by simplify_map_eq).
    apply sufficient_in_integers; [lia|].
    intros Hl. destruct pages; [|simpl in Hl; lia].
    simpl in Hs. congruence.
  - destruct (half_done_pages _ _ 0 Hhd eq_refl) as [n' Hn'].
    destruct (half_done_pages _ _ n' Hhd' Hn') as [n Hn].
    exists 0, (Z.of_nat n), 0, false.
    rewrite !lookup_insert_ne by done. rewrite Hn.
    rewrite !(half_done_lookup _ _ _ Hhd') by done.
    rewrite !(half_done_lookup _ _ _ Hhd) by done.
    split_and!; try done. split; [done|lia].
Qed.

(** The verdict of the analyzer in whole numbers.  For every document
    and whatever the backends do, the dictionary [analyze_pdf] returns
    has [needs_ocr = False] exactly when the document has a page, more
    than 50 characters per page on average ([50 * total_pages <
    total_characters]) and at least one page in ten with text
    ([total_pages ≤ 10 * pages_with_text]).  The first of the three tests
    of the code, [total_characters > 50], follows from the second and
    only keeps the division away from a document without pages. *)
Theorem verdict_in_whole_numbers E pdf_path w :
  ∃ d w' total_characters total_pages pages_with_text,
    PDFDetector.analyze_pdf E PDFDetector.__init__ pdf_path w = (inr d, w') ∧
    d !! "total_characters" = Some (VInt total_characters) ∧
    d !! "total_pages" = Some (VInt total_pages) ∧
    d !! "pages_with_text" = Some (VInt pages_with_text) ∧
    (d !! "needs_ocr" = Some (VBool false) ↔
     0 < total_pages ∧ 50 * total_pages < total_characters ∧
     total_pages ≤ 10 * pages_with_text) ∧
    (d !! "needs_ocr" = Some (VBool false) ∨
     d !! "needs_ocr" = Some (VBool true)).
Proof.
  destruct (analyze_pdf_shape E pdf_path w) as (d & evs & Hrun & Hd).
  destruct (analysis_of_verdict _ _ _ _ _ Hd)
    as (tc & tp & pwt & h & Htc & Htp & Hpwt & Hn & Hh).
  exists d, (log w evs), tc, tp, pwt. split_and!; try done.
  - rewrite Hn. split.
    + intros [=Hneg]. apply Hh. by destruct h.
    + intros Hc. apply Hh in Hc. by rewrite Hc.
  - rewrite Hn. destruct h; auto.
Qed.

Lemma scan_pypdf2_counts self pages : ∀ tc pwt,
  PDFDetector.scan_pypdf2 self pages tc pwt
  = (tc + total_chars_of (readable pages),
     pwt + pages_with_text_of (PDFDetector.min_text_threshold self)
             (readable pages)).
Proof.
  induction pages as [|[page_text|] pages IH]; intros tc pwt; simpl.
  - by rewrite !Z.add_0_r.
  - rewrite IH. f_equal; [lia|]. destruct (_ <? _); lia.
  - apply IH.
Qed.

(** What the analyzer computes through the fallback backend.  When
    the primary backend gives up and PyPDF2 opens the document, a page
    whose extraction raises is skipped, yet it stays in [total_pages]:
    the counts are those of the readable pages, the average divides by
    the number of all pages, and no error is reported. *)
Theorem fallback_skips_unreadable_pages E pdf_path w pages :
  pymupdf_succeeds (fitz_open E pdf_path (fs w)) = false →
  PdfReader E pdf_path (fs w) = ReaderPages pages →
  ∃ d w',
    PDFDetector.analyze_pdf E PDFDetector.__init__ pdf_path w = (inr d, w') ∧
    d !! "analysis_method" = Some (VStr "PyPDF2") ∧
    d !! "total_pages" = Some (VInt (Z.of_nat (length pages))) ∧
    d !! "total_characters"
    = Some (VInt (total_chars_of (readable pages))) ∧
    d !! "pages_with_text"
    = Some (VInt (pages_with_text_of 50 (readable pages))) ∧
    d !! "average_chars_per_page"
    = Some (PDFDetector.average (total_chars_of (readable pages))
              (Z.of_nat (length pages))) ∧
    d !! "error" = Some VNone.
Proof.
  intros H1 Ho.
  destruct (pymupdf_run_fail E PDFDetector.__init__ pdf_path
              (PDFDetector.initial_result pdf_path) w H1)
    as (r' & Hrun & Hhd).
  pose proof (scan_pypdf2_counts PDFDetector.__init__ pages 0 0) as Hscan.
  simpl in Hscan.
  eexists _, _. split.
  - unfold PDFDetector.analyze_pdf, try_except, mbind, M_bind at 1 2.
    rewrite Hrun. cbn. unfold M_bind at 1.
    rewrite (pypdf2_run_ok _ _ _ _ (log w [EvFitzOpen pdf_path]) _ Ho),
      Hscan. cbn.
    rewrite determine_after_extraction; [done|].
    intros Hl. destruct pages; [done|simpl in Hl; lia].
  - rewrite !decided_other by done.
    rewrite extracted_tc, extracted_tp, extracted_pwt, extracted_avg,
      extracted_error.
    split_and!; try done.
    + unfold extracted. by simplify_map_eq.
    + by rewrite (half_done_lookup _ _ _ Hhd).
Qed.

Lemma fallback_skips_unreadable_pages_witness :
  pymupdf_succeeds (fitz_open E_fallback "doc.pdf" (fs w_demo)) = false ∧
  PdfReader E_fallback "doc.pdf" (fs w_demo)
  = ReaderPages [Some (repeat 97%N 200); None] ∧
  ∃ d w',
    PDFDetector.analyze_pdf E_fallback PDFDetector.__init__ "doc.pdf" w_demo
    = (inr d, w') ∧
    d !! "analysis_method" = Some (VStr "PyPDF2") ∧
    d !! "total_pages" = Some (VInt 2) ∧
    d !! "total_characters" = Some (VInt 200) ∧
    d !! "pages_with_text" = Some (VInt 1) ∧
    d !! "average_chars_per_page" = Some (PDFDetector.average 200 2) ∧
    d !! "error" = Some VNone.
Proof.
  split; [reflexivity|split; [reflexivity|]].
  apply (fallback_skips_unreadable_pages E_fallback "doc.pdf" w_demo
           [Some (repeat 97%N 200); None]); reflexivity.
Defined.

(** The first test keeps the division safe.  Called on a dictionary
    with [total_pages = 0] whose [total_characters] and
    [average_chars_per_page] both exceed the threshold,
    [_determine_ocr_need] raises [ZeroDivisionError]: nothing but the
    page loops, which give no character to a document without pages,
    stands between the third test and a division by zero. *)
Theorem division_needs_the_first_test self result w tc avgv avg pwt :
  result !! "total_characters" = Some (VInt tc) →
  result !! "average_chars_per_page" = Some avgv →
  as_number avgv = Some avg →
  result !! "pages_with_text" = Some (VInt pwt) →
  result !! "total_pages" = Some (VInt 0) →
  PDFDetector.min_text_threshold self < tc →
  (inject_Z (PDFDetector.min_text_threshold self) < avg)%Q →
  PDFDetector._determine_ocr_need self result w = (inl ZeroDivisionError, w).
Proof.
  intros Htc Havgv Havg Hpwt Htp H1 H2.
  unfold PDFDetector._determine_ocr_need. unfold_monad.
  rewrite Htc, Havgv, Hpwt, Htp. unfold py_gt, py_ge, py_truediv.
  rewrite Havg. cbn.
  rewrite (proj2 (Qlt_bool_iff _ _)) by (by rewrite <- Zlt_Qlt).
  by rewrite (proj2 (Qlt_bool_iff _ _) H2).
Qed.

Lemma division_needs_the_first_test_witness :
  PDFDetector._determine_ocr_need PDFDetector.__init__
    (<["total_characters" := VInt 51]>
     (<["average_chars_per_page" := VInt 51]>
      (PDFDetector.initial_result "doc.pdf"))) w_demo
  = (inl ZeroDivisionError, w_demo).
Proof.
  apply (division_needs_the_first_test PDFDetector.__init__ _ w_demo
           51 (VInt 51) (inject_Z 51) 0); try reflexivity.
Defined.

(* ===================================================================== *)
(** * More on the invoker                                                 *)
(* ===================================================================== *)

(** The method block raises when the engine was called and raised.
    Otherwise it names one of the three methods, and only a copy that
    went through touches another entry. *)
Lemma determine_method_chosen E self i o force r w :
  ∃ block w',
    OCRProcessor.determine_method E self i o force r w = (block, w') ∧
    ((∃ e,
        raised (ocrmypdf_ocr E (OCRProcessor.ocr_config self i o) (fs w))
        = Some e ∧
        block = inl (AttributeError OCRProcessor.no_ExitCodeNotOk)) ∨
     (∃ s m copied,
        block = inr (s, chosen m copied r) ∧
        (m = "OCR_FORCED" ∨ m = "OCR_APPLIED" ∨ m = "COPY_EXISTING") ∧
        (copied = true → m = "COPY_EXISTING"))).
Proof.
  destruct force.
  - unfold OCRProcessor.determine_method. rewrite apply_ocr_run.
    unfold applied. destruct (raised _) as [e|] eqn:He;
      eexists _, _; (split; [reflexivity|]); [left; eauto|right].
    by exists true, "OCR_FORCED", false; split_and!; auto.
  - destruct (determine_method_auto E self i o r w)
      as (d & evs & tc & tp & pwt & avg & h & err & _ & _ & _ & ->).
    destruct h.
    + rewrite copy_existing_run. destruct (returned _);
        eexists _, _; (split; [reflexivity|]); right.
      * by exists true, "COPY_EXISTING", true; split_and!; auto.
      * by exists false, "COPY_EXISTING", false; split_and!; auto.
    + rewrite apply_ocr_run.
      unfold applied. cbn [fs log]. destruct (raised _) as [e|] eqn:He;
        eexists _, _; (split; [reflexivity|]); [left; eauto|right].
      by exists true, "OCR_APPLIED", false; split_and!; auto.
Qed.

Lemma chosen_other m c r k :
  k ≠ "processing_method" → k ≠ "pages_processed" →
  chosen m c r !! k = r !! k.
Proof. intros. unfold chosen. destruct c; by rewrite !lookup_insert_ne. Qed.

Lemma chosen_method m c r :
  chosen m c r !! "processing_method" = Some (VStr m).
Proof. unfold chosen. destruct c; by simplify_map_eq. Qed.

Lemma checked_size_after o s r f :
  r !! "file_size_after" = Some (VInt 0) →
  checked o s r f !! "file_size_after"
  = Some (VInt (match (if s then f !! pathlib.str (pathlib.Path o) else None)
                with Some st => st_size st | None => 0 end)).
Proof.
  intros Hr. unfold checked. destruct (if s then _ else _); by simplify_map_eq.
Qed.

(** [process_pdf] always returns a dictionary.  On an input that is
    there it is the initial one with the size, the method and the outcome
    of the final check filled in, unless the engine was called and
    raised: the dictionary is then that of the [except] clause. *)
Lemma process_pdf_shape E self i o force w :
  ∃ d w',
    OCRProcessor.process_pdf E self i o force w = (inr d, w') ∧
    (fs w !! pathlib.str (pathlib.Path i) = None ∧
     d = OCRProcessor.except_result i o
           (FileNotFoundError (pathlib.str (pathlib.Path i))) ∧ w' = w
     ∨ (∃ st e,
         fs w !! pathlib.str (pathlib.Path i) = Some st ∧
         raised (ocrmypdf_ocr E (OCRProcessor.ocr_config self i o) (fs w))
         = Some e ∧
         d = OCRProcessor.except_result i o
               (AttributeError OCRProcessor.no_ExitCodeNotOk))
     ∨ ∃ st s m copied,
         fs w !! pathlib.str (pathlib.Path i) = Some st ∧
         d = checked o s (chosen m copied (sized i o (st_size st))) (fs w') ∧
         (m = "OCR_FORCED" ∨ m = "OCR_APPLIED" ∨ m = "COPY_EXISTING") ∧
         (copied = true → m = "COPY_EXISTING")).
Proof.
  destruct (fs w !! pathlib.str (pathlib.Path i)) as [st|] eqn:Hst.
  - rewrite (process_pdf_present _ _ _ _ _ _ _ Hst).
    destruct (determine_method_chosen E self i o force
                (sized i o (st_size st)) w)
      as (block & w' & -> &
          [(e & He & ->)|(s & m & copied & -> & Hm & Hc)]);
      eexists _, _; (split; [reflexivity|]); right.
    + left. by exists st, e.
    + right. by exists st, s, m, copied.
  - rewrite (process_pdf_missing _ _ _ _ _ _ Hst).
    eexists _, _. split; [reflexivity|]. by left.
Qed.

(** The sizes [process_pdf] records are those of the files.  On an
    input that is there: when [success] is true, [file_size_before] is the
    size of the input when the call starts, the output exists when the
    call ends and [file_size_after] is its size then; when [success] is
    false, either [file_size_before] is that size and [file_size_after]
    is still 0, or the engine raised and the result has neither entry. *)
Theorem recorded_sizes_are_the_file_sizes E self i o force w st :
  fs w !! pathlib.str (pathlib.Path i) = Some st →
  ∃ d w' success,
    OCRProcessor.process_pdf E self i o force w = (inr d, w') ∧
    d !! "success" = Some (VBool success) ∧
    if success
    then d !! "file_size_before" = Some (VInt (st_size st)) ∧
         ∃ st', fs w' !! pathlib.str (pathlib.Path o) = Some st' ∧
                d !! "file_size_after" = Some (VInt (st_size st'))
    else d !! "file_size_before" = Some (VInt (st_size st)) ∧
         d !! "file_size_after" = Some (VInt 0)
         ∨ (∃ e, raised (ocrmypdf_ocr E (OCRProcessor.ocr_config self i o)
                           (fs w)) = Some e) ∧
           d !! "file_size_before" = None ∧
           d !! "file_size_after" = None.
Proof.
  intros Hst.
  destruct (process_pdf_shape E self i o force w)
    as (d & w' & Hrun &
        [(Hnone & _)|[(st0 & e & _ & He & ->)
                     |(st0 & s & m & c & Hst0 & -> & _)]]);
    [congruence| |].
  - exists (OCRProcessor.except_result i o
              (AttributeError OCRProcessor.no_ExitCodeNotOk)), w', false.
    split; [exact Hrun|]. split; [done|]. right. split; [eauto|done].
  - rewrite Hst in Hst0. injection Hst0 as <-.
    eexists _, w', _. split; [exact Hrun|].
    split; [apply checked_success; by rewrite chosen_other by done|].
    rewrite checked_size_after by (by rewrite chosen_other by done).
    rewrite checked_other, chosen_other by done.
    destruct s; simpl; [|by left].
    destruct (fs w' !! pathlib.str (pathlib.Path o)) as [st'|] eqn:Ho.
    + rewrite bool_decide_true by eauto. eauto.
    + rewrite bool_decide_false by (by intros [? ?]). by left.
Qed.

Lemma recorded_sizes_are_the_file_sizes_witness :
  fs w_demo !! pathlib.str (pathlib.Path "doc.pdf")
  = Some (regular_file 2048) ∧
  ∃ d w' success,
    OCRProcessor.process_pdf E_scan demo_processor "doc.pdf" "out.pdf" false
      w_demo = (inr d, w') ∧
    d !! "success" = Some (VBool success) ∧
    if success
    then d !! "file_size_before" = Some (VInt (st_size (regular_file 2048))) ∧
         ∃ st', fs w' !! pathlib.str (pathlib.Path "out.pdf") = Some st' ∧
                d !! "file_size_after" = Some (VInt (st_size st'))
    else d !! "file_size_before" = Some (VInt (st_size (regular_file 2048))) ∧
         d !! "file_size_after" = Some (VInt 0)
         ∨ (∃ e, raised (ocrmypdf_ocr E_scan
                           (OCRProcessor.ocr_config demo_processor "doc.pdf"
                              "out.pdf")
                           (fs w_demo)) = Some e) ∧
           d !! "file_size_before" = None ∧
           d !! "file_size_after" = None.
Proof.
  split; [reflexivity|].
  apply (recorded_sizes_are_the_file_sizes E_scan demo_processor "doc.pdf"
           "out.pdf" false w_demo (regular_file 2048)).
  reflexivity.
Defined.

(** What [process_pdf] never fills in.  [progress_callback] is handed
    to nobody and no clock is read: a [processing_time] in the result is
    0, and a [pages_processed] is 0 or, with the method [COPY_EXISTING],
    the text of the direct copy.  A result with [success] true has both
    entries: [processing_time] is 0, and [pages_processed] is 0 whenever
    the method is not [COPY_EXISTING], that is after an OCR that went
    through. *)
Theorem progress_is_never_recorded E self i o force w :
  ∃ d w',
    OCRProcessor.process_pdf E self i o force w = (inr d, w') ∧
    (∀ v, d !! "processing_time" = Some v → v = VInt 0) ∧
    (∀ v, d !! "pages_processed" = Some v →
          v = VInt 0 ∨
          v = VStr "N/A (copia directa)" ∧
          d !! "processing_method" = Some (VStr "COPY_EXISTING")) ∧
    (d !! "success" = Some (VBool true) →
     d !! "processing_time" = Some (VInt 0) ∧
     (d !! "processing_method" ≠ Some (VStr "COPY_EXISTING") →
      d !! "pages_processed" = Some (VInt 0))).
Proof.
  destruct (process_pdf_shape E self i o force w)
    as (d & w' & Hrun &
        [(_ & Hd & _)|[(st0 & e & _ & _ & Hd)
                      |(st0 & s & m & c & Hst0 & Hd & _ & Hc)]]);
    exists d, w'; subst d; (split; [exact Hrun|]).
  - by split_and!.
  - by split_and!.
  - rewrite !checked_other by done. rewrite chosen_method.
    rewrite chosen_other by done.
    assert (Hp : chosen m c (sized i o (st_size st0)) !! "pages_processed"
                 = Some (if c then VStr "N/A (copia directa)" else VInt 0)).
    { unfold chosen. destruct c; by simplify_map_eq. }
    rewrite Hp. split_and!.
    + by intros v [= <-].
    + intros v [= <-]. destruct c; [right|by left].
      by rewrite (Hc eq_refl).
    + intros _. split; [done|]. intros Hm.
      destruct c; [by rewrite (Hc eq_refl) in Hm|done].
Qed.

(** Without [force_ocr], a document the analyzer does not find
    searchable goes to the engine: the engine is called once with
    [ocr_config] and nothing is copied; the method recorded when that
    call returns is [OCR_APPLIED], and when it raises the result is the
    dictionary of the [except] clause.  This holds also when the verdict
    comes from an analysis that failed. *)
Theorem unsearchable_document_gets_ocr E self i o w st d w1 :
  fs w !! pathlib.str (pathlib.Path i) = Some st →
  PDFDetector.analyze_pdf E PDFDetector.__init__ i w = (inr d, w1) →
  d !! "needs_ocr" = Some (VBool true) →
  ∃ d' w',
    OCRProcessor.process_pdf E self i o false w = (inr d', w') ∧
    ocr_calls (trace w')
    = ocr_calls (trace w) ++ [OCRProcessor.ocr_config self i o] ∧
    copy_calls (trace w') = copy_calls (trace w) ∧
    (raised (ocrmypdf_ocr E (OCRProcessor.ocr_config self i o) (fs w))
     = None →
     d' !! "processing_method" = Some (VStr "OCR_APPLIED")) ∧
    (∀ e,
       raised (ocrmypdf_ocr E (OCRProcessor.ocr_config self i o) (fs w))
       = Some e →
       d' = OCRProcessor.except_result i o
              (AttributeError OCRProcessor.no_ExitCodeNotOk)).
Proof.
  intros Hst Hrun Hneeds. rewrite (process_pdf_present _ _ _ _ _ _ _ Hst).
  destruct (determine_method_auto E self i o (sized i o (st_size st)) w)
    as (d0 & evs & tc & tp & pwt & avg & h & err & Hrun0 & Hevs & Hf & ->).
  rewrite Hrun in Hrun0. injection Hrun0 as -> ->.
  destruct Hf as (_ & _ & _ & _ & _ & Hn & _).
  rewrite Hneeds in Hn. injection Hn as Hh.
  destruct h; [discriminate|].
  rewrite apply_ocr_run.
  assert (Hq : ocr_calls (trace w ++ evs) = ocr_calls (trace w) ∧
               copy_calls (trace w ++ evs) = copy_calls (trace w)).
  { rewrite ocr_calls_app, copy_calls_app.
    destruct Hevs as [-> | ->]; by rewrite !app_nil_r. }
  destruct Hq as [Hq1 Hq2].
  unfold applied. cbn [fs log].
  destruct (raised _) as [e|] eqn:He; eexists _, _;
    (split; [reflexivity|]); cbn;
    rewrite ocr_calls_app, copy_calls_app, Hq1, Hq2, app_nil_r;
    (split; [done|]); (split; [done|]).
  - split; [done|]. by intros e' _.
  - split; [|by intros e' [=]].
    intros _. rewrite checked_other by done. by simplify_map_eq.
Qed.

Lemma unsearchable_document_gets_ocr_witness :
  fs w_demo !! pathlib.str (pathlib.Path "doc.pdf")
  = Some (regular_file 2048) ∧
  field "needs_ocr"
    (PDFDetector.analyze_pdf E_scan PDFDetector.__init__ "doc.pdf" w_demo)
  = Some (VBool true) ∧
  ∃ d' w',
    OCRProcessor.process_pdf E_scan demo_processor "doc.pdf" "out.pdf" false
      w_demo = (inr d', w') ∧
    ocr_calls (trace w')
    = ocr_calls (trace w_demo)
      ++ [OCRProcessor.ocr_config demo_processor "doc.pdf" "out.pdf"] ∧
    copy_calls (trace w') = copy_calls (trace w_demo) ∧
    (raised (ocrmypdf_ocr E_scan
               (OCRProcessor.ocr_config demo_processor "doc.pdf" "out.pdf")
               (fs w_demo)) = None →
     d' !! "processing_method" = Some (VStr "OCR_APPLIED")) ∧
    (∀ e,
       raised (ocrmypdf_ocr E_scan
                 (OCRProcessor.ocr_config demo_processor "doc.pdf" "out.pdf")
                 (fs w_demo)) = Some e →
       d' = OCRProcessor.except_result "doc.pdf" "out.pdf"
              (AttributeError OCRProcessor.no_ExitCodeNotOk)).
Proof.
  split; [reflexivity|]. split; [vm_compute; reflexivity|].
  destruct (analyze_pdf_shape E_scan "doc.pdf" w_demo)
    as (d & evs & Hrun & Hd).
  apply (unsearchable_document_gets_ocr E_scan demo_processor "doc.pdf"
           "out.pdf" w_demo (regular_file 2048) d (log w_demo evs));
    [reflexivity|exact Hrun|].
  assert (Hf : field "needs_ocr"
                 (PDFDetector.analyze_pdf E_scan PDFDetector.__init__
                    "doc.pdf" w_demo) = Some (VBool true))
    by (vm_compute; reflexivity).
  unfold field, returned_value in Hf. rewrite Hrun in Hf. exact Hf.
Defined.

(* ===================================================================== *)
(** * What the validators accept                                          *)
(* ===================================================================== *)

(** Both validators give a message exactly when they reject. *)
Lemma validate_pdf_file_message i w :
  ∃ valid msg,
    FileValidator.validate_pdf_file i w = (inr (valid, msg), w) ∧
    (valid = true ↔ msg = None).
Proof.
  unfold FileValidator.validate_pdf_file, Path_exists, Path_st_size.
  unfold_monad. cbn.
  destruct (fs w !! pathlib.str (pathlib.Path i)) as [st|] eqn:Hst.
  - rewrite bool_decide_true by eauto. cbn.
    repeat (first [rewrite Hst | case_if]; cbn);
      eexists _, _; (split; [reflexivity|]); by split.
  - rewrite bool_decide_false by (by intros [? ?]). cbn.
    eexists _, _. split; [reflexivity|]. by split.
Qed.

Lemma validate_output_path_message E o w :
  ∃ valid msg w',
    FileValidator.validate_output_path E o w = (inr (valid, msg), w') ∧
    (valid = true ↔ msg = None) ∧
    (trace w' = trace w ∨ ∃ dir, trace w' = trace w ++ [EvMkdir dir]).
Proof.
  unfold FileValidator.validate_output_path, Path_exists, os_access_W_OK,
    mkdir_parents.
  unfold_monad. cbn.
  set (parent_dir := pathlib.str (pathlib.parent (pathlib.Path o))).
  set (path := pathlib.str (pathlib.Path o)).
  destruct (negb (bool_decide (is_Some (fs w !! parent_dir)))); cbn.
  - destruct (raised (Path_mkdir E parent_dir (fs w))); cbn;
      [eexists _, _, _; split; [reflexivity|]; split; [by split|]; eauto|].
    repeat case_if; eexists _, _, _; (split; [reflexivity|]);
      (split; [by split|]); eauto.
  - repeat case_if; eexists _, _, _; (split; [reflexivity|]);
      (split; [by split|]); eauto.
Qed.

(** The size test of [validate_pdf_file], in bytes. *)
Lemma size_mb_over_100 sz :
  Qlt_bool 100 (inject_Z sz / inject_Z (1024 * 1024)) = true
  ↔ 100 * 1024 * 1024 < sz.
Proof.
  rewrite Qlt_bool_iff.
  unfold Qlt, Qdiv, Qmult, Qinv, inject_Z. simpl. lia.
Qed.

(** What [validate_pdf_file] accepts.  It returns without touching
    the world, with a message exactly when it rejects; it accepts exactly
    the paths that exist, whose suffix is [.pdf] in any letter case, and
    whose size is neither 0 nor above 100 MiB.  Nothing asks whether the
    path is a regular file or can be read. *)
Theorem validate_pdf_file_accepts i w :
  ∃ valid msg,
    FileValidator.validate_pdf_file i w = (inr (valid, msg), w) ∧
    (valid = true ↔ msg = None) ∧
    (valid = true ↔
     ∃ st, fs w !! pathlib.str (pathlib.Path i) = Some st ∧
           lower (pathlib.suffix (pathlib.Path i)) = ".pdf" ∧
           st_size st ≠ 0 ∧ st_size st ≤ 100 * 1024 * 1024).
Proof.
  unfold FileValidator.validate_pdf_file, Path_exists, Path_st_size.
  unfold_monad. cbn.
  destruct (fs w !! pathlib.str (pathlib.Path i)) as [st|] eqn:Hst.
  2:{ rewrite bool_decide_false by (by intros [? ?]). cbn.
      eexists _, _. split; [reflexivity|].
      split; (split; [done|]); [done|]. by intros (? & ? & _). }
  rewrite bool_decide_true by eauto. cbn.
  destruct (String.eqb _ ".pdf") eqn:Hsuf; cbn.
  2:{ eexists _, _. split; [reflexivity|].
      split; (split; [done|]); [done|]. intros (? & _ & Hs & _).
      apply String.eqb_eq in Hs. congruence. }
  apply String.eqb_eq in Hsuf. rewrite Hst. cbn.
  destruct (Qlt_bool 100 _) eqn:Hbig; cbn.
  { apply size_mb_over_100 in Hbig.
    eexists _, _. split; [reflexivity|].
    split; (split; [done|]); [done|]. intros (? & [= <-] & _ & _ & Hle). lia. }
  assert (Hle : st_size st ≤ 100 * 1024 * 1024).
  { destruct (Z.le_gt_cases (st_size st) (100 * 1024 * 1024)) as [|Hgt];
      [done|].
    apply size_mb_over_100 in Hgt. congruence. }
  rewrite Hst. cbn. destruct (st_size st =? 0) eqn:Hz; cbn.
  - apply Z.eqb_eq in Hz.
    eexists _, _. split; [reflexivity|].
    split; (split; [done|]); [done|]. intros (? & [= <-] & _ & Hnz & _). lia.
  - apply Z.eqb_neq in Hz.
    eexists _, _. split; [reflexivity|].
    split; [done|]. split; [|done]. intros _. by exists st.
Qed.


(** What [validate_output_path] accepts, and what it leaves behind.
    A missing parent directory is created first, before anything is
    checked, so the call to [mkdir] is made also for an output that is
    then rejected.  The path is accepted exactly when the directory was
    there or could be created, the suffix is [.pdf] in any letter case,
    and the output, if it exists by then, is writable. *)
Theorem validate_output_path_accepts E o w :
  let path := pathlib.Path o in
  let dir := pathlib.str (pathlib.parent path) in
  ∃ valid msg w',
    FileValidator.validate_output_path E o w = (inr (valid, msg), w') ∧
    w' = (if bool_decide (is_Some (fs w !! dir)) then w
          else after_mkdir E dir w) ∧
    (valid = true ↔ msg = None) ∧
    (valid = true ↔
     (is_Some (fs w !! dir) ∨ returned (Path_mkdir E dir (fs w)) = true) ∧
     lower (pathlib.suffix path) = ".pdf" ∧
     ∀ st, fs w' !! pathlib.str path = Some st → w_ok st = true).
Proof.
  intros path dir.
  unfold FileValidator.validate_output_path, Path_exists, os_access_W_OK,
    mkdir_parents, returned, after_mkdir.
  unfold_monad. cbn. fold path. fold dir.
  destruct (bool_decide (is_Some (fs w !! dir))) eqn:Hdir; cbn.
  - apply bool_decide_eq_true in Hdir.
    destruct (String.eqb _ ".pdf") eqn:Hsuf; cbn.
    2:{ eexists _, _, _. split_and!; [reflexivity|done|done|].
        split; [done|]. intros (_ & Hs & _).
        apply String.eqb_eq in Hs. congruence. }
    apply String.eqb_eq in Hsuf.
    destruct (fs w !! pathlib.str path) as [st|] eqn:Hp.
    + rewrite bool_decide_true by eauto. cbn. rewrite Hp.
      destruct (w_ok st) eqn:Hok; cbn; eexists _, _, _;
        (split_and!; [reflexivity|done|done|]).
      * split; [|done]. intros _. split_and!; [by left|done|].
        intros st' Hst'. rewrite Hp in Hst'. by injection Hst' as <-.
      * split; [done|]. intros (_ & _ & H). specialize (H st Hp).
        congruence.
    + rewrite bool_decide_false by (by intros [? ?]). cbn.
      eexists _, _, _. split_and!; [reflexivity|done|done|].
      split; [|done]. intros _. split_and!; [by left|done|by rewrite Hp].
  - apply bool_decide_eq_false in Hdir.
    destruct (raised (Path_mkdir E dir (fs w))) as [e|] eqn:Hmk; cbn.
    { eexists _, _, _. split_and!; [reflexivity|done|done|].
      split; [done|]. by intros ([?|?] & _). }
    destruct (String.eqb _ ".pdf") eqn:Hsuf; cbn.
    2:{ eexists _, _, _. split_and!; [reflexivity|done|done|].
        split; [done|]. intros (_ & Hs & _).
        apply String.eqb_eq in Hs. congruence. }
    apply String.eqb_eq in Hsuf.
    destruct (new_fs (Path_mkdir E dir (fs w)) !! pathlib.str path)
      as [st|] eqn:Hp.
    + rewrite bool_decide_true by eauto. cbn. rewrite Hp.
      destruct (w_ok st) eqn:Hok; cbn; eexists _, _, _;
        (split_and!; [reflexivity|done|done|]).
      * split; [|done]. intros _. split_and!; [by right|done|].
        intros st' Hst'. cbn in Hst'. rewrite Hp in Hst'.
        by injection Hst' as <-.
      * split; [done|]. intros (_ & _ & H). specialize (H st Hp).
        congruence.
    + rewrite bool_decide_false by (by intros [? ?]). cbn.
      eexists _, _, _. split_and!; [reflexivity|done|done|].
      split; [|done]. intros _. split_and!; [by right|done|].
      cbn. by rewrite Hp.
Qed.

Lemma append_nil_length (errors : list string) :
  (length errors =? 0)%nat = true ↔ errors = [].
Proof. destruct errors; simpl; split; done. Qed.

(** What [FileManager.validate_paths] accepts.  It never raises, and
    a missing output directory is created first.  Every check is made and
    its message kept, so the pair is valid exactly when the list of
    errors is empty: the input exists, is a regular file with suffix
    [.pdf] and can be read; the output directory was there or could be
    created, and is writable; the output, if it exists, is writable; and
    the two paths do not resolve to the same file. *)
Theorem validate_paths_accepts E i o w :
  let input_file := pathlib.str (pathlib.Path i) in
  let output_file := pathlib.str (pathlib.Path o) in
  let output_dir := pathlib.str (pathlib.parent (pathlib.Path o)) in
  ∃ valid errors w',
    FileManager.validate_paths E i o w = (inr (valid, errors), w') ∧
    w' = (if bool_decide (is_Some (fs w !! output_dir)) then w
          else after_mkdir E output_dir w) ∧
    (valid = true ↔ errors = []) ∧
    (valid = true ↔
     (∃ st, fs w !! input_file = Some st ∧ is_dir st = false ∧
            r_ok st = true) ∧
     lower (pathlib.suffix (pathlib.Path i)) = ".pdf" ∧
     (is_Some (fs w !! output_dir) ∨
      returned (Path_mkdir E output_dir (fs w)) = true) ∧
     (∃ st, fs w' !! output_dir = Some st ∧ w_ok st = true) ∧
     (∀ st, fs w' !! output_file = Some st → w_ok st = true) ∧
     Path_resolve E input_file (fs w') ≠ Path_resolve E output_file (fs w')).
Proof.
  intros input_file output_file output_dir.
  unfold FileManager.validate_paths, Path_exists, Path_is_file,
    os_access_R_OK, os_access_W_OK, mkdir_parents, resolve, returned,
    after_mkdir.
  unfold_monad. cbn -[FileManager.append].
  fold input_file. fold output_file. fold output_dir.
  set (errors0 :=
    if negb (bool_decide (is_Some (fs w !! input_file)))
    then FileManager.append [] ("Archivo de entrada no existe: " +:+ i)
    else if negb match fs w !! input_file with
                 | Some s => negb (is_dir s) | None => false end
    then FileManager.append [] ("Ruta de entrada no es un archivo: " +:+ i)
    else if negb (String.eqb (lower (pathlib.suffix (pathlib.Path i)))
                    ".pdf")
    then FileManager.append [] ("Archivo de entrada no es PDF: " +:+ i)
    else if negb match fs w !! input_file with
                 | Some s => r_ok s | None => false end
    then FileManager.append [] ("Sin permisos de lectura: " +:+ i)
    else []).
  assert (H0 : errors0 = [] ↔
    (∃ st, fs w !! input_file = Some st ∧ is_dir st = false ∧
           r_ok st = true) ∧
    lower (pathlib.suffix (pathlib.Path i)) = ".pdf").
  { subst errors0. unfold FileManager.append.
    destruct (fs w !! input_file) as [st|] eqn:Hst.
    - rewrite bool_decide_true by eauto. cbn.
      destruct (is_dir st) eqn:Hd; cbn.
      { split; [done|]. intros [(? & [= <-] & ? & _) _]. congruence. }
      destruct (String.eqb _ ".pdf") eqn:Hs; cbn.
      2:{ split; [done|]. intros [_ Hs']. apply String.eqb_eq in Hs'.
          congruence. }
      apply String.eqb_eq in Hs.
      destruct (r_ok st) eqn:Hr; cbn.
      + split; [|done]. intros _. split; [|done]. by exists st.
      + split; [done|]. intros [(? & [= <-] & _ & ?) _]. congruence.
    - rewrite bool_decide_false by (by intros [? ?]).
      split; [done|]. by intros [(? & [=] & _) _]. }
  clearbody errors0.
  pose (tail := λ (w1 : world) (errors1 : list string),
    let errors2 :=
      if bool_decide (is_Some (fs w1 !! output_file)) &&
         negb match fs w1 !! output_file with
              | Some s => w_ok s | None => false end
      then FileManager.append errors1
             ("Sin permisos de escritura en archivo existente: " +:+ o)
      else if negb match fs w1 !! output_dir with
                   | Some s => w_ok s | None => false end
      then FileManager.append errors1
             ("Sin permisos de escritura en directorio: " +:+ output_dir)
      else errors1 in
    let errors3 :=
      if String.eqb (Path_resolve E input_file (fs w1))
                    (Path_resolve E output_file (fs w1))
      then FileManager.append errors2
             "Archivo de entrada y salida no pueden ser el mismo"
      else errors2 in
    ((length errors3 =? 0)%nat, errors3)).
  assert (Htail : ∀ (w1 : world) (errors1 : list string) (P : Prop),
    (errors1 = [] ↔ errors0 = [] ∧ P) →
    ((tail w1 errors1).1 = true ↔ (tail w1 errors1).2 = []) ∧
    ((tail w1 errors1).1 = true ↔
     (errors0 = [] ∧ P) ∧
     (∃ st, fs w1 !! output_dir = Some st ∧ w_ok st = true) ∧
     (∀ st, fs w1 !! output_file = Some st → w_ok st = true) ∧
     Path_resolve E input_file (fs w1)
     ≠ Path_resolve E output_file (fs w1))).
  { intros w1 errors1 P H1. subst tail. cbv beta zeta. simpl fst. simpl snd.
    split; [apply append_nil_length|]. rewrite append_nil_length.
    assert (Hne : ∀ e m, FileManager.append e m = [] ↔ False).
    { intros e m. unfold FileManager.append. by destruct e. }
    destruct (String.eqb _ _) eqn:Hsame.
    { apply String.eqb_eq in Hsame. rewrite Hne. split; [done|].
      by intros (_ & _ & _ & ?). }
    apply String.eqb_neq in Hsame.
    destruct (fs w1 !! output_file) as [sto|] eqn:Ho.
    - rewrite bool_decide_true by eauto. cbn -[FileManager.append].
      destruct (w_ok sto) eqn:Hwo; cbn -[FileManager.append].
      2:{ rewrite Hne. split; [done|]. intros (_ & _ & Hw & _).
          specialize (Hw sto eq_refl). congruence. }
      destruct (fs w1 !! output_dir) as [std|] eqn:Hd;
        cbn -[FileManager.append].
      + destruct (w_ok std) eqn:Hwd; cbn -[FileManager.append].
        * rewrite H1. split; [|tauto]. intros HP.
          split; [exact HP|]. split; [by exists std|].
          split; [by intros ? [= <-]|done].
        * rewrite Hne. split; [done|].
          intros (_ & (? & [= <-] & ?) & _). congruence.
      + rewrite Hne. split; [done|]. by intros (_ & (? & [=] & _) & _).
    - rewrite bool_decide_false by (by intros [? ?]).
      cbn -[FileManager.append].
      destruct (fs w1 !! output_dir) as [std|] eqn:Hd;
        cbn -[FileManager.append].
      + destruct (w_ok std) eqn:Hwd; cbn -[FileManager.append].
        * rewrite H1. split; [|tauto]. intros HP.
          split; [exact HP|]. split; [by exists std|]. by split.
        * rewrite Hne. split; [done|].
          intros (_ & (? & [= <-] & ?) & _). congruence.
      + rewrite Hne. split; [done|]. by intros (_ & (? & [=] & _) & _). }
  destruct (bool_decide (is_Some (fs w !! output_dir))) eqn:Hdir;
    cbn -[FileManager.append].
  - apply bool_decide_eq_true in Hdir.
    destruct (Htail w errors0 True) as (Hv & Hiff); [tauto|].
    exists (tail w errors0).1, (tail w errors0).2, w. split.
    { unfold tail. cbv beta zeta. simpl fst. simpl snd.
      destruct (fs w !! output_file) as [sto|] eqn:Ho;
        [rewrite !bool_decide_true by eauto
        |rewrite !bool_decide_false by (by intros [? ?])];
        cbn -[FileManager.append]; rewrite ?Ho;
        [destruct (w_ok sto)|]; reflexivity. }
    split; [done|]. split; [done|]. rewrite Hiff, H0. clear -Hdir. tauto.
  - apply bool_decide_eq_false in Hdir.
    destruct (raised (Path_mkdir E output_dir (fs w))) as [e|] eqn:Hmk;
      cbn -[FileManager.append].
    + set (errors1 := FileManager.append errors0
                        ("No se puede crear directorio de salida: "
                         +:+ str_exn e)).
      destruct (Htail (after_mkdir E output_dir w) errors1 False)
        as (Hv & Hiff).
      { unfold errors1, FileManager.append.
        split; [by destruct errors0|tauto]. }
      exists (tail (after_mkdir E output_dir w) errors1).1,
        (tail (after_mkdir E output_dir w) errors1).2,
        (after_mkdir E output_dir w). split.
      { unfold tail, after_mkdir. cbv beta zeta. simpl fst. simpl snd.
        cbn -[FileManager.append].
        destruct (new_fs (Path_mkdir E output_dir (fs w)) !! output_file)
          as [sto|] eqn:Ho;
          [rewrite !bool_decide_true by eauto
          |rewrite !bool_decide_false by (by intros [? ?])];
          cbn -[FileManager.append]; rewrite ?Ho;
          [destruct (w_ok sto)|]; reflexivity. }
      split; [done|]. split; [done|]. rewrite Hiff.
      split; [tauto|]. intros (_ & _ & [?|?] & _); done.
    + destruct (Htail (after_mkdir E output_dir w) errors0 True)
        as (Hv & Hiff); [tauto|].
      exists (tail (after_mkdir E output_dir w) errors0).1,
        (tail (after_mkdir E output_dir w) errors0).2,
        (after_mkdir E output_dir w). split.
      { unfold tail, after_mkdir. cbv beta zeta. simpl fst. simpl snd.
        cbn -[FileManager.append].
        destruct (new_fs (Path_mkdir E output_dir (fs w)) !! output_file)
          as [sto|] eqn:Ho;
          [rewrite !bool_decide_true by eauto
          |rewrite !bool_decide_false by (by intros [? ?])];
          cbn -[FileManager.append]; rewrite ?Ho;
          [destruct (w_ok sto)|]; reflexivity. }
      split; [done|]. split; [done|]. rewrite Hiff, H0. tauto.
Qed.

(* ===================================================================== *)
(** * The names of the output files                                       *)
(* ===================================================================== *)

(** ** Strings *)

Lemma append_cons c a b : String c a +:+ b = String c (a +:+ b).
Proof. reflexivity. Qed.

Lemma append_nil_l a : "" +:+ a = a.
Proof. reflexivity. Qed.

Ltac string_simpl := rewrite ?append_cons, ?append_nil_l; simpl.

Lemma length_append a b :
  String.length (a +:+ b) = (String.length a + String.length b)%nat.
Proof. induction a as [|c a IH]; string_simpl; by rewrite ?IH. Qed.

Lemma append_assoc a b c : (a +:+ b) +:+ c = a +:+ (b +:+ c).
Proof. induction a as [|x a IH]; string_simpl; by rewrite ?IH. Qed.

Lemma append_nil_r a : a +:+ "" = a.
Proof. induction a as [|x a IH]; string_simpl; by rewrite ?IH. Qed.

Lemma substring_all s : String.substring 0 (String.length s) s = s.
Proof. induction s as [|c s IH]; simpl; by rewrite ?IH. Qed.

Lemma substring_prefix a s :
  String.substring 0 (String.length a) (a +:+ s) = a.
Proof.
  induction a as [|c a IH]; string_simpl; [by destruct s|]. by rewrite IH.
Qed.

Lemma substring_skip a n s :
  String.substring (String.length a) n (a +:+ s) = String.substring 0 n s.
Proof. induction a as [|c a IH]; string_simpl; by rewrite ?IH. Qed.

Lemma no_slash_append a b :
  no_slash (a +:+ b) = no_slash a && no_slash b.
Proof.
  induction a as [|c a IH]; string_simpl; [done|].
  by rewrite IH, andb_assoc.
Qed.

Lemma no_slash_substring s : ∀ n m,
  no_slash s = true → no_slash (String.substring n m s) = true.
Proof.
  induction s as [|c s IH]; intros n m Hs; simpl in *.
  - by destruct n, m.
  - apply andb_true_iff in Hs as [Hc Hs].
    destruct n; [destruct m; simpl; [done|]|]; rewrite ?Hc; simpl;
      by apply IH.
Qed.

(** The last dot of [b ++ ".pdf"] is the one of the extension. *)
Lemma rfind_dot_pdf b : ∀ i,
  pathlib.rfind_dot (b +:+ ".pdf") i = Some (i + String.length b)%nat.
Proof.
  induction b as [|c b IH]; intros i; string_simpl.
  - f_equal. lia.
  - rewrite IH. f_equal. lia.
Qed.

Lemma endswith_append b suffix : endswith (b +:+ suffix) suffix = true.
Proof.
  unfold endswith. rewrite length_append.
  apply andb_true_iff. split; [apply Nat.leb_le; lia|].
  replace (String.length b + String.length suffix - String.length suffix)%nat
    with (String.length b) by lia.
  rewrite substring_skip, substring_all. apply String.eqb_refl.
Qed.

(** ** Paths *)

Lemma split_sep_no_slash s : ∀ cur,
  no_slash s = true → pathlib.split_sep cur s = [cur +:+ s].
Proof.
  induction s as [|c s IH]; intros cur Hs; simpl in *.
  - by rewrite append_nil_r.
  - apply andb_true_iff in Hs as [Hc Hs]. apply negb_true_iff in Hc.
    rewrite Hc, IH by done. by rewrite append_assoc.
Qed.

Lemma split_sep_components s : ∀ cur,
  no_slash cur = true →
  Forall (λ c, no_slash c = true) (pathlib.split_sep cur s).
Proof.
  induction s as [|c s IH]; intros cur Hcur; simpl.
  - by repeat constructor.
  - destruct (Ascii.eqb c "/") eqn:Hc.
    + constructor; [done|]. by apply IH.
    + apply IH. rewrite no_slash_append, Hcur. simpl. by rewrite Hc.
Qed.

(** The parts of a parsed path are components. *)
Lemma Path_components s :
  Forall (λ c, component c = true) (pathlib.parts (pathlib.Path s)).
Proof.
  unfold pathlib.Path. simpl.
  pose proof (split_sep_components s "" eq_refl) as Hs.
  induction Hs as [|c cs Hc Hcs IH]; simpl; [constructor|].
  destruct (negb (String.eqb c "") && negb (String.eqb c ".")) eqn:Hf;
    [|exact IH].
  constructor; [|exact IH]. unfold component. by rewrite Hf, Hc.
Qed.

Lemma Path_component f :
  component f = true → pathlib.Path f = {| pathlib.root := false;
                                           pathlib.parts := [f] |}.
Proof.
  unfold component. intros Hf.
  apply andb_true_iff in Hf as [Hf Hs].
  unfold pathlib.Path. rewrite split_sep_no_slash, append_nil_l by done.
  simpl. rewrite Hf. f_equal. destruct f as [|c f]; [done|]. simpl in *.
  apply andb_true_iff in Hs as [Hc _]. apply negb_true_iff in Hc.
  by rewrite Hc.
Qed.

(** [path / name] for a component: the name is appended. *)
Lemma joinpath_component p f :
  component f = true →
  joinpath p f = {| pathlib.root := pathlib.root p;
                    pathlib.parts := pathlib.parts p ++ [f] |}.
Proof.
  intros Hf. unfold joinpath. rewrite (Path_component f Hf). simpl.
  destruct f as [|c f]; [done|]. unfold component in Hf. simpl in *.
  apply andb_true_iff in Hf as [_ Hs].
  apply andb_true_iff in Hs as [Hc _]. apply negb_true_iff in Hc.
  by rewrite Hc.
Qed.

Lemma split_sep_prefix c : ∀ cur rest,
  no_slash c = true →
  pathlib.split_sep cur (c +:+ String "/" rest)
  = (cur +:+ c) :: pathlib.split_sep "" rest.
Proof.
  induction c as [|x c IH]; intros cur rest Hc; string_simpl.
  - by rewrite append_nil_r.
  - simpl in Hc. apply andb_true_iff in Hc as [Hx Hc].
    apply negb_true_iff in Hx. rewrite Hx, IH by done.
    by rewrite append_assoc.
Qed.

Lemma split_sep_join cs : ∀ cur c,
  Forall (λ c, component c = true) (c :: cs) →
  pathlib.split_sep cur (pathlib.join_sep (c :: cs))
  = (cur +:+ c) :: cs.
Proof.
  induction cs as [|c' cs IH]; intros cur c Hcs;
    inversion Hcs as [|? ? Hc Hcs']; subst;
    unfold component in Hc; apply andb_true_iff in Hc as [_ Hc].
  - by apply split_sep_no_slash.
  - change (pathlib.join_sep (c :: c' :: cs))
      with (c +:+ String "/" (pathlib.join_sep (c' :: cs))).
    by rewrite split_sep_prefix, IH, append_nil_l.
Qed.

Lemma filter_components cs :
  Forall (λ c, component c = true) cs →
  List.filter (λ c, negb (String.eqb c "") && negb (String.eqb c ".")) cs
  = cs.
Proof.
  induction 1 as [|c cs Hc Hcs IH]; simpl; [done|].
  unfold component in Hc. apply andb_true_iff in Hc as [-> _].
  by rewrite IH.
Qed.

Lemma is_rooted_join cs :
  Forall (λ c, component c = true) cs →
  pathlib.is_rooted (pathlib.join_sep cs) = false.
Proof.
  intros Hcs. destruct Hcs as [|c cs Hc Hcs]; [done|].
  unfold component in Hc. apply andb_true_iff in Hc as [Hc Hs].
  apply andb_true_iff in Hc as [Hne _].
  destruct c as [|x c]; [done|]. simpl in Hs.
  apply andb_true_iff in Hs as [Hx _]. apply negb_true_iff in Hx.
  destruct cs; simpl; by rewrite Hx.
Qed.

(** Parsing the string of a path gives the path back. *)
Lemma Path_str p :
  Forall (λ c, component c = true) (pathlib.parts p) →
  pathlib.Path (pathlib.str p) = p.
Proof.
  destruct p as [r cs]. simpl. intros Hcs.
  unfold pathlib.str, pathlib.Path. simpl pathlib.root. simpl pathlib.parts.
  destruct cs as [|c cs]; [by destruct r|].
  destruct r.
  - f_equal.
    change (pathlib.split_sep "" ("/" +:+ pathlib.join_sep (c :: cs)))
      with ("" :: pathlib.split_sep "" (pathlib.join_sep (c :: cs))).
    rewrite split_sep_join, append_nil_l by done.
    by rewrite <- (filter_components (c :: cs)) at 2.
  - rewrite append_nil_l, is_rooted_join, split_sep_join, append_nil_l
      by done.
    by rewrite filter_components.
Qed.

(** ** Generated names *)

Lemma last_component cs :
  Forall (λ c, component c = true) cs → no_slash (List.last cs "") = true.
Proof.
  induction 1 as [|c cs Hc Hcs IH]; [done|].
  destruct cs; [|exact IH]. simpl.
  unfold component in Hc. by apply andb_true_iff in Hc as [_ ?].
Qed.

Lemma stem_no_slash s : no_slash (Path_stem (pathlib.Path s)) = true.
Proof.
  pose proof (last_component _ (Path_components s)) as Hn.
  unfold Path_stem. fold (pathlib.name (pathlib.Path s)) in Hn.
  destruct (pathlib.rfind_dot _ 0); [|done].
  destruct (_ && _); [|done]. by apply no_slash_substring.
Qed.

Lemma base_name_no_slash i suffix :
  no_slash suffix = true → no_slash (base_name_of i suffix) = true.
Proof.
  intros Hs. unfold base_name_of. pose proof (stem_no_slash i) as Hst.
  destruct (negb _); [|done]. by rewrite no_slash_append, Hst, Hs.
Qed.

(** The base name is empty only for an empty stem and an empty suffix. *)
Lemma base_name_empty i suffix :
  base_name_of i suffix = "" →
  Path_stem (pathlib.Path i) = "" ∧ suffix = "".
Proof.
  unfold base_name_of, endswith.
  destruct (Path_stem (pathlib.Path i)) as [|c st]; simpl.
  - destruct suffix; simpl; [done|]. by rewrite append_nil_l.
  - destruct (negb _); [|done]. by rewrite append_cons.
Qed.

Lemma base_name_endswith i suffix :
  endswith (base_name_of i suffix) suffix = true.
Proof.
  unfold base_name_of.
  destruct (endswith (Path_stem (pathlib.Path i)) suffix) eqn:He; simpl;
    [done|apply endswith_append].
Qed.

(** A file name [b ++ ".pdf"] is a component when [b] has no separator. *)
Lemma pdf_name_component b :
  no_slash b = true → component (b +:+ ".pdf") = true.
Proof.
  intros Hb. unfold component. rewrite no_slash_append, Hb.
  assert (Hlen : ∀ s, (String.length s < 4)%nat → b +:+ ".pdf" ≠ s).
  { intros s Hs Heq. apply (f_equal String.length) in Heq.
    rewrite length_append in Heq. simpl in Heq. lia. }
  rewrite (proj2 (String.eqb_neq _ "")), (proj2 (String.eqb_neq _ "."));
    [done|apply Hlen; simpl; lia..].
Qed.

(** The suffix and the stem of a path whose name is [b ++ ".pdf"]. *)
Lemma pdf_name_suffix p b :
  pathlib.name p = b +:+ ".pdf" → b ≠ "" →
  pathlib.suffix p = ".pdf" ∧ Path_stem p = b.
Proof.
  intros Hn Hb. unfold pathlib.suffix, Path_stem. rewrite Hn.
  rewrite rfind_dot_pdf, length_append. simpl.
  assert (Hl : (0 < String.length b)%nat) by (destruct b; [done|simpl; lia]).
  replace (0 <? String.length b)%nat with true
    by (symmetry; by apply Nat.ltb_lt).
  replace (S (String.length b) <? String.length b + 4)%nat with true
    by (symmetry; apply Nat.ltb_lt; lia).
  simpl. split; [|apply substring_prefix].
  replace (String.length b + 4 - String.length b)%nat with 4%nat by lia.
  by rewrite substring_skip.
Qed.

(** Parsing the string of [dir / f] for a parsed [dir] and a component
    [f]. *)
Lemma Path_str_joinpath d f :
  component f = true →
  pathlib.Path (pathlib.str (joinpath (pathlib.Path d) f))
  = joinpath (pathlib.Path d) f ∧
  pathlib.name (joinpath (pathlib.Path d) f) = f ∧
  pathlib.parent (joinpath (pathlib.Path d) f) = pathlib.Path d.
Proof.
  intros Hf. rewrite (joinpath_component _ _ Hf). split; [|split].
  - apply Path_str. cbn [pathlib.parts]. apply Forall_app. split.
    + apply Path_components.
    + by repeat constructor.
  - unfold pathlib.name. cbn [pathlib.parts]. apply last_last.
  - unfold pathlib.parent. cbn [pathlib.root pathlib.parts].
    rewrite removelast_last. by destruct (pathlib.Path d).
Qed.

Lemma init_output_dir E input_dir output_dir w self w' :
  FileManagerNames.__init__ E input_dir output_dir w = (inr self, w') →
  FileManagerNames.output_dir self = pathlib.Path output_dir.
Proof.
  unfold FileManagerNames.__init__, mbind, M_bind.
  destruct (FileManagerNames.setup_directories E _ w) as [[e|[]] w1];
    [done|].
  by intros [= <- _].
Qed.

Lemma generate_output_filename_run timestamp self i suffix w :
  FileManagerNames.generate_output_filename timestamp self i suffix w
  = (inr (if bool_decide (is_Some (fs w !! candidate self i suffix))
          then pathlib.str
                 (joinpath (FileManagerNames.output_dir self)
                    ((base_name_of i suffix +:+ "_" +:+ timestamp)
                     +:+ ".pdf"))
          else candidate self i suffix), w).
Proof.
  unfold FileManagerNames.generate_output_filename, Path_exists.
  unfold_monad. cbn. fold (base_name_of i suffix).
  fold (candidate self i suffix). by destruct (bool_decide _).
Qed.

(** The names [generate_output_filename] gives.  For a manager made
    by [__init__], a suffix and a timestamp without ['/'], and an input
    whose stem and suffix are not both empty, the function returns a path
    in the output directory whose extension is [.pdf], so that
    [validate_output_path] does not reject it for its extension; it is
    the first candidate exactly when no file of that name exists. *)
Theorem generated_name_is_a_pdf_in_output_dir
        E timestamp input_dir output_dir w0 self w1 i suffix w :
  FileManagerNames.__init__ E input_dir output_dir w0 = (inr self, w1) →
  no_slash suffix = true → no_slash timestamp = true →
  Path_stem (pathlib.Path i) +:+ suffix ≠ "" →
  ∃ r,
    FileManagerNames.generate_output_filename timestamp self i suffix w
    = (inr r, w) ∧
    lower (pathlib.suffix (pathlib.Path r)) = ".pdf" ∧
    pathlib.parent (pathlib.Path r) = pathlib.Path output_dir ∧
    (r = candidate self i suffix ↔ fs w !! candidate self i suffix = None).
Proof.
  intros Hinit Hs Ht Hne. apply init_output_dir in Hinit.
  rewrite generate_output_filename_run. eexists. split; [reflexivity|].
  unfold candidate. rewrite Hinit.
  pose proof (base_name_no_slash i suffix Hs) as Hb.
  assert (Hbne : base_name_of i suffix ≠ "").
  { intros [H1 H2]%base_name_empty. by rewrite H1, H2 in Hne. }
  assert (Hgen : ∀ b, no_slash b = true → b ≠ "" →
    lower (pathlib.suffix
             (pathlib.Path (pathlib.str (joinpath (pathlib.Path output_dir)
                                           (b +:+ ".pdf"))))) = ".pdf" ∧
    pathlib.parent
      (pathlib.Path (pathlib.str (joinpath (pathlib.Path output_dir)
                                    (b +:+ ".pdf"))))
    = pathlib.Path output_dir).
  { intros b Hnb Hbn.
    destruct (Path_str_joinpath output_dir (b +:+ ".pdf")
                (pdf_name_component b Hnb)) as (-> & Hname & Hpar).
    split; [|exact Hpar].
    by destruct (pdf_name_suffix _ b Hname Hbn) as [-> _]. }
  destruct (fs w !! _) as [st|] eqn:Hex.
  - rewrite bool_decide_true by eauto.
    destruct (Hgen (base_name_of i suffix +:+ "_" +:+ timestamp))
      as [Hsuf Hpar].
    { rewrite !no_slash_append, Hb, Ht. done. }
    { destruct (base_name_of i suffix); [done|]. by rewrite append_cons. }
    split; [exact Hsuf|]. split; [exact Hpar|]. split; [|done].
    intros Heq. exfalso.
    apply (f_equal pathlib.Path) in Heq.
    destruct (Path_str_joinpath output_dir
                ((base_name_of i suffix +:+ "_" +:+ timestamp) +:+ ".pdf"))
      as (Hp1 & Hn1 & _).
    { apply pdf_name_component. by rewrite !no_slash_append, Hb, Ht. }
    destruct (Path_str_joinpath output_dir (base_name_of i suffix +:+ ".pdf")
                (pdf_name_component _ Hb)) as (Hp2 & Hn2 & _).
    rewrite Hp1, Hp2 in Heq. rewrite Heq, Hn2 in Hn1.
    apply (f_equal String.length) in Hn1.
    rewrite !length_append in Hn1. simpl in Hn1. lia.
  - rewrite bool_decide_false by (by intros [? ?]).
    destruct (Hgen _ Hb Hbne) as [Hsuf Hpar]. by split_and!.
Qed.

Lemma generated_name_is_a_pdf_in_output_dir_witness :
  ∃ self w1,
    FileManagerNames.__init__ E_scan "input" "output" w_demo
    = (inr self, w1) ∧
    no_slash "_ocr" = true ∧ no_slash "20240101_120000" = true ∧
    Path_stem (pathlib.Path "scans/report.pdf") +:+ "_ocr" ≠ "" ∧
    ∃ r,
      FileManagerNames.generate_output_filename "20240101_120000" self
        "scans/report.pdf" "_ocr" w_demo = (inr r, w_demo) ∧
      lower (pathlib.suffix (pathlib.Path r)) = ".pdf" ∧
      pathlib.parent (pathlib.Path r) = pathlib.Path "output" ∧
      (r = candidate self "scans/report.pdf" "_ocr" ↔
       fs w_demo !! candidate self "scans/report.pdf" "_ocr" = None).
Proof.
  eexists _, _. split; [reflexivity|].
  split; [reflexivity|]. split; [reflexivity|]. split; [done|].
  eapply (generated_name_is_a_pdf_in_output_dir E_scan "20240101_120000"
            "input" "output" w_demo _ _ "scans/report.pdf" "_ocr" w_demo);
    [reflexivity|reflexivity|reflexivity|done].
Defined.

(** The suffix is not doubled.  When no file has the name it tries
    first, [generate_output_filename] returns that name, and called on
    its own result, with the same suffix, it gives the result back: the
    stem already ends with the suffix, which is not added again. *)
Theorem suffix_is_not_doubled
        E timestamp timestamp' input_dir output_dir w0 self w1 i suffix w w' :
  FileManagerNames.__init__ E input_dir output_dir w0 = (inr self, w1) →
  no_slash suffix = true →
  Path_stem (pathlib.Path i) +:+ suffix ≠ "" →
  fs w !! candidate self i suffix = None →
  fs w' !! candidate self i suffix = None →
  FileManagerNames.generate_output_filename timestamp self i suffix w
  = (inr (candidate self i suffix), w) ∧
  FileManagerNames.generate_output_filename timestamp' self
    (candidate self i suffix) suffix w'
  = (inr (candidate self i suffix), w').
Proof.
  intros Hinit Hs Hne Hw Hw'. apply init_output_dir in Hinit.
  rewrite !generate_output_filename_run.
  assert (Hsame : candidate self (candidate self i suffix) suffix
                  = candidate self i suffix).
  { unfold candidate at 1 3. f_equal. f_equal. f_equal.
    unfold base_name_of at 1. unfold candidate. rewrite Hinit.
    pose proof (base_name_no_slash i suffix Hs) as Hb.
    destruct (Path_str_joinpath output_dir (base_name_of i suffix +:+ ".pdf")
                (pdf_name_component _ Hb)) as (-> & Hname & _).
    destruct (pdf_name_suffix _ (base_name_of i suffix) Hname) as [_ ->].
    { intros [H1 H2]%base_name_empty. by rewrite H1, H2 in Hne. }
    by rewrite base_name_endswith. }
  rewrite Hsame.
  rewrite !bool_decide_false by (rewrite ?Hw, ?Hw'; by intros [? ?]).
  done.
Qed.

Lemma suffix_is_not_doubled_witness :
  ∃ self w1,
    FileManagerNames.__init__ E_scan "input" "output" w_demo
    = (inr self, w1) ∧
    no_slash "_ocr" = true ∧
    Path_stem (pathlib.Path "scans/report.pdf") +:+ "_ocr" ≠ "" ∧
    fs w_demo !! candidate self "scans/report.pdf" "_ocr" = None ∧
    candidate self "scans/report.pdf" "_ocr" = "output/report_ocr.pdf" ∧
    FileManagerNames.generate_output_filename "20240101_120000" self
      "scans/report.pdf" "_ocr" w_demo
    = (inr (candidate self "scans/report.pdf" "_ocr"), w_demo) ∧
    FileManagerNames.generate_output_filename "20240101_120001" self
      (candidate self "scans/report.pdf" "_ocr") "_ocr" w_demo
    = (inr (candidate self "scans/report.pdf" "_ocr"), w_demo).
Proof.
  eexists _, _. split; [reflexivity|].
  split; [reflexivity|]. split; [done|]. split; [reflexivity|].
  split; [reflexivity|].
  eapply (suffix_is_not_doubled E_scan "20240101_120000" "20240101_120001"
            "input" "output" w_demo _ _ "scans/report.pdf" "_ocr"
            w_demo w_demo);
    [reflexivity|reflexivity|done|reflexivity|reflexivity].
Defined.

(* ===================================================================== *)
(** * The orchestrator, end to end                                        *)
(* ===================================================================== *)

Lemma analysis_of_error E p f d evs :
  analysis_of E p f d evs →
  d !! "error" = Some VNone ∧ extraction_succeeds E p f = true ∨
  d !! "error" = Some (VStr PDFDetector.no_method) ∧
  extraction_succeeds E p f = false.
Proof.
  intros [pages tc pwt Ho Hs|pages tc pwt r H1 Ho Hs Hhd|r r' Hf Hhd Hhd'].
  - left. rewrite decided_other, extracted_error by done. split; [done|].
    unfold extraction_succeeds. rewrite Ho. simpl.
    destruct (forallb _ pages) eqn:Hp; [done|].
    apply (scan_pymupdf_None PDFDetector.__init__ _ 0 0) in Hp. congruence.
  - left. rewrite decided_other, extracted_error by done.
    rewrite (half_done_lookup _ _ _ Hhd) by done. split; [done|].
    unfold extraction_succeeds. rewrite Ho. simpl. by rewrite orb_true_r.
  - right. by rewrite lookup_insert_eq.
Qed.

(** What [process_single_pdf] reads in the result of [process_pdf]. *)
Lemma process_pdf_report E self i o force w :
  ∃ d w' s,
    OCRProcessor.process_pdf E self i o force w = (inr d, w') ∧
    d !! "success" = Some (VBool s) ∧
    (s = true →
     is_Some (fs w' !! pathlib.str (pathlib.Path o)) ∧
     ∃ a b m, d !! "file_size_before" = Some (VInt a) ∧
              d !! "file_size_after" = Some (VInt b) ∧
              d !! "processing_method" = Some (VStr m)).
Proof.
  destruct (process_pdf_shape E self i o force w)
    as (d & w' & Hrun &
        [(Hnone & -> & ->)|[(st & e & _ & _ & ->)
                           |(st & s & m & c & Hst & -> & _)]]).
  - eexists _, w, false. split; [exact Hrun|]. by split.
  - eexists _, w', false. split; [exact Hrun|]. by split.
  - eexists _, w', _. split; [exact Hrun|].
    split; [apply checked_success; by rewrite chosen_other by done|].
    intros Hs. apply andb_true_iff in Hs as [-> Hex].
    apply bool_decide_eq_true in Hex. split; [exact Hex|].
    destruct Hex as [st' Hst'].
    exists (st_size st), (st_size st'), m.
    rewrite checked_size_after by (by rewrite chosen_other by done).
    rewrite !checked_other by done.
    rewrite chosen_other, chosen_method by done. simpl. by rewrite Hst'.
Qed.

Lemma bind_getitem {B} (f : value → M B) d k v w :
  d !! k = Some v → M_bind value B f (getitem d k) w = f v w.
Proof. intros H. unfold M_bind, getitem. by rewrite H. Qed.

(** [size / (1024*1024)] on an integer size does not raise. *)
Lemma bind_size_mb {B} (f : value → M B) size w :
  M_bind value B f (lift (py_truediv (VInt size) (VInt (1024 * 1024)))) w
  = f (VFloat (inject_Z size / inject_Z (1024 * 1024))) w.
Proof. reflexivity. Qed.

Lemma fitz_opens_app a b :
  fitz_opens (a ++ b) = fitz_opens a ++ fitz_opens b.
Proof. induction a as [|[] a IH]; simpl; by rewrite ?IH. Qed.

(** The calls [process_pdf] records on an input that is there: without
    [force_ocr] one analysis, then one call of the engine or one copy. *)
Lemma process_pdf_trace E self i o force w st :
  fs w !! pathlib.str (pathlib.Path i) = Some st →
  ∃ d w' evs,
    OCRProcessor.process_pdf E self i o force w = (inr d, w') ∧
    trace w' = trace w ++ evs ∧
    fitz_opens evs = (if force then [] else [i]) ∧
    (ocr_calls evs = [] ∧ force = false ∨
     ocr_calls evs = [OCRProcessor.ocr_config self i o]).
Proof.
  intros Hst. rewrite (process_pdf_present _ _ _ _ _ _ _ Hst).
  destruct force.
  - unfold OCRProcessor.determine_method. rewrite apply_ocr_run.
    unfold applied. destruct (raised _);
      eexists _, _, [_]; (split; [reflexivity|]); (split; [reflexivity|]);
      (split; [done|by right]).
  - destruct (determine_method_auto E self i o (sized i o (st_size st)) w)
      as (d & evs & tc & tp & pwt & avg & h & err & _ & Hevs & _ & ->).
    destruct h.
    + rewrite copy_existing_run.
      destruct (returned _); eexists _, _, (evs ++ [EvCopy2 i o]);
        (split; [reflexivity|]); cbn; rewrite <- app_assoc;
        (split; [reflexivity|]);
        rewrite fitz_opens_app, ocr_calls_app;
        destruct Hevs as [-> | ->]; auto.
    + rewrite apply_ocr_run.
      unfold applied. destruct (raised _);
        eexists _, _, (evs ++ [_]); (split; [reflexivity|]); cbn;
        rewrite <- app_assoc; (split; [reflexivity|]);
        rewrite fitz_opens_app, ocr_calls_app;
        destruct Hevs as [-> | ->]; auto.
Qed.

(** The engine is called at most once by [process_pdf]. *)
Lemma process_pdf_ocr_calls E self i o force w :
  ∃ d w',
    OCRProcessor.process_pdf E self i o force w = (inr d, w') ∧
    (ocr_calls (trace w') = ocr_calls (trace w) ∨
     ocr_calls (trace w')
     = ocr_calls (trace w) ++ [OCRProcessor.ocr_config self i o]).
Proof.
  destruct (fs w !! pathlib.str (pathlib.Path i)) as [st|] eqn:Hst.
  - destruct (process_pdf_trace E self i o force w st Hst)
      as (d & w' & evs & Hp & Htr & _ & Hocr).
    exists d, w'. split; [exact Hp|]. rewrite Htr, ocr_calls_app.
    destruct Hocr as [[-> _]| ->]; [left; apply app_nil_r|by right].
  - rewrite (process_pdf_missing _ _ _ _ _ _ Hst). eexists _, _.
    split; [reflexivity|]. by left.
Qed.

(** [process_single_pdf] step by step: the validations, the analysis,
    the invoker, and the answer read from the invoker's result. *)
Lemma process_single_pdf_run E OCRMYPDF_CONFIG i o force w :
  ∃ b w',
    process_single_pdf E OCRMYPDF_CONFIG i o force w = (inr b, w') ∧
    (b = true ↔
     ∃ w1 w2 analysis result,
       FileValidator.validate_pdf_file i w = (inr (true, None), w) ∧
       FileValidator.validate_output_path E o w = (inr (true, None), w1) ∧
       PDFDetector.analyze_pdf E PDFDetector.__init__ i w1
       = (inr analysis, w2) ∧
       analysis !! "error" = Some VNone ∧
       OCRProcessor.process_pdf E (OCRProcessor.__init__ OCRMYPDF_CONFIG)
         i o force w2 = (inr result, w') ∧
       result !! "success" = Some (VBool true)) ∧
    (b = true → is_Some (fs w' !! pathlib.str (pathlib.Path o))) ∧
    (ocr_calls (trace w') = ocr_calls (trace w) ∨
     ocr_calls (trace w')
     = ocr_calls (trace w)
       ++ [OCRProcessor.ocr_config (OCRProcessor.__init__ OCRMYPDF_CONFIG)
             i o]).
Proof.
  unfold process_single_pdf, try_except, mbind, M_bind at 1.
  destruct (validate_pdf_file_message i w) as (vi & mi & Hvi & Hmi).
  rewrite Hvi. destruct vi; cbn.
  2:{ exists false, w. split; [done|]. split; [|by split; [|left]].
      split; [done|]. intros (? & ? & ? & ? & [=] & _). }
  rewrite (proj1 Hmi eq_refl) in *. clear Hmi.
  unfold M_bind at 1.
  destruct (validate_output_path_message E o w)
    as (vo & mo & w1 & Hvo & Hmo & Hw1).
  assert (Hq1 : ocr_calls (trace w1) = ocr_calls (trace w)).
  { destruct Hw1 as [->|[dir ->]]; [done|].
    by rewrite ocr_calls_app, app_nil_r. }
  clear Hw1. rewrite Hvo. destruct vo; cbn.
  2:{ exists false, w1. split; [done|]. split; [|by split; [|left]].
      split; [done|]. intros (? & ? & ? & ? & _ & [=] & _). }
  rewrite (proj1 Hmo eq_refl) in *. clear Hmo.
  unfold M_bind at 1.
  destruct (analyze_pdf_shape E i w1) as (d & evs & Hrun & Hd).
  rewrite Hrun.
  destruct (analysis_of_verdict _ _ _ _ _ Hd)
    as (tc & tp & pwt & h & Htc & Htp & Hpwt & Hn & _).
  assert (Hq2 : ocr_calls (trace (log w1 evs)) = ocr_calls (trace w)).
  { cbn. rewrite ocr_calls_app, Hq1. destruct Hd; apply app_nil_r. }
  destruct (analysis_of_error _ _ _ _ _ Hd) as [[Herr _]|[Herr _]];
    rewrite Herr; cbn.
  2:{ exists false, (log w1 evs). split; [done|].
      split; [|by split; [|left]]. split; [done|].
      intros (? & ? & ? & ? & _ & [= <-] & Hrun' & Herr' & _).
      rewrite Hrun in Hrun'. injection Hrun' as <- <-. congruence. }
  rewrite (bind_getitem _ _ _ _ _ Htp), (bind_getitem _ _ _ _ _ Hpwt),
    (bind_getitem _ _ _ _ _ Htc), (bind_getitem _ _ _ _ _ Hn).
  destruct (process_pdf_report E (OCRProcessor.__init__ OCRMYPDF_CONFIG)
              i o force (log w1 evs)) as (d' & w' & s & Hp & Hs & Hrep).
  unfold M_bind at 1. rewrite Hp, (bind_getitem _ _ _ _ _ Hs).
  assert (Hq3 : ocr_calls (trace w') = ocr_calls (trace w) ∨
                ocr_calls (trace w')
                = ocr_calls (trace w)
                  ++ [OCRProcessor.ocr_config
                        (OCRProcessor.__init__ OCRMYPDF_CONFIG) i o]).
  { destruct (process_pdf_ocr_calls E
                (OCRProcessor.__init__ OCRMYPDF_CONFIG) i o force
                (log w1 evs)) as (d0 & w0 & Hp0 & Hocr).
    rewrite Hp in Hp0. injection Hp0 as <- <-. by rewrite <- Hq2. }
  destruct s.
  - destruct (Hrep eq_refl) as (Hex & a & b & m & Ha & Hb & Hm).
    change (truthy (VBool true)) with true. cbv iota.
    rewrite (bind_getitem _ _ _ _ _ Ha), bind_size_mb,
      (bind_getitem _ _ _ _ _ Hb), bind_size_mb,
      (bind_getitem _ _ _ _ _ Hm).
    exists true, w'. split; [done|]. split; [|done].
    split; [|done]. intros _. by exists w1, (log w1 evs), d, d'.
  - cbn. exists false, w'. split; [done|]. split; [|done].
    split; [done|].
    intros (? & ? & ? & ? & _ & [= <-] & Hrun' & _ & Hp' & Hs').
    rewrite Hrun in Hrun'. injection Hrun' as <- <-.
    rewrite Hp in Hp'. injection Hp' as <-. congruence.
Qed.

(** When [process_single_pdf] answers [True].  It always returns a
    boolean.  The answer is [True] exactly when the input passes
    [validate_pdf_file], the output passes [validate_output_path], the
    analysis that follows reports no error, and [process_pdf], run after
    it, reports success; the output file then exists when the function
    returns. *)
Theorem orchestrator_answers_true E OCRMYPDF_CONFIG i o force w :
  ∃ b w',
    process_single_pdf E OCRMYPDF_CONFIG i o force w = (inr b, w') ∧
    (b = true ↔
     ∃ w1 w2 analysis result,
       FileValidator.validate_pdf_file i w = (inr (true, None), w) ∧
       FileValidator.validate_output_path E o w = (inr (true, None), w1) ∧
       PDFDetector.analyze_pdf E PDFDetector.__init__ i w1
       = (inr analysis, w2) ∧
       analysis !! "error" = Some VNone ∧
       OCRProcessor.process_pdf E (OCRProcessor.__init__ OCRMYPDF_CONFIG)
         i o force w2 = (inr result, w') ∧
       result !! "success" = Some (VBool true)) ∧
    (b = true → is_Some (fs w' !! pathlib.str (pathlib.Path o))).
Proof.
  destruct (process_single_pdf_run E OCRMYPDF_CONFIG i o force w)
    as (b & w' & Hrun & Hb & Hex & _).
  by exists b, w'.
Qed.

(** The document is analysed twice.  In a run of
    [process_single_pdf] that answers [True] without [force_ocr], the
    primary backend is opened on the input twice: once by the
    orchestrator and once more by [process_pdf], which does not receive
    the first analysis.  With [force_ocr] it is opened once. *)
Theorem analysis_is_repeated E OCRMYPDF_CONFIG i o force w :
  ∃ b w',
    process_single_pdf E OCRMYPDF_CONFIG i o force w = (inr b, w') ∧
    (b = true →
     fitz_opens (trace w')
     = fitz_opens (trace w) ++ (if force then [i] else [i; i])).
Proof.
  destruct (process_single_pdf_run E OCRMYPDF_CONFIG i o force w)
    as (b & w' & Hrun & Hb & _ & _).
  exists b, w'. split; [exact Hrun|]. intros Htrue.
  apply Hb in Htrue
    as (w1 & w2 & d & d' & _ & Hvo & Han & _ & Hp & Hs).
  destruct (validate_output_path_run E o w) as (r & w1' & Hvo' & Htr).
  rewrite Hvo in Hvo'. injection Hvo' as <- <-.
  destruct (analyze_pdf_shape E i w1) as (d0 & evs & Han' & Hd).
  rewrite Han in Han'. injection Han' as <- ->.
  assert (Hevs : fitz_opens evs = [i]).
  { destruct Hd; reflexivity. }
  destruct (fs (log w1 evs) !! pathlib.str (pathlib.Path i)) as [st|] eqn:Hst.
  2:{ rewrite (process_pdf_missing _ _ _ _ _ _ Hst) in Hp.
      injection Hp as <- <-. discriminate. }
  destruct (process_pdf_trace E (OCRProcessor.__init__ OCRMYPDF_CONFIG)
              i o force (log w1 evs) st Hst)
    as (d1 & w1' & evs' & Hp' & Htr' & Hopens & _).
  rewrite Hp in Hp'. injection Hp' as <- <-.
  rewrite Htr'. cbn. rewrite !fitz_opens_app, Hevs, Hopens.
  assert (Hw1 : fitz_opens (trace w1) = fitz_opens (trace w)).
  { destruct Htr as [->|[dir ->]]; [done|].
    by rewrite fitz_opens_app, app_nil_r. }
  rewrite Hw1, <- app_assoc. by destruct force.
Qed.

(* ===================================================================== *)
(** * The checks of the installation                                      *)
(* ===================================================================== *)

(** ** Lines, pieces and substrings *)

Lemma split_char_cons sep s : ∀ cur,
  ∃ piece rest, split_char sep cur s = piece :: rest.
Proof.
  induction s as [|c s IH]; intros cur; simpl; [eauto|].
  destruct (c =? sep)%N; eauto.
Qed.

(** Joining the pieces with the separator gives the text back. *)
Lemma join_split_char sep s : ∀ cur,
  join [sep] (split_char sep cur s) = cur ++ s.
Proof.
  induction s as [|c s IH]; intros cur; simpl.
  - by rewrite app_nil_r.
  - destruct (c =? sep)%N eqn:Hc.
    + apply N.eqb_eq in Hc. subst c. rewrite join_cons, IH.
      by destruct (split_char_cons sep s []) as (p & r & ->).
    + by rewrite IH, <- app_assoc.
Qed.

(** No piece holds the separator. *)
Lemma split_char_pieces sep s : ∀ cur,
  sep ∉ cur → Forall (λ piece, sep ∉ piece) (split_char sep cur s).
Proof.
  induction s as [|c s IH]; intros cur Hcur; simpl.
  - by constructor.
  - destruct (c =? sep)%N eqn:Hc.
    + constructor; [done|]. apply IH. apply not_elem_of_nil.
    + apply IH. apply N.eqb_neq in Hc.
      rewrite elem_of_app, list_elem_of_singleton.
      intros [?|?]; [done|]. by subst.
Qed.

(** Every piece lies in the text. *)
Lemma split_char_infix sep s : ∀ cur piece,
  piece ∈ split_char sep cur s → ∃ a b, cur ++ s = a ++ piece ++ b.
Proof.
  induction s as [|c s IH]; intros cur piece Hin; simpl in Hin.
  - apply list_elem_of_singleton in Hin as ->.
    exists [], []. by rewrite !app_nil_r.
  - destruct (c =? sep)%N.
    + apply elem_of_cons in Hin as [->|Hin].
      * by exists [], (c :: s).
      * apply IH in Hin as (a & b & Hab). simpl in Hab.
        exists (cur ++ c :: a), b. rewrite Hab.
        by rewrite <- app_assoc.
    + apply IH in Hin as (a & b & Hab). exists a, b.
      by rewrite <- Hab, <- app_assoc.
Qed.

Lemma lstrip_suffix s : ∃ a, s = a ++ lstrip s.
Proof.
  induction s as [|c s [a IH]]; simpl; [by exists []|].
  destruct (isspace c).
  - exists (c :: a). simpl. by f_equal.
  - by exists [].
Qed.

Lemma strip_infix s : ∃ a b, s = a ++ strip s ++ b.
Proof.
  unfold strip, rstrip.
  destruct (lstrip_suffix s) as [a Ha].
  destruct (lstrip_suffix (rev (lstrip s))) as [b Hb].
  exists a, (rev b). rewrite <- rev_app_distr, <- Hb, rev_involutive.
  exact Ha.
Qed.

Lemma string_of_list_ascii_app a b :
  String.string_of_list_ascii (a ++ b)
  = String.string_of_list_ascii a +:+ String.string_of_list_ascii b.
Proof. induction a as [|c a IH]; simpl; by rewrite ?IH. Qed.

Lemma encode_app a b : encode (a ++ b) = encode a +:+ encode b.
Proof. unfold encode. by rewrite bind_app, string_of_list_ascii_app. Qed.

Lemma prefix_append s t : String.prefix s (s +:+ t) = true.
Proof.
  induction s as [|c s IH]; simpl; [by destruct t|].
  by destruct (ascii_dec c c).
Qed.

Lemma contains_append a s b : contains s (a +:+ s +:+ b) = true.
Proof.
  induction a as [|c a IH].
  - change ("" +:+ s +:+ b) with (s +:+ b).
    pose proof (prefix_append s b) as Hp.
    destruct (s +:+ b); unfold contains; fold contains; by rewrite Hp.
  - change (String c a +:+ s +:+ b) with (String c (a +:+ s +:+ b)).
    simpl. rewrite IH. apply orb_true_r.
Qed.

(** A line after the header, encoded, is a substring of the encoded
    output. *)
Lemma listed_is_contained stdout l :
  l ∈ lines_after_header stdout →
  contains (encode l) (encode stdout) = true.
Proof.
  unfold lines_after_header. intros Hin.
  assert (Hin' : l ∈ split_char NEWLINE [] (strip stdout)).
  { destruct (split_char NEWLINE [] (strip stdout)); [done|].
    by apply list_elem_of_further. }
  apply split_char_infix in Hin' as (a & b & Hab). simpl in Hab.
  destruct (strip_infix stdout) as (a' & b' & Hs).
  rewrite Hs, Hab. rewrite <- !app_assoc, (app_assoc a' a).
  rewrite (encode_app (a' ++ a)), (encode_app l).
  apply contains_append.
Qed.

(** ** The checks of the installation *)

Lemma check_tesseract_run H errors w :
  OCRInstallation.check_tesseract H errors w
  = match subprocess_run H ["tesseract"; "--version"] (fs w) with
    | Completed returncode stdout =>
        if returncode =? 0
        then match split stdout !! 1%nat with
             | Some _ => (inr (true, errors), w)
             | None => (inl IndexError, w)
             end
        else (inr (false, errors ++ ["Tesseract no responde correctamente"]),
              w)
    | TimeoutExpired =>
        (inr (false, errors ++ ["Tesseract no encontrado en PATH"]), w)
    | RunRaises e =>
        match e with
        | FileNotFoundError _ =>
            (inr (false, errors ++ ["Tesseract no encontrado en PATH"]), w)
        | _ => (inl e, w)
        end
    end.
Proof.
  unfold OCRInstallation.check_tesseract, FileManager.append.
  unfold_monad. cbn.
  destruct (subprocess_run H _ (fs w)) as [rc out| |[]]; try done.
  destruct (rc =? 0); [|done]. by destruct (split out !! 1%nat).
Qed.

(** The second block adds one error or none, and never raises. *)
Lemma check_language_run H self errors w :
  ∃ available : bool,
    OCRInstallation.check_language H self errors w
    = (inr (available,
            errors ++ if available then []
                      else [match subprocess_run H
                                    ["tesseract"; "--list-langs"] (fs w),
                                  OCRProcessor.language self with
                            | Completed _ _, VStr language =>
                                "Idioma " +:+ language +:+ " no disponible"
                            | _, _ =>
                                "No se pudo verificar idiomas disponibles"
                            end]), w) ∧
    (available = true ↔
     ∃ returncode stdout language,
       subprocess_run H ["tesseract"; "--list-langs"] (fs w)
       = Completed returncode stdout ∧
       OCRProcessor.language self = VStr language ∧
       contains language (encode stdout) = true).
Proof.
  unfold OCRInstallation.check_language, FileManager.append.
  unfold_monad. cbn.
  destruct (subprocess_run H _ (fs w)) as [rc out| |e].
  - destruct (OCRProcessor.language self) as [| | | |language];
      try (exists false; split; [done|];
           split; [done|]; by intros (? & ? & ? & _ & [=] & _)).
    destruct (contains language (encode out)) eqn:Hc.
    + exists true. rewrite app_nil_r. split; [done|]. split; [|done].
      intros _. by exists rc, out, language.
    + exists false. split; [done|]. split; [done|].
      intros (? & ? & ? & [= <- <-] & [= <-] & Hc'). congruence.
  - exists false. split; [done|]. split; [done|].
    by intros (? & ? & ? & [=] & _).
  - exists false. split; [done|]. split; [done|].
    by intros (? & ? & ? & [=] & _).
Qed.

(** [validate_ocr_installation] is its two blocks, one after the other. *)
Lemma validate_ocr_installation_run H self w :
  OCRInstallation.validate_ocr_installation H self w
  = match OCRInstallation.check_tesseract H [] w with
    | (inr (t, errs), w1) =>
        match OCRInstallation.check_language H self errs w1 with
        | (inr (l, errs'), w2) =>
            (inr {| OCRInstallation.ocrmypdf_available := true;
                    OCRInstallation.tesseract_available := t;
                    OCRInstallation.language_available := l;
                    OCRInstallation.all_valid := true && t && l;
                    OCRInstallation.errors := errs' |}, w2)
        | (inl e, w2) => (inl e, w2)
        end
    | (inl e, w1) => (inl e, w1)
    end.
Proof.
  unfold OCRInstallation.validate_ocr_installation, mbind, M_bind.
  destruct (OCRInstallation.check_tesseract H [] w) as [[e|[t errs]] w1];
    [done|].
  by destruct (OCRInstallation.check_language H self errs w1)
    as [[e|[l errs']] w2].
Qed.

(** The first block adds one error or none. *)
Lemma check_tesseract_errors H w t errs w' :
  OCRInstallation.check_tesseract H [] w = (inr (t, errs), w') →
  w' = w ∧ length errs = (if t then 0 else 1)%nat.
Proof.
  rewrite check_tesseract_run.
  destruct (subprocess_run H _ (fs w)) as [rc out| |e].
  - destruct (rc =? 0).
    + destruct (split out !! 1%nat); [|discriminate]. by intros [= <- <- <-].
    + by intros [= <- <- <-].
  - by intros [= <- <- <-].
  - destruct e; try discriminate. by intros [= <- <- <-].
Qed.

(** What [validate_ocr_installation] returns.  Whenever it returns,
    the world is as before, [ocrmypdf_available] is true (the [import]
    cannot fail where the class exists), [all_valid] is the conjunction
    of the two other flags, each check that fails has added exactly one
    message, and so [all_valid] holds exactly when [errors] is empty. *)
Theorem installation_report_is_consistent H self w v w' :
  OCRInstallation.validate_ocr_installation H self w = (inr v, w') →
  w' = w ∧
  OCRInstallation.ocrmypdf_available v = true ∧
  OCRInstallation.all_valid v
  = OCRInstallation.tesseract_available v
    && OCRInstallation.language_available v ∧
  length (OCRInstallation.errors v)
  = ((if OCRInstallation.tesseract_available v then 0 else 1)
     + (if OCRInstallation.language_available v then 0 else 1))%nat ∧
  (OCRInstallation.all_valid v = true ↔ OCRInstallation.errors v = []).
Proof.
  rewrite validate_ocr_installation_run.
  destruct (OCRInstallation.check_tesseract H [] w) as [[e|[t errs]] w1]
    eqn:Ht; [discriminate|].
  apply check_tesseract_errors in Ht as [-> Hlen].
  destruct (check_language_run H self errs w) as (l & -> & _).
  intros [= <- <-]. simpl.
  split; [done|]. split; [done|]. split; [done|].
  rewrite length_app, Hlen.
  split; [by destruct t, l|].
  destruct t, l, errs; simpl in *; split; try done; lia.
Qed.

Lemma installation_report_is_consistent_witness :
  ∃ v,
    OCRInstallation.validate_ocr_installation H_demo demo_processor w_demo
    = (inr v, w_demo) ∧
    w_demo = w_demo ∧
    OCRInstallation.ocrmypdf_available v = true ∧
    OCRInstallation.all_valid v
    = OCRInstallation.tesseract_available v
      && OCRInstallation.language_available v ∧
    length (OCRInstallation.errors v)
    = ((if OCRInstallation.tesseract_available v then 0 else 1)
       + (if OCRInstallation.language_available v then 0 else 1))%nat ∧
    (OCRInstallation.all_valid v = true ↔ OCRInstallation.errors v = []).
Proof.
  eexists. split; [reflexivity|].
  apply (installation_report_is_consistent H_demo demo_processor w_demo).
  reflexivity.
Defined.

(** When [validate_ocr_installation] raises.  It raises in two cases
    only: [tesseract --version] ends with status 0 and fewer than two
    words on its standard output, and reading the version for the log
    raises [IndexError]; or starting the process raises something other
    than [FileNotFoundError] (the timeout is caught).  In every other
    case it returns its dictionary. *)
Theorem installation_check_raises H self w e :
  (OCRInstallation.validate_ocr_installation H self w).1 = inl e ↔
  (∃ stdout,
     subprocess_run H ["tesseract"; "--version"] (fs w) = Completed 0 stdout ∧
     (length (split stdout) < 2)%nat ∧ e = IndexError) ∨
  (subprocess_run H ["tesseract"; "--version"] (fs w) = RunRaises e ∧
   ∀ p, e ≠ FileNotFoundError p).
Proof.
  rewrite validate_ocr_installation_run, check_tesseract_run.
  assert (Hl : ∀ t errs,
    (match OCRInstallation.check_language H self errs w with
     | (inr (l, errs'), w2) =>
         (inr {| OCRInstallation.ocrmypdf_available := true;
                 OCRInstallation.tesseract_available := t;
                 OCRInstallation.language_available := l;
                 OCRInstallation.all_valid := true && t && l;
                 OCRInstallation.errors := errs' |}, w2)
     | (inl e0, w2) => (inl e0, w2)
     end).1 ≠ inl e).
  { intros t errs. by destruct (check_language_run H self errs w)
      as (l & -> & _). }
  destruct (subprocess_run H _ (fs w)) as [rc out| |e0].
  - destruct (rc =? 0) eqn:Hrc.
    + apply Z.eqb_eq in Hrc as ->.
      destruct (split out !! 1%nat) as [word|] eqn:Hw.
      * split; [by intros ?%Hl|].
        intros [(out' & [= <-] & Hlen & _)|[[=] _]].
        apply lookup_lt_Some in Hw. lia.
      * simpl. split.
        -- intros [= <-]. left. exists out. split; [done|].
           apply lookup_ge_None in Hw. split; [lia|done].
        -- by intros [(? & _ & _ & ->)|[[=] _]].
    + apply Z.eqb_neq in Hrc. split; [by intros ?%Hl|].
      by intros [(out' & [= -> <-] & _)|[[=] _]].
  - split; [by intros ?%Hl|]. by intros [(? & [=] & _)|[[=] _]].
  - destruct e0; simpl;
      try (split; [intros [= <-]; right; by split
                  |by intros [(? & [=] & _)|[[= <-] _]]]).
    split; [by intros ?%Hl|].
    intros [(? & [=] & _)|[[= <-] Hne]]. by destruct (Hne path).
Qed.

(** The two language checks.  A language that
    [validate_language_support] accepts (it is one of the lines after
    the header) is also found by [validate_ocr_installation], which only
    asks whether the language occurs somewhere in the output. *)
Theorem listed_language_is_found H self w language v w' :
  OCRProcessor.language self = VStr language →
  SystemValidator.validate_language_support H language w
  = (inr (true, None), w) →
  OCRInstallation.validate_ocr_installation H self w = (inr v, w') →
  OCRInstallation.language_available v = true.
Proof.
  intros Hlang Hsup. rewrite validate_ocr_installation_run.
  destruct (OCRInstallation.check_tesseract H [] w) as [[e|[t errs]] w1]
    eqn:Ht; [discriminate|].
  apply check_tesseract_errors in Ht as [-> _].
  destruct (check_language_run H self errs w) as (l & -> & Hl).
  intros [= <- <-]. simpl. apply Hl.
  unfold SystemValidator.validate_language_support in Hsup.
  unfold_monad. cbn in Hsup.
  destruct (subprocess_run H _ (fs w)) as [rc out| |e]; try discriminate.
  exists rc, out, language. split; [done|]. split; [done|].
  destruct (bool_decide _) eqn:Hin; [|discriminate].
  apply bool_decide_eq_true in Hin.
  apply list_elem_of_fmap in Hin as (l0 & -> & Hin).
  by apply listed_is_contained.
Qed.

Lemma listed_language_is_found_witness :
  OCRProcessor.language demo_processor = VStr "spa" ∧
  SystemValidator.validate_language_support H_demo "spa" w_demo
  = (inr (true, None), w_demo) ∧
  ∃ v,
    OCRInstallation.validate_ocr_installation H_demo demo_processor w_demo
    = (inr v, w_demo) ∧
    OCRInstallation.language_available v = true.
Proof.
  split; [reflexivity|]. split; [reflexivity|].
  eexists. split; [reflexivity|].
  apply (listed_language_is_found H_demo demo_processor w_demo "spa" _
           w_demo); reflexivity.
Defined.

(** The converse fails: with only [spa_old] installed, the list has no
    [spa], yet [spa] occurs in the output. *)
Example substring_check_accepts_more :
  (SystemValidator.validate_language_support H_old "spa" w_demo).1
  = inr (false,
         Some "Idioma 'spa' no disponible. Disponibles: eng, spa_old") ∧
  OCRInstallation.language_available
    <$> returned_value
          (OCRInstallation.validate_ocr_installation H_old demo_processor
             w_demo)
  = Some true.
Proof. vm_compute. split; reflexivity. Qed.

(** [get_supported_languages] never raises and leaves the world as
    it is.  When [tesseract --list-langs] ends with status 0 it returns
    the lines of the stripped output after the first: the header and the
    languages, joined by newlines, are that output again, and no language
    holds a newline.  In every other case it returns the empty list. *)
Theorem supported_languages_are_the_lines H w :
  ∃ languages,
    OCRInstallation.get_supported_languages H w = (inr languages, w) ∧
    Forall (λ language, NEWLINE ∉ language) languages ∧
    ((∃ stdout header,
        subprocess_run H ["tesseract"; "--list-langs"] (fs w)
        = Completed 0 stdout ∧
        join [NEWLINE] (header :: languages) = strip stdout ∧
        NEWLINE ∉ header) ∨
     (languages = [] ∧
      ∀ stdout, subprocess_run H ["tesseract"; "--list-langs"] (fs w)
                ≠ Completed 0 stdout)).
Proof.
  unfold OCRInstallation.get_supported_languages. unfold_monad. cbn.
  destruct (subprocess_run H _ (fs w)) as [rc out| |e];
    try (exists []; split; [done|]; split; [constructor|]; by right).
  destruct (rc =? 0) eqn:Hrc.
  2:{ apply Z.eqb_neq in Hrc. exists []. split; [done|].
      split; [constructor|]. right. split; [done|]. by intros ? [= ? _]. }
  apply Z.eqb_eq in Hrc as ->.
  exists (lines_after_header out). split; [done|].
  unfold lines_after_header.
  pose proof (join_split_char NEWLINE (strip out) []) as Hj.
  pose proof (split_char_pieces NEWLINE (strip out) []
                (not_elem_of_nil _)) as Hp.
  destruct (split_char NEWLINE [] (strip out)) as [|header langs] eqn:Hsp.
  { destruct (split_char_cons NEWLINE (strip out) []) as (? & ? & Hc).
    rewrite Hsp in Hc. discriminate. }
  inversion Hp as [|? ? Hh Hls]; subst. simpl tail.
  split; [done|]. left. by exists out, header.
Qed.

(* ===================================================================== *)
(** * The program                                                         *)
(* ===================================================================== *)

Lemma mkdir_exist_ok_run {A} H d (k : M A) w :
  (_ ← ConfigPaths.mkdir_exist_ok H d; k) w
  = let w1 := {| fs := new_fs (Path_mkdir_exist_ok H (pathlib.str d) (fs w));
                 trace := trace w ++ [EvMkdir (pathlib.str d)] |} in
    match raised (Path_mkdir_exist_ok H (pathlib.str d) (fs w)) with
    | Some e => (inl e, w1)
    | None => k w1
    end.
Proof.
  unfold ConfigPaths.mkdir_exist_ok. unfold_monad. cbn.
  by destruct (raised _).
Qed.

(** [create_directories] records calls of [mkdir] only. *)
Lemma create_directories_run H w :
  ∃ r w' evs,
    ConfigPaths.create_directories H w = (r, w') ∧
    trace w' = trace w ++ evs ∧ ocr_calls evs = [].
Proof.
  unfold ConfigPaths.create_directories. simpl foldr.
  rewrite mkdir_exist_ok_run. cbv zeta.
  destruct (raised _); [by eexists _, _, [_]|].
  rewrite mkdir_exist_ok_run. cbv zeta.
  destruct (raised _);
    [eexists _, _, [_; _]; cbn; by rewrite <- app_assoc|].
  rewrite mkdir_exist_ok_run. cbv zeta.
  destruct (raised _); eexists _, _, [_; _; _]; cbn;
    by rewrite <- !app_assoc.
Qed.

Lemma validate_tesseract_installation_run H p w :
  ∃ b msg,
    SystemValidator.validate_tesseract_installation H p w
    = (inr (b, msg), w) ∧
    (b = true →
     os_path_exists H p (fs w) = true ∧ os_access_X_OK H p (fs w) = inr true).
Proof.
  unfold SystemValidator.validate_tesseract_installation.
  unfold_monad. cbn.
  destruct (os_path_exists H _ (fs w)) eqn:Hex; cbn;
    [|by eexists false, _].
  destruct (os_access_X_OK H _ (fs w)) as [e|[]] eqn:Hx; cbn;
    by eexists _, _.
Qed.

Lemma validate_language_support_run H language w :
  ∃ b msg,
    SystemValidator.validate_language_support H language w
    = (inr (b, msg), w) ∧
    (b = true → msg = None).
Proof.
  unfold SystemValidator.validate_language_support.
  unfold_monad. cbn.
  destruct (subprocess_run H _ (fs w)) as [rc out| |e];
    try (by eexists false, _).
  destruct (bool_decide _); cbn; by eexists _, _.
Qed.

(** [validate_system] always answers; it answers [True] only where the
    configured executable exists and ['spa'] is listed. *)
Lemma validate_system_run H w :
  ∃ b w',
    validate_system H w = (inr b, w') ∧
    ocr_calls (trace w') = ocr_calls (trace w) ∧
    (b = true →
     os_path_exists H ConfigPaths.TESSERACT_CMD (fs w) = true ∧
     os_access_X_OK H ConfigPaths.TESSERACT_CMD (fs w) = inr true ∧
     SystemValidator.validate_language_support H "spa" w
     = (inr (true, None), w)).
Proof.
  unfold validate_system, mbind, M_bind at 1.
  destruct (validate_tesseract_installation_run H
              ConfigPaths.TESSERACT_CMD w) as (t & tmsg & -> & Ht).
  destruct t; cbn [negb]; [|by exists false, w].
  destruct (Ht eq_refl) as [Hex Hx]. unfold M_bind at 1.
  destruct (validate_language_support_run H "spa" w)
    as (l & lmsg & Hl & Hmsg).
  rewrite Hl. destruct l; cbn [negb]; [|by exists false, w].
  rewrite (Hmsg eq_refl) in *. clear Hmsg.
  unfold try_except, M_bind.
  destruct (create_directories_run H w) as (r & w' & evs & -> & Htr & Hocr).
  assert (Hq : ocr_calls (trace w') = ocr_calls (trace w)).
  { by rewrite Htr, ocr_calls_app, Hocr, app_nil_r. }
  destruct r as [e|[]]; [by exists false, w'|].
  by exists true, w'.
Qed.

(** [main] step by step. *)
Lemma main_run E H a w :
  ∃ status w',
    main E H a w = (inr status, w') ∧
    (status = 0 ∨ status = 1) ∧
    (status = 0 ↔
     ∃ w1,
       validate_system H w = (inr true, w1) ∧
       process_single_pdf E
         (<["language" := VStr (idioma a)]> Config.OCRMYPDF_CONFIG)
         (input_file a) (output_file a) (forzar_ocr a) w1
       = (inr true, w')) ∧
    (status = 0 →
     is_Some (fs w' !! pathlib.str (pathlib.Path (output_file a)))) ∧
    (ocr_calls (trace w') = ocr_calls (trace w) ∨
     ocr_calls (trace w')
     = ocr_calls (trace w)
       ++ [OCRProcessor.ocr_config
             (OCRProcessor.__init__
                (<["language" := VStr (idioma a)]> Config.OCRMYPDF_CONFIG))
             (input_file a) (output_file a)]).
Proof.
  unfold main, try_except, mbind, M_bind at 1.
  destruct (validate_system_run H w) as (ok & w1 & Hv & Hq & _).
  rewrite Hv. destruct ok; cbn.
  2:{ exists 1, w1. split; [done|]. split; [by right|].
      split; [|by split; [|left]]. split; [done|].
      by intros (? & [=] & _). }
  unfold M_bind.
  destruct (process_single_pdf_run E
              (<["language" := VStr (idioma a)]> Config.OCRMYPDF_CONFIG)
              (input_file a) (output_file a) (forzar_ocr a) w1)
    as (b & w' & Hp & _ & Hex & Hocr).
  rewrite Hp, <- Hq. destruct b; cbn.
  - exists 0, w'. split; [done|]. split; [by left|].
    split; [|by split; [auto|]]. split; [|done]. intros _. by exists w1.
  - exists 1, w'. split; [done|]. split; [by right|].
    split; [|by split]. split; [done|].
    intros (? & [= <-] & Hp'). rewrite Hp in Hp'. discriminate.
Qed.

(** The exit status of the program.  [main] always ends with status
    0 or 1.  The status is 0 exactly when [validate_system] answers
    [True] and [process_single_pdf], run after it with [--idioma] stored
    in the configuration, answers [True]; the output file then exists
    when the program ends, and the executable named by
    [Config.TESSERACT_CMD], a Windows path, existed when it started. *)
Theorem exit_status_zero_means_output E H a w :
  ∃ status w',
    main E H a w = (inr status, w') ∧
    (status = 0 ∨ status = 1) ∧
    (status = 0 ↔
     ∃ w1,
       validate_system H w = (inr true, w1) ∧
       process_single_pdf E
         (<["language" := VStr (idioma a)]> Config.OCRMYPDF_CONFIG)
         (input_file a) (output_file a) (forzar_ocr a) w1
       = (inr true, w')) ∧
    (status = 0 →
     is_Some (fs w' !! pathlib.str (pathlib.Path (output_file a))) ∧
     os_path_exists H ConfigPaths.TESSERACT_CMD (fs w) = true).
Proof.
  destruct (main_run E H a w) as (status & w' & Hrun & H01 & Hiff & Hex & _).
  exists status, w'. split_and!; try done.
  intros Hs. split; [by apply Hex|].
  apply Hiff in Hs as (w1 & Hv & _).
  destruct (validate_system_run H w) as (ok & w1' & Hv' & _ & Hok).
  rewrite Hv in Hv'. injection Hv' as <- <-. by apply Hok.
Qed.

(** The language that reaches the engine.  In a run of [main] the
    engine is called at most once, with the paths of the command line,
    [deskew] and [clean] false, and the language given by [--idioma],
    whatever it is: [validate_system] has only asked for ['spa']. *)
Theorem engine_language_is_idioma E H a w :
  ∃ status w',
    main E H a w = (inr status, w') ∧
    (ocr_calls (trace w') = ocr_calls (trace w) ∨
     ∃ kwargs,
       ocr_calls (trace w') = ocr_calls (trace w) ++ [kwargs] ∧
       ocrmypdf.language kwargs = VStr (idioma a) ∧
       ocrmypdf.input_file kwargs = input_file a ∧
       ocrmypdf.output_file kwargs = output_file a ∧
       ocrmypdf.deskew kwargs = false ∧
       ocrmypdf.clean kwargs = false) ∧
    (status = 0 →
     SystemValidator.validate_language_support H "spa" w
     = (inr (true, None), w)).
Proof.
  destruct (main_run E H a w)
    as (status & w' & Hrun & _ & Hiff & _ & Hocr).
  exists status, w'. split; [exact Hrun|]. split.
  - destruct Hocr as [Hocr|Hocr]; [by left|]. right.
    eexists. split; [exact Hocr|]. done.
  - intros Hs. apply Hiff in Hs as (w1 & Hv & _).
    destruct (validate_system_run H w) as (ok & w1' & Hv' & _ & Hok).
    rewrite Hv in Hv'. injection Hv' as <- <-. by apply Hok.
Qed.
